(** * Greenhouse simulation engine

    A shallow embedding of the simulation core of the greenhouse server:
    [services/SensorSimulator.ts] (the per-greenhouse environment update and
    the per-table growth, death, harvest and replant rules) and the actuator
    and speed entry points of [services/GreenhouseManager.ts].

    Numbers.  A TypeScript [number] that holds a measurement (temperature,
    humidity, moisture, fertility, plant size, plant count, light, shading,
    tick interval) is embedded twice.  The modules [PlantTable],
    [GreenhouseData], [EnvironmentData], [SensorSimulator] and
    [GreenhouseManager] hold it as an exact rational [Q]: they are the engine
    on numbers.  The modules under [WithNaN] repeat the records and the
    methods of [SensorSimulator] with measurements of type [Number.t], a
    rational or NaN: they are the engine on what [readEnvironmentData] can
    hand it, [parseFloat] giving NaN for a blank cell.  On records without
    NaN the two agree, method by method.  The rounding of IEEE doubles and
    the infinities are outside both.  Every division of the source has a
    divisor that is a non-zero constant or is guarded to be non-zero on its
    path, so [Qdiv] never meets its zero case.  Counters and identifiers that
    only ever hold integers (ids, day, minute of the day, the
    over-fertilisation counter) are embedded as [Z].

    State.  The two private side maps of the simulator are [gmap]s; the
    object mutation of the source is written as explicit state passing:
    a method that mutates [this] and its argument returns the new simulator
    state together with the new record.  [updateTableData] is declared
    [async] but awaits nothing, so its body runs to the end within the call.
    Console output is not modelled. *)

From stdpp Require Import gmap strings list fin_maps pretty.
From Stdlib Require Import QArith Qround Lqa.

(** ** JavaScript arithmetic on the rational model *)

Module JS.
#[local] Open Scope Q_scope.

(** [a <= b] and [a < b] as booleans; [a > b] is written [Qlt_bool b a]
    and [a >= b] is written [Qle_bool b a]. *)
Definition Qlt_bool (a b : Q) : bool := negb (Qle_bool b a).

Definition Math_max (a b : Q) : Q := if Qle_bool a b then b else a.
Definition Math_min (a b : Q) : Q := if Qle_bool a b then a else b.
Definition Math_floor (x : Q) : Q := inject_Z (Qfloor x).
Definition Math_ceil (x : Q) : Q := inject_Z (Qceiling x).
(** [Math.round] rounds half up: [floor (x + 0.5)]. *)
Definition Math_round (x : Q) : Q := inject_Z (Qfloor (x + 0.5)).
End JS.

Export JS.

Declare Scope js_scope.
Delimit Scope js_scope with js.
Infix "<=?" := Qle_bool (at level 70, no associativity) : js_scope.
Infix "<?" := Qlt_bool (at level 70, no associativity) : js_scope.
Notation "a >=? b" := (Qle_bool b a) (at level 70, no associativity) : js_scope.
Notation "a >? b" := (Qlt_bool b a) (at level 70, no associativity) : js_scope.
Notation "a ===? b" := (Qeq_bool a b) (at level 70, no associativity) : js_scope.

(** ** Data model: [types/greenhouse.types] as used by the services *)

Module PlantTable.
Record t : Type := mk {
  id : Z;
  position : string;
  temperature : Q;
  plantSize : Q;
  plantCount : Q;
  soilMoisture : Q;
  soilFertility : Q;
  artLight : Q;
  water : bool;
  fertilizer : bool;
  plantedDate : Z
}.

(** Field assignments [table.f = v]. *)
Definition set_temperature (v : Q) (x : t) : t :=
  mk (id x) (position x) v (plantSize x) (plantCount x) (soilMoisture x)
     (soilFertility x) (artLight x) (water x) (fertilizer x) (plantedDate x).
Definition set_plantSize (v : Q) (x : t) : t :=
  mk (id x) (position x) (temperature x) v (plantCount x) (soilMoisture x)
     (soilFertility x) (artLight x) (water x) (fertilizer x) (plantedDate x).
Definition set_plantCount (v : Q) (x : t) : t :=
  mk (id x) (position x) (temperature x) (plantSize x) v (soilMoisture x)
     (soilFertility x) (artLight x) (water x) (fertilizer x) (plantedDate x).
Definition set_soilMoisture (v : Q) (x : t) : t :=
  mk (id x) (position x) (temperature x) (plantSize x) (plantCount x) v
     (soilFertility x) (artLight x) (water x) (fertilizer x) (plantedDate x).
Definition set_soilFertility (v : Q) (x : t) : t :=
  mk (id x) (position x) (temperature x) (plantSize x) (plantCount x)
     (soilMoisture x) v (artLight x) (water x) (fertilizer x) (plantedDate x).
Definition set_artLight (v : Q) (x : t) : t :=
  mk (id x) (position x) (temperature x) (plantSize x) (plantCount x)
     (soilMoisture x) (soilFertility x) v (water x) (fertilizer x) (plantedDate x).
Definition set_water (v : bool) (x : t) : t :=
  mk (id x) (position x) (temperature x) (plantSize x) (plantCount x)
     (soilMoisture x) (soilFertility x) (artLight x) v (fertilizer x) (plantedDate x).
Definition set_fertilizer (v : bool) (x : t) : t :=
  mk (id x) (position x) (temperature x) (plantSize x) (plantCount x)
     (soilMoisture x) (soilFertility x) (artLight x) (water x) v (plantedDate x).
Definition set_plantedDate (v : Z) (x : t) : t :=
  mk (id x) (position x) (temperature x) (plantSize x) (plantCount x)
     (soilMoisture x) (soilFertility x) (artLight x) (water x) (fertilizer x) v.
End PlantTable.

Module GreenhouseData.
Record t : Type := mk {
  id : Z;
  name : string;
  lightIntensity : Q;
  temperature : Q;
  humidity : Q;
  fan : bool;
  shading : Q;
  tables : list PlantTable.t
}.

Definition set_lightIntensity (v : Q) (g : t) : t :=
  mk (id g) (name g) v (temperature g) (humidity g) (fan g) (shading g) (tables g).
Definition set_temperature (v : Q) (g : t) : t :=
  mk (id g) (name g) (lightIntensity g) v (humidity g) (fan g) (shading g) (tables g).
Definition set_humidity (v : Q) (g : t) : t :=
  mk (id g) (name g) (lightIntensity g) (temperature g) v (fan g) (shading g) (tables g).
Definition set_fan (v : bool) (g : t) : t :=
  mk (id g) (name g) (lightIntensity g) (temperature g) (humidity g) v (shading g) (tables g).
Definition set_shading (v : Q) (g : t) : t :=
  mk (id g) (name g) (lightIntensity g) (temperature g) (humidity g) (fan g) v (tables g).
Definition set_tables (v : list PlantTable.t) (g : t) : t :=
  mk (id g) (name g) (lightIntensity g) (temperature g) (humidity g) (fan g) (shading g) v.
End GreenhouseData.

Module EnvironmentData.
(** One parsed line of the yearly climate file; the [date] column plays no
    part in the engine and is kept as the day number of the record. *)
Record t : Type := mk {
  date : Z;
  tavg : Q;
  tmin : Q;
  tmax : Q;
  prcp : Q;
  snow : Q;
  pres : Q;
  tsun : Q
}.
End EnvironmentData.

(** ** [services/SensorSimulator.ts] *)

Module SensorSimulator.
#[local] Open Scope Q_scope.
#[local] Open Scope js_scope.

(** The fields of the class that carry state.  [ventilationStartTime] is
    keyed by greenhouse id, [overFertilizerTime] by the string
    [`${house.id}-${table.id}`]. *)
Record t : Type := mk {
  environmentData : list EnvironmentData.t;
  currentDay : Z;
  minuteOfTheDay : Z;
  ventilationStartTime : gmap Z Z;
  overFertilizerTime : gmap string Z
}.

Definition set_ventilationStartTime (v : gmap Z Z) (s : t) : t :=
  mk (environmentData s) (currentDay s) (minuteOfTheDay s) v (overFertilizerTime s).
Definition set_overFertilizerTime (v : gmap string Z) (s : t) : t :=
  mk (environmentData s) (currentDay s) (minuteOfTheDay s) (ventilationStartTime s) v.

(** Growth parameters (per minute). *)
Definition BASE_GROWTH_RATE : Q := 0.2.
Definition OPTIMAL_TEMP : Q := 22.
Definition DEATH_TEMP : Q := 60.
Definition OPTIMAL_MOISTURE_MIN : Q := 50.
Definition OPTIMAL_MOISTURE_MAX : Q := 80.
Definition MAX_HUMIDITY : Q := 85.
Definition WATER_INCREASE_RATE : Q := 3.
Definition EVAPORATION_RATE : Q := 0.6.
Definition FERTILIZER_RATE : Q := 20.
Definition OVER_FERTILIZER_DEATH : Z := 10.
Definition FERTILIZER_DECAY : Q := 1.
Definition LIGHT_HEAT_EFFECT : Q := 3 / 500.
Definition MAX_PLANT_SIZE : Q := 15.
Definition VENTILATION_EXCHANGE_TIME : Z := 30.

(** The initial object: day 100, minute 0, empty side maps. *)
Definition new : t := mk [] 100 0 ∅ ∅.

Definition getCurrentDay (s : t) : Z := currentDay s.
Definition getMinuteOfDay (s : t) : Z := minuteOfTheDay s.

(** [environmentData[currentDay % length] || environmentData[0]]; with no
    record loaded both reads are [undefined], here [None].  [%] keeps the
    sign of the dividend, as [Z.rem] does. *)
Definition getCurrentEnvironmentData (s : t) : option EnvironmentData.t :=
  match environmentData s with
  | [] => None
  | e0 :: _ =>
      let dayIndex := Z.rem (currentDay s) (Z.of_nat (length (environmentData s))) in
      if (dayIndex <? 0)%Z then Some e0
      else Some (nth (Z.to_nat dayIndex) (environmentData s) e0)
  end.

Definition initialize (envData : list EnvironmentData.t) (s : t) : t :=
  mk (environmentData s ++ envData) (currentDay s) (minuteOfTheDay s)
     (ventilationStartTime s) (overFertilizerTime s).

(** *** The greenhouse environment *)

(** The start of the ventilation that the fan branch reads back: after its
    conditional [set] the key is present, and [get] returns the stored
    start, or the current minute when that was just recorded. *)
Definition ventilationStart (s : t) (greenhouse : GreenhouseData.t) : Z :=
  match ventilationStartTime s !! GreenhouseData.id greenhouse with
  | Some m => m
  | None => minuteOfTheDay s
  end.

(** The fan branch: record the start if there is none, cool toward the
    outside average once the exchange time has passed, and move the humidity
    toward 60 in proportion to the duration. *)
Definition ventilate (s : t) (greenhouse : GreenhouseData.t)
    (envData : EnvironmentData.t) : t * GreenhouseData.t :=
  let started :=
    match ventilationStartTime s !! GreenhouseData.id greenhouse with
    | Some _ => ventilationStartTime s
    | None => <[GreenhouseData.id greenhouse := minuteOfTheDay s]> (ventilationStartTime s)
    end in
  let start := ventilationStart s greenhouse in
  let ventilationDuration := (minuteOfTheDay s - start)%Z in
  let greenhouse :=
    if (VENTILATION_EXCHANGE_TIME <=? ventilationDuration)%Z then
      let tempDiff := GreenhouseData.temperature greenhouse - EnvironmentData.tavg envData in
      GreenhouseData.set_temperature
        (GreenhouseData.temperature greenhouse - tempDiff * 0.1) greenhouse
    else greenhouse in
  let humidityTarget := 60 in
  let humidityDiff := GreenhouseData.humidity greenhouse - humidityTarget in
  let greenhouse :=
    GreenhouseData.set_humidity
      (GreenhouseData.humidity greenhouse
       - humidityDiff
         * (inject_Z ventilationDuration / inject_Z VENTILATION_EXCHANGE_TIME)
         * 0.05) greenhouse in
  (set_ventilationStartTime started s, greenhouse).

(** The branch without ventilation: the marker is dropped and the light
    heats the house. *)
Definition heatFromLight (s : t) (greenhouse : GreenhouseData.t)
    (lightHeatIncrease : Q) : t * GreenhouseData.t :=
  (set_ventilationStartTime
     (delete (GreenhouseData.id greenhouse) (ventilationStartTime s)) s,
   GreenhouseData.set_temperature
     (GreenhouseData.temperature greenhouse + lightHeatIncrease / 60) greenhouse).

(** [if (humidity > MAX_HUMIDITY) humidity = MAX_HUMIDITY]. *)
Definition limitHumidity (greenhouse : GreenhouseData.t) : GreenhouseData.t :=
  if GreenhouseData.humidity greenhouse >? MAX_HUMIDITY
  then GreenhouseData.set_humidity MAX_HUMIDITY greenhouse
  else greenhouse.

(** "Ensure reasonable ranges": temperature first, then humidity.  On
    numbers; for a NaN see [WithNaN.SensorSimulator.ensureRanges]. *)
Definition ensureRanges (greenhouse : GreenhouseData.t) : GreenhouseData.t :=
  let greenhouse :=
    GreenhouseData.set_temperature
      (Math_max 0 (Math_min 70 (GreenhouseData.temperature greenhouse))) greenhouse in
  GreenhouseData.set_humidity
    (Math_max 0 (Math_min 100 (GreenhouseData.humidity greenhouse))) greenhouse.

(** The first half of [updateGreenhouseEnvironment]: the light intensity
    from the shading, then the ventilation or heating branch. *)
Definition applyLightAndVentilation (s : t) (greenhouse : GreenhouseData.t)
    (envData : EnvironmentData.t) : t * GreenhouseData.t :=
  let baseLightIntensity := 1000 in
  let greenhouse :=
    GreenhouseData.set_lightIntensity
      (Math_round (baseLightIntensity * (1 - GreenhouseData.shading greenhouse / 100)))
      greenhouse in
  let lightHeatIncrease := GreenhouseData.lightIntensity greenhouse * LIGHT_HEAT_EFFECT in
  if GreenhouseData.fan greenhouse
  then ventilate s greenhouse envData
  else heatFromLight s greenhouse lightHeatIncrease.

Definition updateGreenhouseEnvironment (s : t) (greenhouse : GreenhouseData.t)
    (envData : EnvironmentData.t) : t * GreenhouseData.t :=
  let '(s, greenhouse) := applyLightAndVentilation s greenhouse envData in
  let greenhouse := limitHumidity greenhouse in
  (s, ensureRanges greenhouse).

(** *** Growth factors *)

Definition calculateMoistureFactor (moisture : Q) : Q :=
  if (moisture >=? OPTIMAL_MOISTURE_MIN) && (moisture <=? OPTIMAL_MOISTURE_MAX) then 1.0
  else if moisture <? OPTIMAL_MOISTURE_MIN then moisture / OPTIMAL_MOISTURE_MIN
  else if moisture >? OPTIMAL_MOISTURE_MAX then Math_max 0 ((100 - moisture) / 20)
  else 0.

Definition calculateFertilityFactor (fertility : Q) : Q :=
  if (fertility >=? 60) && (fertility <=? 100) then 1.0
  else if fertility <? 60 then fertility / 60
  else if fertility >? 100 then Math_max 0 (1 - (fertility - 100) / 50)
  else 0.

Definition calculateLightFactor (houseLight tableLight : Q) : Q :=
  let totalLight := houseLight + tableLight in
  if (totalLight >=? 400) && (totalLight <=? 800) then 1.0
  else if totalLight <? 400 then totalLight / 400
  else Math_max 0.5 (800 / totalLight).

Definition calculateTemperatureFactor (temp : Q) : Q :=
  let optimalTemp := OPTIMAL_TEMP in
  if temp <? 5 then 0
  else if temp <? optimalTemp then (temp - 5) / (optimalTemp - 5)
  else if temp ===? optimalTemp then 1.0
  else if temp <=? 40 then 1 - (temp - optimalTemp) / (40 - optimalTemp)
  else Math_max 0 (1 - (temp - 40) / (DEATH_TEMP - 40)).

Definition calculateMaxPlants (plantSize : Q) : Q :=
  if plantSize <=? 2 then 480
  else
    let sizeRatio := plantSize / MAX_PLANT_SIZE in
    let maxPlants := Math_floor (480 / (sizeRatio * sizeRatio)) in
    Math_max 24 maxPlants.

(** *** Replant and harvest *)

Definition replantTable (s : t) (table : PlantTable.t) : PlantTable.t :=
  let table := PlantTable.set_plantCount 480 table in
  let table := PlantTable.set_plantSize 2 table in
  let table :=
    PlantTable.set_soilFertility
      (Math_min 100 (PlantTable.soilFertility table + 20)) table in
  PlantTable.set_plantedDate (currentDay s) table.

(** The number of plants a harvest takes: 95% of the table, rounded down. *)
Definition harvestCount (table : PlantTable.t) : Q :=
  Math_floor (PlantTable.plantCount table * 0.95).

Definition harvestPlants (s : t) (table : PlantTable.t) : PlantTable.t :=
  let table :=
    PlantTable.set_plantCount (PlantTable.plantCount table - harvestCount table) table in
  if PlantTable.plantCount table <? 24 then replantTable s table else table.

(** *** The table tick, block by block *)

(** [`${house.id}-${table.id}`] *)
Definition tableKey (house : GreenhouseData.t) (table : PlantTable.t) : string :=
  pretty (GreenhouseData.id house) +:+ "-" +:+ pretty (PlantTable.id table).

Definition killPlants (table : PlantTable.t) : PlantTable.t :=
  PlantTable.set_plantSize 0 (PlantTable.set_plantCount 0 table).

(** "Check over-fertilization death": the new counter map, and whether the
    plants died of it in this tick.  As in the fan branch, the counter read
    back after the conditional [set] is the stored one or the 0 just set. *)
Definition overFertilizedMinutes (s : t) (key : string) : Z :=
  match overFertilizerTime s !! key with Some n => n | None => 0%Z end.

Definition checkOverFertilization (s : t) (key : string) (table : PlantTable.t)
    : t * bool :=
  if PlantTable.soilFertility table >? 100 then
    let counters :=
      match overFertilizerTime s !! key with
      | Some _ => overFertilizerTime s
      | None => <[key := 0%Z]> (overFertilizerTime s)
      end in
    let overTime := (overFertilizedMinutes s key + 1)%Z in
    let counters := <[key := overTime]> counters in
    if (OVER_FERTILIZER_DEATH <=? overTime)%Z
    then (set_overFertilizerTime (delete key counters) s, true)
    else (set_overFertilizerTime counters s, false)
  else (set_overFertilizerTime (delete key (overFertilizerTime s)) s, false).

(** The evaporation of a minute without watering: it grows with the
    temperature and shrinks with the humidity.  On numbers; for a NaN see
    [WithNaN.SensorSimulator.evaporationRate]. *)
Definition evaporationRate (house : GreenhouseData.t) : Q :=
  let tempFactor := Math_max 0 ((GreenhouseData.temperature house - 10) / 40) in
  let humidityFactor := Math_max 0 (1 - GreenhouseData.humidity house / 100) in
  EVAPORATION_RATE * tempFactor * humidityFactor.

(** "Water management" *)
Definition manageWater (table : PlantTable.t) (house : GreenhouseData.t) : PlantTable.t :=
  if PlantTable.water table then
    let table :=
      PlantTable.set_soilMoisture
        (Math_min 100 (PlantTable.soilMoisture table + WATER_INCREASE_RATE)) table in
    if PlantTable.fertilizer table then
      PlantTable.set_soilFertility
        (Math_min 150 (PlantTable.soilFertility table + FERTILIZER_RATE)) table
    else table
  else
    PlantTable.set_soilMoisture
      (Math_max 0 (PlantTable.soilMoisture table - evaporationRate house)) table.

(** "Fertilizer decay (1% per minute)" *)
Definition decayFertilizer (table : PlantTable.t) : PlantTable.t :=
  if PlantTable.soilFertility table >? 0 then
    PlantTable.set_soilFertility
      (Math_max 0 (PlantTable.soilFertility table - FERTILIZER_DECAY)) table
  else table.

Definition growthRate (table : PlantTable.t) (house : GreenhouseData.t) : Q :=
  let moistureFactor := calculateMoistureFactor (PlantTable.soilMoisture table) in
  let fertilityFactor := calculateFertilityFactor (PlantTable.soilFertility table) in
  let lightFactor :=
    calculateLightFactor (GreenhouseData.lightIntensity house) (PlantTable.artLight table) in
  let temperatureFactor := calculateTemperatureFactor (GreenhouseData.temperature house) in
  BASE_GROWTH_RATE * moistureFactor * fertilityFactor * lightFactor * temperatureFactor.

(** "Update plant size" *)
Definition grow (table : PlantTable.t) (house : GreenhouseData.t) : PlantTable.t :=
  if growthRate table house >? 0 then
    PlantTable.set_plantSize (PlantTable.plantSize table + growthRate table house) table
  else table.

(** "Check if plants are dying from drought" *)
Definition drought (table : PlantTable.t) : PlantTable.t :=
  if PlantTable.soilMoisture table <? 10 then
    let deathCount := Math_ceil (PlantTable.plantCount table * 0.01) in
    PlantTable.set_plantCount (Math_max 0 (PlantTable.plantCount table - deathCount)) table
  else table.

(** "Check if 95% of plants are dead and replant" *)
Definition replantIfSparse (s : t) (table : PlantTable.t) : PlantTable.t :=
  if PlantTable.plantCount table <? 24 then replantTable s table else table.

(** "Check for harvest conditions (>= 30cm and moisture <= 50%)" *)
Definition harvestIfReady (s : t) (table : PlantTable.t) : PlantTable.t :=
  if (PlantTable.plantSize table >=? 30) && (PlantTable.soilMoisture table <=? 50)
  then harvestPlants s table else table.

(** "If plants are too big, reduce count (they push each other out)" *)
Definition crowd (table : PlantTable.t) : PlantTable.t :=
  let maxPlants := calculateMaxPlants (PlantTable.plantSize table) in
  if PlantTable.plantCount table >? maxPlants
  then PlantTable.set_plantCount maxPlants table
  else table.

(** The blocks that follow the death checks, in source order. *)
Definition liveTick (s : t) (table : PlantTable.t) (house : GreenhouseData.t)
    : PlantTable.t :=
  let table := manageWater table house in
  let table := decayFertilizer table in
  let table := grow table house in
  let table := drought table in
  let table := replantIfSparse s table in
  let table := PlantTable.set_temperature (GreenhouseData.temperature house) table in
  let table := harvestIfReady s table in
  crowd table.

Definition updateTableData (s : t) (table : PlantTable.t) (house : GreenhouseData.t)
    : t * PlantTable.t :=
  let key := tableKey house table in
  if (PlantTable.plantCount table <=? 0) || (PlantTable.plantSize table <=? 0)
  then (s, table)
  else if GreenhouseData.temperature house >? DEATH_TEMP
  then (s, killPlants table)
  else
    let '(s, died) := checkOverFertilization s key table in
    if died then (s, killPlants table)
    else (s, liveTick s table house).

(** Consecutive ticks of one table: the simulator state is threaded from
    tick to tick; the table and greenhouse records each tick starts from
    are given, so that actuators (or a test that holds a value) may change
    them between ticks. *)
Fixpoint runTable (s : t) (ticks : list (PlantTable.t * GreenhouseData.t))
    : t * list PlantTable.t :=
  match ticks with
  | [] => (s, [])
  | (table, house) :: rest =>
      let '(s, out) := updateTableData s table house in
      let '(s, outs) := runTable s rest in
      (s, out :: outs)
  end.

(** [updateTime]: one simulated minute; the day rolls over at 1440. *)
Definition updateTime (s : t) : t :=
  let minute := (minuteOfTheDay s + 1)%Z in
  if (1440 <=? minute)%Z
  then mk (environmentData s) (currentDay s + 1) 0
          (ventilationStartTime s) (overFertilizerTime s)
  else mk (environmentData s) (currentDay s) minute
          (ventilationStartTime s) (overFertilizerTime s).
(** *** The whole tick: [simulateAllGreenhouses] *)

(** The one place that reads the climate record is [envData.tavg] in the
    fan branch, once the exchange time has passed. *)
Definition readsClimate (s : t) (greenhouse : GreenhouseData.t) : bool :=
  GreenhouseData.fan greenhouse
  && (VENTILATION_EXCHANGE_TIME <=? minuteOfTheDay s - ventilationStart s greenhouse)%Z.

(** Stands in for the record on the paths that do not read it. *)
Definition unreadRecord : EnvironmentData.t := EnvironmentData.mk 0 0 0 0 0 0 0 0.

(** [updateGreenhouseEnvironment] as [simulateAllGreenhouses] calls it: the
    record may be [undefined] (no climate data loaded).  Reading [tavg] of
    [undefined] throws; [None] is that TypeError, which leaves the tick. *)
Definition updateGreenhouseEnvironmentOf (s : t) (greenhouse : GreenhouseData.t)
    (envData : option EnvironmentData.t) : option (t * GreenhouseData.t) :=
  match envData with
  | Some record => Some (updateGreenhouseEnvironment s greenhouse record)
  | None =>
      if readsClimate s greenhouse then None
      else Some (updateGreenhouseEnvironment s greenhouse unreadRecord)
  end.

(** [greenhouse.tables.forEach(table => updateTableData(table, greenhouse))]:
    the tables in array order, the simulator state handed on. *)
Fixpoint updateTables (s : t) (tables : list PlantTable.t) (house : GreenhouseData.t)
    : t * list PlantTable.t :=
  match tables with
  | [] => (s, [])
  | table :: rest =>
      let '(s, table) := updateTableData s table house in
      let '(s, rest) := updateTables s rest house in
      (s, table :: rest)
  end.

(** The body of the outer [forEach]: the environment, then the tables under
    the environment just computed. *)
Definition simulateGreenhouse (s : t) (greenhouse : GreenhouseData.t)
    (envData : option EnvironmentData.t) : option (t * GreenhouseData.t) :=
  match updateGreenhouseEnvironmentOf s greenhouse envData with
  | Some (s, greenhouse) =>
      let '(s, tables) := updateTables s (GreenhouseData.tables greenhouse) greenhouse in
      Some (s, GreenhouseData.set_tables tables greenhouse)
  | None => None
  end.

(** [greenhouses.forEach]: the callback sees the values of the map in
    insertion order and not the keys, so the argument is that list. *)
Fixpoint simulateGreenhouses (s : t) (greenhouses : list GreenhouseData.t)
    (envData : option EnvironmentData.t) : option (t * list GreenhouseData.t) :=
  match greenhouses with
  | [] => Some (s, [])
  | greenhouse :: rest =>
      match simulateGreenhouse s greenhouse envData with
      | Some (s, greenhouse) =>
          match simulateGreenhouses s rest envData with
          | Some (s, rest) => Some (s, greenhouse :: rest)
          | None => None
          end
      | None => None
      end
  end.

(** One tick: the current record, every greenhouse, then the clock (the
    same statements as [updateTime]). *)
Definition simulateAllGreenhouses (s : t) (greenhouses : list GreenhouseData.t)
    : option (t * list GreenhouseData.t) :=
  let envData := getCurrentEnvironmentData s in
  match simulateGreenhouses s greenhouses envData with
  | Some (s, greenhouses) => Some (updateTime s, greenhouses)
  | None => None
  end.

(** [n] ticks in a row, the greenhouses left to themselves in between. *)
Fixpoint simulateTicks (n : nat) (s : t) (greenhouses : list GreenhouseData.t)
    : option (t * list GreenhouseData.t) :=
  match n with
  | O => Some (s, greenhouses)
  | S n' =>
      match simulateAllGreenhouses s greenhouses with
      | Some (s, greenhouses) => simulateTicks n' s greenhouses
      | None => None
      end
  end.
End SensorSimulator.

(** ** [services/GreenhouseManager.ts] *)

Module GreenhouseManager.
#[local] Open Scope Q_scope.
#[local] Open Scope js_scope.

(** The manager owns the greenhouse map and the simulator.  The running
    simulation timer is represented by the period it was started with
    ([None] before [startSimulation]); the periodic saving to disk has no
    effect on the simulation state and is left out. *)
Record t : Type := mk {
  greenhouses : gmap Z GreenhouseData.t;
  sensorSimulator : SensorSimulator.t;
  simulationInterval : option Q;
  baseTimeStep : Q;
  timeStep : Q;
  simulationSpeed : Q
}.

Definition set_greenhouses (v : gmap Z GreenhouseData.t) (m : t) : t :=
  mk v (sensorSimulator m) (simulationInterval m) (baseTimeStep m) (timeStep m)
     (simulationSpeed m).

(** The field initialisers of the class. *)
Definition new : t := mk ∅ SensorSimulator.new None 100 100 1.

(** Eight tables [j = 1..8] of greenhouse [i], with the seed values. *)
Definition initialTable (i j aDay : Z) : PlantTable.t :=
  PlantTable.mk j ("G" +:+ pretty i +:+ "T" +:+ pretty j) 20 2 480 80 100 0
                false false aDay.

Definition initialGreenhouse (i aDay : Z) : GreenhouseData.t :=
  GreenhouseData.mk i ("G" +:+ pretty i) 500 20 60 false 0
    ((fun j => initialTable i j aDay) <$> [1; 2; 3; 4; 5; 6; 7; 8]%Z).

Definition initializeGreenhouses (aDay : Z) (m : t) : t :=
  set_greenhouses
    (foldl (fun gs i => <[i := initialGreenhouse i aDay]> gs) (greenhouses m)
           [1; 2; 3; 4]%Z) m.

(** [setInterval(..., this.timeStep)] *)
Definition startSimulation (m : t) : t :=
  mk (greenhouses m) (sensorSimulator m) (Some (timeStep m)) (baseTimeStep m)
     (timeStep m) (simulationSpeed m).

Definition getGreenhouse (m : t) (id : Z) : option GreenhouseData.t :=
  greenhouses m !! id.

(** [tables.find(table => table.id === tableId)]: the first table with the
    id, together with its index in the array. *)
Definition findTable (greenhouse : GreenhouseData.t) (tableId : Z)
    : option (nat * PlantTable.t) :=
  list_find (fun table => PlantTable.id table = tableId) (GreenhouseData.tables greenhouse).

Definition getTable (m : t) (greenhouseId tableId : Z) : option PlantTable.t :=
  match greenhouses m !! greenhouseId with
  | Some greenhouse => snd <$> findTable greenhouse tableId
  | None => None
  end.

(** The objects handed out by [get] and [find] are the stored ones: an
    assignment to a field of the table found at index [i] is a write to
    slot [i] of the table array of greenhouse [greenhouseId]. *)
Definition storeTable (m : t) (greenhouseId : Z) (i : nat) (table : PlantTable.t) : t :=
  match greenhouses m !! greenhouseId with
  | Some greenhouse =>
      set_greenhouses
        (<[greenhouseId :=
             GreenhouseData.set_tables
               (<[i := table]> (GreenhouseData.tables greenhouse)) greenhouse]>
           (greenhouses m)) m
  | None => m
  end.

Definition storeGreenhouse (m : t) (greenhouseId : Z) (greenhouse : GreenhouseData.t) : t :=
  set_greenhouses (<[greenhouseId := greenhouse]> (greenhouses m)) m.

(** The lookup shared by the three table mutators. *)
Definition locateTable (m : t) (greenhouseId tableId : Z) : option (nat * PlantTable.t) :=
  match greenhouses m !! greenhouseId with
  | Some greenhouse => findTable greenhouse tableId
  | None => None
  end.

(** *** Control methods for actuators: the new state and the returned flag *)

Definition setTableWatering (m : t) (greenhouseId tableId : Z) (state : bool) : t * bool :=
  match locateTable m greenhouseId tableId with
  | Some (i, table) => (storeTable m greenhouseId i (PlantTable.set_water state table), true)
  | None => (m, false)
  end.

Definition setTableFertilizer (m : t) (greenhouseId tableId : Z) (state : bool) : t * bool :=
  match locateTable m greenhouseId tableId with
  | Some (i, table) =>
      (storeTable m greenhouseId i (PlantTable.set_fertilizer state table), true)
  | None => (m, false)
  end.

Definition setGreenhouseFan (m : t) (greenhouseId : Z) (state : bool) : t * bool :=
  match greenhouses m !! greenhouseId with
  | Some greenhouse =>
      (storeGreenhouse m greenhouseId (GreenhouseData.set_fan state greenhouse), true)
  | None => (m, false)
  end.

Definition setGreenhouseShading (m : t) (greenhouseId : Z) (percentage : Q) : t * bool :=
  match greenhouses m !! greenhouseId with
  | Some greenhouse =>
      if (percentage >=? 0) && (percentage <=? 100)
      then (storeGreenhouse m greenhouseId
              (GreenhouseData.set_shading percentage greenhouse), true)
      else (m, false)
  | None => (m, false)
  end.

Definition setTableLight (m : t) (greenhouseId tableId : Z) (lumens : Q) : t * bool :=
  match locateTable m greenhouseId tableId with
  | Some (i, table) =>
      if (lumens >=? 0) && (lumens <=? 2000)
      then (storeTable m greenhouseId i (PlantTable.set_artLight lumens table), true)
      else (m, false)
  | None => (m, false)
  end.

(** *** Simulation speed *)

Definition setSimulationSpeed (m : t) (speed : Q) : t * bool :=
  if (speed >? 0) && (speed <=? 1000) then
    let timeStep' := Math_max 1 (baseTimeStep m / speed) in
    let interval' :=
      match simulationInterval m with
      | Some _ => Some timeStep'      (* clearInterval, then startSimulation *)
      | None => None
      end in
    (mk (greenhouses m) (sensorSimulator m) interval' (baseTimeStep m) timeStep' speed,
     true)
  else (m, false).

(** [getSimulationStatus]: speed, timeStep, currentDay, currentMinute. *)
Definition getSimulationStatus (m : t) : Q * Q * Z * Z :=
  (simulationSpeed m, timeStep m,
   SensorSimulator.getCurrentDay (sensorSimulator m),
   SensorSimulator.getMinuteOfDay (sensorSimulator m)).
End GreenhouseManager.

(** ** Numbers that may be NaN *)

Module Number.
#[local] Open Scope Q_scope.

(** A [number] of the source as the engine can meet it: a rational, or
    NaN.  Arithmetic with NaN gives NaN, every comparison with NaN is false,
    and [Math.max], [Math.min], [Math.floor], [Math.ceil] and [Math.round]
    return NaN for a NaN argument. *)
Inductive t : Type :=
  | Num (q : Q)
  | NaN.

Definition lift1 (f : Q -> Q) (a : t) : t :=
  match a with
  | Num x => Num (f x)
  | NaN => NaN
  end.

Definition lift2 (f : Q -> Q -> Q) (a b : t) : t :=
  match a, b with
  | Num x, Num y => Num (f x y)
  | _, _ => NaN
  end.

Definition compare2 (f : Q -> Q -> bool) (a b : t) : bool :=
  match a, b with
  | Num x, Num y => f x y
  | _, _ => false
  end.

Definition add : t -> t -> t := lift2 Qplus.
Definition sub : t -> t -> t := lift2 Qminus.
Definition mul : t -> t -> t := lift2 Qmult.
Definition div : t -> t -> t := lift2 Qdiv.
Definition le : t -> t -> bool := compare2 Qle_bool.
Definition lt : t -> t -> bool := compare2 Qlt_bool.
Definition strictEq : t -> t -> bool := compare2 Qeq_bool.
Definition max : t -> t -> t := lift2 Math_max.
Definition min : t -> t -> t := lift2 Math_min.
Definition floor : t -> t := lift1 Math_floor.
Definition ceil : t -> t := lift1 Math_ceil.
Definition round : t -> t := lift1 Math_round.

(** An integer counter read as a number. *)
Definition ofZ (z : Z) : t := Num (inject_Z z).

(** The rational a number holds; NaN holds none and reads as 0 here. *)
Definition value (a : t) : Q :=
  match a with
  | Num x => x
  | NaN => 0
  end.

Definition numeric (a : t) : Prop :=
  match a with
  | Num _ => True
  | NaN => False
  end.

(** [lo <= a && a <= hi] and [lo <= a] hold; NaN satisfies neither. *)
Definition within (lo hi : Q) (a : t) : Prop :=
  match a with
  | Num x => lo <= x <= hi
  | NaN => False
  end.

Definition atLeast (lo : Q) (a : t) : Prop :=
  match a with
  | Num x => lo <= x
  | NaN => False
  end.
End Number.

Coercion Number.Num : Q >-> Number.t.

Declare Scope number_scope.
Delimit Scope number_scope with number.
Bind Scope number_scope with Number.t.
Infix "+" := Number.add : number_scope.
Infix "-" := Number.sub : number_scope.
Infix "*" := Number.mul : number_scope.
Infix "/" := Number.div : number_scope.
Infix "<=?" := Number.le (at level 70, no associativity) : number_scope.
Infix "<?" := Number.lt (at level 70, no associativity) : number_scope.
Notation "a >=? b" := (Number.le b a) (at level 70, no associativity) : number_scope.
Notation "a >? b" := (Number.lt b a) (at level 70, no associativity) : number_scope.
Notation "a ===? b" := (Number.strictEq a b) (at level 70, no associativity) : number_scope.

(** ** The engine on numbers that may be NaN

    The same methods as in [SensorSimulator], statement by statement, with
    the measurements held as [Number.t]: what the engine does when a
    climate record or a greenhouse carries NaN. *)

Module WithNaN.

Module PlantTable.
Record t : Type := mk {
  id : Z;
  position : string;
  temperature : Number.t;
  plantSize : Number.t;
  plantCount : Number.t;
  soilMoisture : Number.t;
  soilFertility : Number.t;
  artLight : Number.t;
  water : bool;
  fertilizer : bool;
  plantedDate : Z
}.

Definition set_temperature (v : Number.t) (x : t) : t :=
  mk (id x) (position x) v (plantSize x) (plantCount x) (soilMoisture x)
     (soilFertility x) (artLight x) (water x) (fertilizer x) (plantedDate x).
Definition set_plantSize (v : Number.t) (x : t) : t :=
  mk (id x) (position x) (temperature x) v (plantCount x) (soilMoisture x)
     (soilFertility x) (artLight x) (water x) (fertilizer x) (plantedDate x).
Definition set_plantCount (v : Number.t) (x : t) : t :=
  mk (id x) (position x) (temperature x) (plantSize x) v (soilMoisture x)
     (soilFertility x) (artLight x) (water x) (fertilizer x) (plantedDate x).
Definition set_soilMoisture (v : Number.t) (x : t) : t :=
  mk (id x) (position x) (temperature x) (plantSize x) (plantCount x) v
     (soilFertility x) (artLight x) (water x) (fertilizer x) (plantedDate x).
Definition set_soilFertility (v : Number.t) (x : t) : t :=
  mk (id x) (position x) (temperature x) (plantSize x) (plantCount x)
     (soilMoisture x) v (artLight x) (water x) (fertilizer x) (plantedDate x).
Definition set_plantedDate (v : Z) (x : t) : t :=
  mk (id x) (position x) (temperature x) (plantSize x) (plantCount x)
     (soilMoisture x) (soilFertility x) (artLight x) (water x) (fertilizer x) v.
End PlantTable.

Module GreenhouseData.
Record t : Type := mk {
  id : Z;
  name : string;
  lightIntensity : Number.t;
  temperature : Number.t;
  humidity : Number.t;
  fan : bool;
  shading : Number.t;
  tables : list PlantTable.t
}.

Definition set_lightIntensity (v : Number.t) (g : t) : t :=
  mk (id g) (name g) v (temperature g) (humidity g) (fan g) (shading g) (tables g).
Definition set_temperature (v : Number.t) (g : t) : t :=
  mk (id g) (name g) (lightIntensity g) v (humidity g) (fan g) (shading g) (tables g).
Definition set_humidity (v : Number.t) (g : t) : t :=
  mk (id g) (name g) (lightIntensity g) (temperature g) v (fan g) (shading g) (tables g).
Definition set_tables (v : list PlantTable.t) (g : t) : t :=
  mk (id g) (name g) (lightIntensity g) (temperature g) (humidity g) (fan g) (shading g) v.
End GreenhouseData.

Module EnvironmentData.
(** One line of the yearly climate file as [readEnvironmentData] stores it:
    each measurement is the result of [parseFloat], which is NaN for a cell
    that does not start with a number. *)
Record t : Type := mk {
  date : Z;
  tavg : Number.t;
  tmin : Number.t;
  tmax : Number.t;
  prcp : Number.t;
  snow : Number.t;
  pres : Number.t;
  tsun : Number.t
}.
End EnvironmentData.

Module SensorSimulator.
#[local] Open Scope Q_scope.
#[local] Open Scope number_scope.

Record t : Type := mk {
  environmentData : list EnvironmentData.t;
  currentDay : Z;
  minuteOfTheDay : Z;
  ventilationStartTime : gmap Z Z;
  overFertilizerTime : gmap string Z
}.

Definition set_ventilationStartTime (v : gmap Z Z) (s : t) : t :=
  mk (environmentData s) (currentDay s) (minuteOfTheDay s) v (overFertilizerTime s).
Definition set_overFertilizerTime (v : gmap string Z) (s : t) : t :=
  mk (environmentData s) (currentDay s) (minuteOfTheDay s) (ventilationStartTime s) v.

Definition BASE_GROWTH_RATE : Number.t := 0.2%Q.
Definition OPTIMAL_TEMP : Number.t := 22%Q.
Definition DEATH_TEMP : Number.t := 60%Q.
Definition OPTIMAL_MOISTURE_MIN : Number.t := 50%Q.
Definition OPTIMAL_MOISTURE_MAX : Number.t := 80%Q.
Definition MAX_HUMIDITY : Number.t := 85%Q.
Definition WATER_INCREASE_RATE : Number.t := 3%Q.
Definition EVAPORATION_RATE : Number.t := 0.6%Q.
Definition FERTILIZER_RATE : Number.t := 20%Q.
Definition OVER_FERTILIZER_DEATH : Z := 10.
Definition FERTILIZER_DECAY : Number.t := 1%Q.
Definition LIGHT_HEAT_EFFECT : Number.t := (3 / 500)%Q.
Definition MAX_PLANT_SIZE : Number.t := 15%Q.
Definition VENTILATION_EXCHANGE_TIME : Z := 30.

Definition getCurrentEnvironmentData (s : t) : option EnvironmentData.t :=
  match environmentData s with
  | [] => None
  | e0 :: _ =>
      let dayIndex := Z.rem (currentDay s) (Z.of_nat (length (environmentData s))) in
      if (dayIndex <? 0)%Z then Some e0
      else Some (nth (Z.to_nat dayIndex) (environmentData s) e0)
  end.

(** *** The greenhouse environment *)

Definition ventilationStart (s : t) (greenhouse : GreenhouseData.t) : Z :=
  match ventilationStartTime s !! GreenhouseData.id greenhouse with
  | Some m => m
  | None => minuteOfTheDay s
  end.

Definition ventilate (s : t) (greenhouse : GreenhouseData.t)
    (envData : EnvironmentData.t) : t * GreenhouseData.t :=
  let started :=
    match ventilationStartTime s !! GreenhouseData.id greenhouse with
    | Some _ => ventilationStartTime s
    | None => <[GreenhouseData.id greenhouse := minuteOfTheDay s]> (ventilationStartTime s)
    end in
  let start := ventilationStart s greenhouse in
  let ventilationDuration := (minuteOfTheDay s - start)%Z in
  let greenhouse :=
    if (VENTILATION_EXCHANGE_TIME <=? ventilationDuration)%Z then
      let tempDiff := GreenhouseData.temperature greenhouse - EnvironmentData.tavg envData in
      GreenhouseData.set_temperature
        (GreenhouseData.temperature greenhouse - tempDiff * 0.1%Q) greenhouse
    else greenhouse in
  let humidityTarget : Number.t := 60%Q in
  let humidityDiff := GreenhouseData.humidity greenhouse - humidityTarget in
  let greenhouse :=
    GreenhouseData.set_humidity
      (GreenhouseData.humidity greenhouse
       - humidityDiff
         * (Number.ofZ ventilationDuration / Number.ofZ VENTILATION_EXCHANGE_TIME)
         * 0.05%Q) greenhouse in
  (set_ventilationStartTime started s, greenhouse).

Definition heatFromLight (s : t) (greenhouse : GreenhouseData.t)
    (lightHeatIncrease : Number.t) : t * GreenhouseData.t :=
  (set_ventilationStartTime
     (delete (GreenhouseData.id greenhouse) (ventilationStartTime s)) s,
   GreenhouseData.set_temperature
     (GreenhouseData.temperature greenhouse + lightHeatIncrease / 60%Q) greenhouse).

(** [if (humidity > MAX_HUMIDITY) humidity = MAX_HUMIDITY]: a NaN humidity
    fails the test and stays. *)
Definition limitHumidity (greenhouse : GreenhouseData.t) : GreenhouseData.t :=
  if GreenhouseData.humidity greenhouse >? MAX_HUMIDITY
  then GreenhouseData.set_humidity MAX_HUMIDITY greenhouse
  else greenhouse.

(** "Ensure reasonable ranges": [Math.max(0, Math.min(70, t))] is NaN for
    a NaN [t]. *)
Definition ensureRanges (greenhouse : GreenhouseData.t) : GreenhouseData.t :=
  let greenhouse :=
    GreenhouseData.set_temperature
      (Number.max 0%Q (Number.min 70%Q (GreenhouseData.temperature greenhouse)))
      greenhouse in
  GreenhouseData.set_humidity
    (Number.max 0%Q (Number.min 100%Q (GreenhouseData.humidity greenhouse))) greenhouse.

Definition applyLightAndVentilation (s : t) (greenhouse : GreenhouseData.t)
    (envData : EnvironmentData.t) : t * GreenhouseData.t :=
  let baseLightIntensity : Number.t := 1000%Q in
  let greenhouse :=
    GreenhouseData.set_lightIntensity
      (Number.round
         (baseLightIntensity * (1%Q - GreenhouseData.shading greenhouse / 100%Q)))
      greenhouse in
  let lightHeatIncrease := GreenhouseData.lightIntensity greenhouse * LIGHT_HEAT_EFFECT in
  if GreenhouseData.fan greenhouse
  then ventilate s greenhouse envData
  else heatFromLight s greenhouse lightHeatIncrease.

Definition updateGreenhouseEnvironment (s : t) (greenhouse : GreenhouseData.t)
    (envData : EnvironmentData.t) : t * GreenhouseData.t :=
  let '(s, greenhouse) := applyLightAndVentilation s greenhouse envData in
  let greenhouse := limitHumidity greenhouse in
  (s, ensureRanges greenhouse).

(** *** Growth factors *)

Definition calculateMoistureFactor (moisture : Number.t) : Number.t :=
  if (moisture >=? OPTIMAL_MOISTURE_MIN) && (moisture <=? OPTIMAL_MOISTURE_MAX) then 1.0%Q
  else if moisture <? OPTIMAL_MOISTURE_MIN then moisture / OPTIMAL_MOISTURE_MIN
  else if moisture >? OPTIMAL_MOISTURE_MAX
       then Number.max 0%Q ((100%Q - moisture) / 20%Q)
  else 0%Q.

Definition calculateFertilityFactor (fertility : Number.t) : Number.t :=
  if (fertility >=? 60%Q) && (fertility <=? 100%Q) then 1.0%Q
  else if fertility <? 60%Q then fertility / 60%Q
  else if fertility >? 100%Q
       then Number.max 0%Q (1%Q - (fertility - 100%Q) / 50%Q)
  else 0%Q.

Definition calculateLightFactor (houseLight tableLight : Number.t) : Number.t :=
  let totalLight := houseLight + tableLight in
  if (totalLight >=? 400%Q) && (totalLight <=? 800%Q) then 1.0%Q
  else if totalLight <? 400%Q then totalLight / 400%Q
  else Number.max 0.5%Q (800%Q / totalLight).

Definition calculateTemperatureFactor (temp : Number.t) : Number.t :=
  let optimalTemp := OPTIMAL_TEMP in
  if temp <? 5%Q then 0%Q
  else if temp <? optimalTemp then (temp - 5%Q) / (optimalTemp - 5%Q)
  else if temp ===? optimalTemp then 1.0%Q
  else if temp <=? 40%Q then 1%Q - (temp - optimalTemp) / (40%Q - optimalTemp)
  else Number.max 0%Q (1%Q - (temp - 40%Q) / (DEATH_TEMP - 40%Q)).

Definition calculateMaxPlants (plantSize : Number.t) : Number.t :=
  if plantSize <=? 2%Q then 480%Q
  else
    let sizeRatio := plantSize / MAX_PLANT_SIZE in
    let maxPlants := Number.floor (480%Q / (sizeRatio * sizeRatio)) in
    Number.max 24%Q maxPlants.

(** *** Replant and harvest *)

Definition replantTable (s : t) (table : PlantTable.t) : PlantTable.t :=
  let table := PlantTable.set_plantCount 480%Q table in
  let table := PlantTable.set_plantSize 2%Q table in
  let table :=
    PlantTable.set_soilFertility
      (Number.min 100%Q (PlantTable.soilFertility table + 20%Q)) table in
  PlantTable.set_plantedDate (currentDay s) table.

Definition harvestCount (table : PlantTable.t) : Number.t :=
  Number.floor (PlantTable.plantCount table * 0.95%Q).

Definition harvestPlants (s : t) (table : PlantTable.t) : PlantTable.t :=
  let table :=
    PlantTable.set_plantCount (PlantTable.plantCount table - harvestCount table) table in
  if PlantTable.plantCount table <? 24%Q then replantTable s table else table.

(** *** The table tick, block by block *)

Definition tableKey (house : GreenhouseData.t) (table : PlantTable.t) : string :=
  pretty (GreenhouseData.id house) +:+ "-" +:+ pretty (PlantTable.id table).

Definition killPlants (table : PlantTable.t) : PlantTable.t :=
  PlantTable.set_plantSize 0%Q (PlantTable.set_plantCount 0%Q table).

Definition overFertilizedMinutes (s : t) (key : string) : Z :=
  match overFertilizerTime s !! key with Some n => n | None => 0%Z end.

Definition checkOverFertilization (s : t) (key : string) (table : PlantTable.t)
    : t * bool :=
  if PlantTable.soilFertility table >? 100%Q then
    let counters :=
      match overFertilizerTime s !! key with
      | Some _ => overFertilizerTime s
      | None => <[key := 0%Z]> (overFertilizerTime s)
      end in
    let overTime := (overFertilizedMinutes s key + 1)%Z in
    let counters := <[key := overTime]> counters in
    if (OVER_FERTILIZER_DEATH <=? overTime)%Z
    then (set_overFertilizerTime (delete key counters) s, true)
    else (set_overFertilizerTime counters s, false)
  else (set_overFertilizerTime (delete key (overFertilizerTime s)) s, false).

(** With a NaN temperature or humidity of the house the rate is NaN:
    [Math.max(0, NaN)] is NaN. *)
Definition evaporationRate (house : GreenhouseData.t) : Number.t :=
  let tempFactor :=
    Number.max 0%Q ((GreenhouseData.temperature house - 10%Q) / 40%Q) in
  let humidityFactor :=
    Number.max 0%Q (1%Q - GreenhouseData.humidity house / 100%Q) in
  EVAPORATION_RATE * tempFactor * humidityFactor.

Definition manageWater (table : PlantTable.t) (house : GreenhouseData.t) : PlantTable.t :=
  if PlantTable.water table then
    let table :=
      PlantTable.set_soilMoisture
        (Number.min 100%Q (PlantTable.soilMoisture table + WATER_INCREASE_RATE)) table in
    if PlantTable.fertilizer table then
      PlantTable.set_soilFertility
        (Number.min 150%Q (PlantTable.soilFertility table + FERTILIZER_RATE)) table
    else table
  else
    PlantTable.set_soilMoisture
      (Number.max 0%Q (PlantTable.soilMoisture table - evaporationRate house)) table.

Definition decayFertilizer (table : PlantTable.t) : PlantTable.t :=
  if PlantTable.soilFertility table >? 0%Q then
    PlantTable.set_soilFertility
      (Number.max 0%Q (PlantTable.soilFertility table - FERTILIZER_DECAY)) table
  else table.

Definition growthRate (table : PlantTable.t) (house : GreenhouseData.t) : Number.t :=
  let moistureFactor := calculateMoistureFactor (PlantTable.soilMoisture table) in
  let fertilityFactor := calculateFertilityFactor (PlantTable.soilFertility table) in
  let lightFactor :=
    calculateLightFactor (GreenhouseData.lightIntensity house) (PlantTable.artLight table) in
  let temperatureFactor := calculateTemperatureFactor (GreenhouseData.temperature house) in
  BASE_GROWTH_RATE * moistureFactor * fertilityFactor * lightFactor * temperatureFactor.

Definition grow (table : PlantTable.t) (house : GreenhouseData.t) : PlantTable.t :=
  if growthRate table house >? 0%Q then
    PlantTable.set_plantSize (PlantTable.plantSize table + growthRate table house) table
  else table.

Definition drought (table : PlantTable.t) : PlantTable.t :=
  if PlantTable.soilMoisture table <? 10%Q then
    let deathCount := Number.ceil (PlantTable.plantCount table * 0.01%Q) in
    PlantTable.set_plantCount
      (Number.max 0%Q (PlantTable.plantCount table - deathCount)) table
  else table.

Definition replantIfSparse (s : t) (table : PlantTable.t) : PlantTable.t :=
  if PlantTable.plantCount table <? 24%Q then replantTable s table else table.

Definition harvestIfReady (s : t) (table : PlantTable.t) : PlantTable.t :=
  if (PlantTable.plantSize table >=? 30%Q) && (PlantTable.soilMoisture table <=? 50%Q)
  then harvestPlants s table else table.

Definition crowd (table : PlantTable.t) : PlantTable.t :=
  let maxPlants := calculateMaxPlants (PlantTable.plantSize table) in
  if PlantTable.plantCount table >? maxPlants
  then PlantTable.set_plantCount maxPlants table
  else table.

Definition liveTick (s : t) (table : PlantTable.t) (house : GreenhouseData.t)
    : PlantTable.t :=
  let table := manageWater table house in
  let table := decayFertilizer table in
  let table := grow table house in
  let table := drought table in
  let table := replantIfSparse s table in
  let table := PlantTable.set_temperature (GreenhouseData.temperature house) table in
  let table := harvestIfReady s table in
  crowd table.

(** A NaN house temperature fails [house.temperature > DEATH_TEMP], so the
    tick goes on into the live blocks. *)
Definition updateTableData (s : t) (table : PlantTable.t) (house : GreenhouseData.t)
    : t * PlantTable.t :=
  let key := tableKey house table in
  if (PlantTable.plantCount table <=? 0%Q) || (PlantTable.plantSize table <=? 0%Q)
  then (s, table)
  else if GreenhouseData.temperature house >? DEATH_TEMP
  then (s, killPlants table)
  else
    let '(s, died) := checkOverFertilization s key table in
    if died then (s, killPlants table)
    else (s, liveTick s table house).

Definition updateTime (s : t) : t :=
  let minute := (minuteOfTheDay s + 1)%Z in
  if (1440 <=? minute)%Z
  then mk (environmentData s) (currentDay s + 1) 0
          (ventilationStartTime s) (overFertilizerTime s)
  else mk (environmentData s) (currentDay s) minute
          (ventilationStartTime s) (overFertilizerTime s).

(** *** The whole tick *)

(** The one place that reads the climate record is [envData.tavg] in the
    fan branch, once the exchange time has passed. *)
Definition readsClimate (s : t) (greenhouse : GreenhouseData.t) : bool :=
  GreenhouseData.fan greenhouse
  && (VENTILATION_EXCHANGE_TIME <=? minuteOfTheDay s - ventilationStart s greenhouse)%Z.

(** Stands in for the record on the paths that do not read it. *)
Definition unreadRecord : EnvironmentData.t :=
  EnvironmentData.mk 0 Number.NaN Number.NaN Number.NaN Number.NaN Number.NaN
    Number.NaN Number.NaN.

(** The record may be [undefined] (no climate data loaded): reading [tavg]
    of it throws, and [None] is that TypeError.  A record that is there but
    holds NaN does not throw. *)
Definition updateGreenhouseEnvironmentOf (s : t) (greenhouse : GreenhouseData.t)
    (envData : option EnvironmentData.t) : option (t * GreenhouseData.t) :=
  match envData with
  | Some record => Some (updateGreenhouseEnvironment s greenhouse record)
  | None =>
      if readsClimate s greenhouse then None
      else Some (updateGreenhouseEnvironment s greenhouse unreadRecord)
  end.

Fixpoint updateTables (s : t) (tables : list PlantTable.t) (house : GreenhouseData.t)
    : t * list PlantTable.t :=
  match tables with
  | [] => (s, [])
  | table :: rest =>
      let '(s, table) := updateTableData s table house in
      let '(s, rest) := updateTables s rest house in
      (s, table :: rest)
  end.

Definition simulateGreenhouse (s : t) (greenhouse : GreenhouseData.t)
    (envData : option EnvironmentData.t) : option (t * GreenhouseData.t) :=
  match updateGreenhouseEnvironmentOf s greenhouse envData with
  | Some (s, greenhouse) =>
      let '(s, tables) := updateTables s (GreenhouseData.tables greenhouse) greenhouse in
      Some (s, GreenhouseData.set_tables tables greenhouse)
  | None => None
  end.

Fixpoint simulateGreenhouses (s : t) (greenhouses : list GreenhouseData.t)
    (envData : option EnvironmentData.t) : option (t * list GreenhouseData.t) :=
  match greenhouses with
  | [] => Some (s, [])
  | greenhouse :: rest =>
      match simulateGreenhouse s greenhouse envData with
      | Some (s, greenhouse) =>
          match simulateGreenhouses s rest envData with
          | Some (s, rest) => Some (s, greenhouse :: rest)
          | None => None
          end
      | None => None
      end
  end.

Definition simulateAllGreenhouses (s : t) (greenhouses : list GreenhouseData.t)
    : option (t * list GreenhouseData.t) :=
  let envData := getCurrentEnvironmentData s in
  match simulateGreenhouses s greenhouses envData with
  | Some (s, greenhouses) => Some (updateTime s, greenhouses)
  | None => None
  end.

Fixpoint simulateTicks (n : nat) (s : t) (greenhouses : list GreenhouseData.t)
    : option (t * list GreenhouseData.t) :=
  match n with
  | O => Some (s, greenhouses)
  | S n' =>
      match simulateAllGreenhouses s greenhouses with
      | Some (s, greenhouses) => simulateTicks n' s greenhouses
      | None => None
      end
  end.
End SensorSimulator.
End WithNaN.

(** ** The rational model inside the model with NaN

    A record of the rational model read as a record whose numbers happen
    not to be NaN, the values a record of numbers holds, and what it means
    for a record to hold no NaN. *)

Module Numeric.
Definition ofTable (x : PlantTable.t) : WithNaN.PlantTable.t :=
  WithNaN.PlantTable.mk (PlantTable.id x) (PlantTable.position x)
    (PlantTable.temperature x) (PlantTable.plantSize x) (PlantTable.plantCount x)
    (PlantTable.soilMoisture x) (PlantTable.soilFertility x) (PlantTable.artLight x)
    (PlantTable.water x) (PlantTable.fertilizer x) (PlantTable.plantedDate x).

Definition toTable (x : WithNaN.PlantTable.t) : PlantTable.t :=
  PlantTable.mk (WithNaN.PlantTable.id x) (WithNaN.PlantTable.position x)
    (Number.value (WithNaN.PlantTable.temperature x))
    (Number.value (WithNaN.PlantTable.plantSize x))
    (Number.value (WithNaN.PlantTable.plantCount x))
    (Number.value (WithNaN.PlantTable.soilMoisture x))
    (Number.value (WithNaN.PlantTable.soilFertility x))
    (Number.value (WithNaN.PlantTable.artLight x))
    (WithNaN.PlantTable.water x) (WithNaN.PlantTable.fertilizer x)
    (WithNaN.PlantTable.plantedDate x).

Definition table (x : WithNaN.PlantTable.t) : Prop :=
  Number.numeric (WithNaN.PlantTable.temperature x)
  /\ Number.numeric (WithNaN.PlantTable.plantSize x)
  /\ Number.numeric (WithNaN.PlantTable.plantCount x)
  /\ Number.numeric (WithNaN.PlantTable.soilMoisture x)
  /\ Number.numeric (WithNaN.PlantTable.soilFertility x)
  /\ Number.numeric (WithNaN.PlantTable.artLight x).

Definition ofHouse (g : GreenhouseData.t) : WithNaN.GreenhouseData.t :=
  WithNaN.GreenhouseData.mk (GreenhouseData.id g) (GreenhouseData.name g)
    (GreenhouseData.lightIntensity g) (GreenhouseData.temperature g)
    (GreenhouseData.humidity g) (GreenhouseData.fan g) (GreenhouseData.shading g)
    (ofTable <$> GreenhouseData.tables g).

Definition toHouse (g : WithNaN.GreenhouseData.t) : GreenhouseData.t :=
  GreenhouseData.mk (WithNaN.GreenhouseData.id g) (WithNaN.GreenhouseData.name g)
    (Number.value (WithNaN.GreenhouseData.lightIntensity g))
    (Number.value (WithNaN.GreenhouseData.temperature g))
    (Number.value (WithNaN.GreenhouseData.humidity g))
    (WithNaN.GreenhouseData.fan g)
    (Number.value (WithNaN.GreenhouseData.shading g))
    (toTable <$> WithNaN.GreenhouseData.tables g).

Definition house (g : WithNaN.GreenhouseData.t) : Prop :=
  Number.numeric (WithNaN.GreenhouseData.lightIntensity g)
  /\ Number.numeric (WithNaN.GreenhouseData.temperature g)
  /\ Number.numeric (WithNaN.GreenhouseData.humidity g)
  /\ Number.numeric (WithNaN.GreenhouseData.shading g)
  /\ Forall table (WithNaN.GreenhouseData.tables g).

Definition ofRecord (e : EnvironmentData.t) : WithNaN.EnvironmentData.t :=
  WithNaN.EnvironmentData.mk (EnvironmentData.date e) (EnvironmentData.tavg e)
    (EnvironmentData.tmin e) (EnvironmentData.tmax e) (EnvironmentData.prcp e)
    (EnvironmentData.snow e) (EnvironmentData.pres e) (EnvironmentData.tsun e).

Definition toRecord (e : WithNaN.EnvironmentData.t) : EnvironmentData.t :=
  EnvironmentData.mk (WithNaN.EnvironmentData.date e)
    (Number.value (WithNaN.EnvironmentData.tavg e))
    (Number.value (WithNaN.EnvironmentData.tmin e))
    (Number.value (WithNaN.EnvironmentData.tmax e))
    (Number.value (WithNaN.EnvironmentData.prcp e))
    (Number.value (WithNaN.EnvironmentData.snow e))
    (Number.value (WithNaN.EnvironmentData.pres e))
    (Number.value (WithNaN.EnvironmentData.tsun e)).

(** The engine reads the average temperature of a record only. *)
Definition record (e : WithNaN.EnvironmentData.t) : Prop :=
  Number.numeric (WithNaN.EnvironmentData.tavg e).

(** The simulator state carries numbers in its climate records only. *)
Definition toState (s : WithNaN.SensorSimulator.t) : SensorSimulator.t :=
  SensorSimulator.mk (toRecord <$> WithNaN.SensorSimulator.environmentData s)
    (WithNaN.SensorSimulator.currentDay s) (WithNaN.SensorSimulator.minuteOfTheDay s)
    (WithNaN.SensorSimulator.ventilationStartTime s)
    (WithNaN.SensorSimulator.overFertilizerTime s).

(** The state with the clock and side maps of [s] and the climate records
    of [like]. *)
Definition withState (like : WithNaN.SensorSimulator.t) (s : SensorSimulator.t)
    : WithNaN.SensorSimulator.t :=
  WithNaN.SensorSimulator.mk (WithNaN.SensorSimulator.environmentData like)
    (SensorSimulator.currentDay s) (SensorSimulator.minuteOfTheDay s)
    (SensorSimulator.ventilationStartTime s) (SensorSimulator.overFertilizerTime s).

(** What an update hands on (the state and a record or a list of them),
    read in the model with NaN. *)
Definition ofTick {A B : Type} (like : WithNaN.SensorSimulator.t) (f : A -> B)
    (r : SensorSimulator.t * A) : WithNaN.SensorSimulator.t * B :=
  (withState like (fst r), f (snd r)).
End Numeric.

(** ** Vocabulary of the properties *)

(** The bounds of the table record. *)
Definition tableBounds (table : PlantTable.t) : Prop :=
  (0 <= PlantTable.plantCount table <= 480)%Q
  /\ (0 <= PlantTable.plantSize table)%Q
  /\ (0 <= PlantTable.soilMoisture table <= 100)%Q
  /\ (0 <= PlantTable.soilFertility table <= 150)%Q.

(** A table the tick does not skip: it has plants, of positive size. *)
Definition liveTable (table : PlantTable.t) : Prop :=
  (0 < PlantTable.plantCount table)%Q /\ (0 < PlantTable.plantSize table)%Q.

(** The over-fertilisation rule fires in this tick: the fertility is above
    100 and this minute completes the tenth counted one. *)
Definition overFertilizationKills (s : SensorSimulator.t) (house : GreenhouseData.t)
    (table : PlantTable.t) : Prop :=
  (100 < PlantTable.soilFertility table)%Q
  /\ (SensorSimulator.OVER_FERTILIZER_DEATH
      <= SensorSimulator.overFertilizedMinutes s (SensorSimulator.tableKey house table) + 1)%Z.

(** The tick reaches the over-fertilisation check of the table stored under
    [key]: the table is live and the house is not above the death
    temperature. *)
Definition reachesFertilityCheck (key : string)
    (tick : PlantTable.t * GreenhouseData.t) : Prop :=
  SensorSimulator.tableKey (snd tick) (fst tick) = key
  /\ liveTable (fst tick)
  /\ (GreenhouseData.temperature (snd tick) <= SensorSimulator.DEATH_TEMP)%Q.

(** The tick starts from a fertility above 100. *)
Definition overFertilized (tick : PlantTable.t * GreenhouseData.t) : Prop :=
  (100 < PlantTable.soilFertility (fst tick))%Q.

(** The ids name a table of the registry. *)
Definition knownTable (m : GreenhouseManager.t) (greenhouseId tableId : Z) : Prop :=
  exists (greenhouse : GreenhouseData.t) (table : PlantTable.t),
    GreenhouseManager.greenhouses m !! greenhouseId = Some greenhouse
    /\ table ∈ GreenhouseData.tables greenhouse
    /\ PlantTable.id table = tableId.

(** [m'] is [m] with [assign] applied to the first table of greenhouse
    [greenhouseId] that carries [tableId], and nothing else changed. *)
Definition tableFieldSet (assign : PlantTable.t -> PlantTable.t)
    (m : GreenhouseManager.t) (greenhouseId tableId : Z) (m' : GreenhouseManager.t) : Prop :=
  exists (greenhouse : GreenhouseData.t) (i : nat) (table : PlantTable.t),
    GreenhouseManager.greenhouses m !! greenhouseId = Some greenhouse
    /\ GreenhouseData.tables greenhouse !! i = Some table
    /\ PlantTable.id table = tableId
    /\ (forall (j : nat) (other : PlantTable.t),
          GreenhouseData.tables greenhouse !! j = Some other -> (j < i)%nat ->
          PlantTable.id other <> tableId)
    /\ m' = GreenhouseManager.set_greenhouses
              (<[greenhouseId :=
                   GreenhouseData.set_tables
                     (<[i := assign table]> (GreenhouseData.tables greenhouse)) greenhouse]>
                 (GreenhouseManager.greenhouses m)) m.

(** [m'] is [m] with [assign] applied to greenhouse [greenhouseId], and
    nothing else changed. *)
Definition greenhouseFieldSet (assign : GreenhouseData.t -> GreenhouseData.t)
    (m : GreenhouseManager.t) (greenhouseId : Z) (m' : GreenhouseManager.t) : Prop :=
  exists greenhouse : GreenhouseData.t,
    GreenhouseManager.greenhouses m !! greenhouseId = Some greenhouse
    /\ m' = GreenhouseManager.set_greenhouses
              (<[greenhouseId := assign greenhouse]> (GreenhouseManager.greenhouses m)) m.

(** What identifies a table and what only the actuator setters write. *)
Definition sameSettings (table table' : PlantTable.t) : Prop :=
  PlantTable.id table' = PlantTable.id table
  /\ PlantTable.position table' = PlantTable.position table
  /\ PlantTable.artLight table' = PlantTable.artLight table
  /\ PlantTable.water table' = PlantTable.water table
  /\ PlantTable.fertilizer table' = PlantTable.fertilizer table.

(** The ranges of the greenhouse record after its update. *)
Definition houseRanges (greenhouse : GreenhouseData.t) : Prop :=
  (0 <= GreenhouseData.temperature greenhouse <= 70)%Q
  /\ (0 <= GreenhouseData.humidity greenhouse <= 85)%Q.

Definition tablesInBounds (greenhouse : GreenhouseData.t) : Prop :=
  Forall tableBounds (GreenhouseData.tables greenhouse).

(** Every live table shows the temperature of its house. *)
Definition tablesFollowHouse (greenhouse : GreenhouseData.t) : Prop :=
  Forall (fun table => liveTable table ->
                       PlantTable.temperature table = GreenhouseData.temperature greenhouse)
         (GreenhouseData.tables greenhouse).

(** What identifies a greenhouse and its tables, and what only the actuator
    setters write. *)
Definition sameHouseSettings (greenhouse greenhouse' : GreenhouseData.t) : Prop :=
  GreenhouseData.id greenhouse' = GreenhouseData.id greenhouse
  /\ GreenhouseData.name greenhouse' = GreenhouseData.name greenhouse
  /\ GreenhouseData.fan greenhouse' = GreenhouseData.fan greenhouse
  /\ GreenhouseData.shading greenhouse' = GreenhouseData.shading greenhouse
  /\ Forall2 sameSettings (GreenhouseData.tables greenhouse)
       (GreenhouseData.tables greenhouse').

(** What the greenhouse and table updates leave of the simulator: the
    clock and the loaded climate data. *)
Definition sameClock (s s' : SensorSimulator.t) : Prop :=
  SensorSimulator.currentDay s' = SensorSimulator.currentDay s
  /\ SensorSimulator.minuteOfTheDay s' = SensorSimulator.minuteOfTheDay s
  /\ SensorSimulator.environmentData s' = SensorSimulator.environmentData s.

(** What one tick makes of a greenhouse record. *)
Definition tickedHouse (greenhouse greenhouse' : GreenhouseData.t) : Prop :=
  sameHouseSettings greenhouse greenhouse'
  /\ houseRanges greenhouse'
  /\ tablesFollowHouse greenhouse'
  /\ (tablesInBounds greenhouse -> tablesInBounds greenhouse').

(** Simulated minutes since the start of day 0. *)
Definition minutesSinceDay0 (s : SensorSimulator.t) : Z :=
  (SensorSimulator.currentDay s * 1440 + SensorSimulator.minuteOfTheDay s)%Z.

(** The bounds of the table record and the ranges of the greenhouse record
    on numbers that may be NaN: a NaN is outside every bound. *)
Definition tableBoundsOf (table : WithNaN.PlantTable.t) : Prop :=
  Number.within 0 480 (WithNaN.PlantTable.plantCount table)
  /\ Number.atLeast 0 (WithNaN.PlantTable.plantSize table)
  /\ Number.within 0 100 (WithNaN.PlantTable.soilMoisture table)
  /\ Number.within 0 150 (WithNaN.PlantTable.soilFertility table).

Definition houseRangesOf (greenhouse : WithNaN.GreenhouseData.t) : Prop :=
  Number.within 0 70 (WithNaN.GreenhouseData.temperature greenhouse)
  /\ Number.within 0 85 (WithNaN.GreenhouseData.humidity greenhouse).

(** A table that is not being fertilised (the water or the fertiliser
    actuator is off), at a fertility of at most 100. *)
Definition unfertilisedWithin100 (table : PlantTable.t) : Prop :=
  PlantTable.water table && PlantTable.fertilizer table = false
  /\ (PlantTable.soilFertility table <= 100)%Q.

Definition tablesUnfertilised (greenhouse : GreenhouseData.t) : Prop :=
  Forall unfertilisedWithin100 (GreenhouseData.tables greenhouse).

Definition tablesInBoundsOf (greenhouse : WithNaN.GreenhouseData.t) : Prop :=
  Forall tableBoundsOf (WithNaN.GreenhouseData.tables greenhouse).

(** What an accepted actuator call has done, field by field.  The fields
    of a table that no actuator writes: *)
Definition sameMeasurements (table table' : PlantTable.t) : Prop :=
  PlantTable.id table' = PlantTable.id table
  /\ PlantTable.position table' = PlantTable.position table
  /\ PlantTable.temperature table' = PlantTable.temperature table
  /\ PlantTable.plantSize table' = PlantTable.plantSize table
  /\ PlantTable.plantCount table' = PlantTable.plantCount table
  /\ PlantTable.soilMoisture table' = PlantTable.soilMoisture table
  /\ PlantTable.soilFertility table' = PlantTable.soilFertility table
  /\ PlantTable.plantedDate table' = PlantTable.plantedDate table.

(** [table'] reads [state] as its water flag and is [table] in every
    other field; likewise for the fertiliser flag and the artificial
    light. *)
Definition waterSetTo (state : bool) (table table' : PlantTable.t) : Prop :=
  PlantTable.water table' = state
  /\ PlantTable.fertilizer table' = PlantTable.fertilizer table
  /\ PlantTable.artLight table' = PlantTable.artLight table
  /\ sameMeasurements table table'.

Definition fertilizerSetTo (state : bool) (table table' : PlantTable.t) : Prop :=
  PlantTable.fertilizer table' = state
  /\ PlantTable.water table' = PlantTable.water table
  /\ PlantTable.artLight table' = PlantTable.artLight table
  /\ sameMeasurements table table'.

Definition artLightSetTo (lumens : Q) (table table' : PlantTable.t) : Prop :=
  PlantTable.artLight table' = lumens
  /\ PlantTable.water table' = PlantTable.water table
  /\ PlantTable.fertilizer table' = PlantTable.fertilizer table
  /\ sameMeasurements table table'.

(** The fields of a greenhouse that no actuator writes, its tables
    apart. *)
Definition sameClimate (greenhouse greenhouse' : GreenhouseData.t) : Prop :=
  GreenhouseData.id greenhouse' = GreenhouseData.id greenhouse
  /\ GreenhouseData.name greenhouse' = GreenhouseData.name greenhouse
  /\ GreenhouseData.lightIntensity greenhouse' = GreenhouseData.lightIntensity greenhouse
  /\ GreenhouseData.temperature greenhouse' = GreenhouseData.temperature greenhouse
  /\ GreenhouseData.humidity greenhouse' = GreenhouseData.humidity greenhouse.

Definition fanSetTo (state : bool) (greenhouse greenhouse' : GreenhouseData.t) : Prop :=
  GreenhouseData.fan greenhouse' = state
  /\ GreenhouseData.shading greenhouse' = GreenhouseData.shading greenhouse
  /\ GreenhouseData.tables greenhouse' = GreenhouseData.tables greenhouse
  /\ sameClimate greenhouse greenhouse'.

Definition shadingSetTo (percentage : Q) (greenhouse greenhouse' : GreenhouseData.t)
    : Prop :=
  GreenhouseData.shading greenhouse' = percentage
  /\ GreenhouseData.fan greenhouse' = GreenhouseData.fan greenhouse
  /\ GreenhouseData.tables greenhouse' = GreenhouseData.tables greenhouse
  /\ sameClimate greenhouse greenhouse'.

(** The manager apart from its registry of greenhouses. *)
Definition sameSimulation (m m' : GreenhouseManager.t) : Prop :=
  GreenhouseManager.sensorSimulator m' = GreenhouseManager.sensorSimulator m
  /\ GreenhouseManager.simulationInterval m' = GreenhouseManager.simulationInterval m
  /\ GreenhouseManager.baseTimeStep m' = GreenhouseManager.baseTimeStep m
  /\ GreenhouseManager.timeStep m' = GreenhouseManager.timeStep m
  /\ GreenhouseManager.simulationSpeed m' = GreenhouseManager.simulationSpeed m.

(** [m'] differs from [m] in one table only: the first table of
    greenhouse [greenhouseId] that carries [tableId] has become a table that
    [written] relates to it.  The other tables of that greenhouse and its
    own fields, every other greenhouse, and the rest of the manager are as
    they were. *)
Definition tableWritten (written : PlantTable.t -> PlantTable.t -> Prop)
    (m : GreenhouseManager.t) (greenhouseId tableId : Z) (m' : GreenhouseManager.t) : Prop :=
  exists (greenhouse greenhouse' : GreenhouseData.t) (i : nat)
         (table table' : PlantTable.t),
    GreenhouseManager.greenhouses m !! greenhouseId = Some greenhouse
    /\ GreenhouseData.tables greenhouse !! i = Some table
    /\ PlantTable.id table = tableId
    /\ (forall (j : nat) (other : PlantTable.t),
          GreenhouseData.tables greenhouse !! j = Some other -> (j < i)%nat ->
          PlantTable.id other <> tableId)
    /\ written table table'
    /\ GreenhouseManager.greenhouses m' !! greenhouseId = Some greenhouse'
    /\ GreenhouseData.tables greenhouse' !! i = Some table'
    /\ length (GreenhouseData.tables greenhouse')
       = length (GreenhouseData.tables greenhouse)
    /\ (forall j : nat, j <> i ->
          GreenhouseData.tables greenhouse' !! j = GreenhouseData.tables greenhouse !! j)
    /\ GreenhouseData.fan greenhouse' = GreenhouseData.fan greenhouse
    /\ GreenhouseData.shading greenhouse' = GreenhouseData.shading greenhouse
    /\ sameClimate greenhouse greenhouse'
    /\ (forall other : Z, other <> greenhouseId ->
          GreenhouseManager.greenhouses m' !! other
          = GreenhouseManager.greenhouses m !! other)
    /\ sameSimulation m m'.

(** [m'] differs from [m] in one greenhouse only, which has become a
    greenhouse that [written] relates to it. *)
Definition greenhouseWritten (written : GreenhouseData.t -> GreenhouseData.t -> Prop)
    (m : GreenhouseManager.t) (greenhouseId : Z) (m' : GreenhouseManager.t) : Prop :=
  exists greenhouse greenhouse' : GreenhouseData.t,
    GreenhouseManager.greenhouses m !! greenhouseId = Some greenhouse
    /\ written greenhouse greenhouse'
    /\ GreenhouseManager.greenhouses m' !! greenhouseId = Some greenhouse'
    /\ (forall other : Z, other <> greenhouseId ->
          GreenhouseManager.greenhouses m' !! other
          = GreenhouseManager.greenhouses m !! other)
    /\ sameSimulation m m'.

(** ** Scenario data *)

(** Greenhouse 1 of the start
    configuration with the fan on since minute 0 and a humidity of 80, at
    minute 15 of the day, under an outside average of 10 degrees. *)
Definition humidFannedHouse : GreenhouseData.t :=
  GreenhouseData.set_humidity 80
    (GreenhouseData.set_fan true (GreenhouseManager.initialGreenhouse 1 100)).

Definition minute15 : SensorSimulator.t :=
  SensorSimulator.mk [] 100 15 {[ 1%Z := 0%Z ]} ∅.

Definition mildDay : EnvironmentData.t := EnvironmentData.mk 100 10 5 15 0 0 1013 300.

(** Table 1 of greenhouse 1 in three conditions: emptied, thinned out to
    ten plants, and ripe for harvest (31 cm, moisture 40, full count). *)
Definition emptyTable : PlantTable.t :=
  PlantTable.set_plantCount 0 (GreenhouseManager.initialTable 1 1 100).

Definition sparseTable : PlantTable.t :=
  PlantTable.set_plantCount 10 (GreenhouseManager.initialTable 1 1 100).

Definition ripeTable : PlantTable.t :=
  PlantTable.set_soilMoisture 40
    (PlantTable.set_plantSize 31 (GreenhouseManager.initialTable 1 1 100)).

Definition house1 : GreenhouseData.t := GreenhouseManager.initialGreenhouse 1 100.

(** Table 1 with the fertility at 110, presented to ten consecutive ticks
    (the value is held from outside, as by an actuator schedule or a test). *)
Definition fertileTable : PlantTable.t :=
  PlantTable.set_soilFertility 110 (GreenhouseManager.initialTable 1 1 100).

Definition heldTicks : list (PlantTable.t * GreenhouseData.t) :=
  replicate 10 (fertileTable, house1).

(** The manager after [initializeGreenhouses] and [startSimulation]. *)
Definition runningManager : GreenhouseManager.t :=
  GreenhouseManager.startSimulation
    (GreenhouseManager.initializeGreenhouses 100 GreenhouseManager.new).

(** A line of the climate file whose cells are blank: [parseFloat] gives
    NaN for each measurement. *)
Definition blankDay : WithNaN.EnvironmentData.t :=
  WithNaN.EnvironmentData.mk 100 Number.NaN Number.NaN Number.NaN Number.NaN
    Number.NaN Number.NaN Number.NaN.

(** Minute 40 of day 100 with the blank line as the climate data, and
    greenhouse 1 of the start configuration with its fan on since minute 0. *)
Definition minute40Blank : WithNaN.SensorSimulator.t :=
  WithNaN.SensorSimulator.mk [blankDay] 100 40 {[ 1%Z := 0%Z ]} ∅.

Definition fannedHouse : WithNaN.GreenhouseData.t :=
  Numeric.ofHouse (GreenhouseData.set_fan true house1).

(** The greenhouse record that the environment update leaves of it. *)
Definition houseAfterBlankDay : WithNaN.GreenhouseData.t :=
  snd (WithNaN.SensorSimulator.updateGreenhouseEnvironment minute40Blank fannedHouse
         blankDay).

(** Table 1 held at a fertility of 110 for ten ticks, the tenth of them in
    a house of 61 degrees. *)
Definition hotTenthTick : list (PlantTable.t * GreenhouseData.t) :=
  replicate 9 (fertileTable, house1)
  ++ [(fertileTable, GreenhouseData.set_temperature 61 house1)].

(** Midnight of day 100 with the mild day as the one climate record, and
    greenhouse 1 of the start configuration. *)
Definition mildMidnight : WithNaN.SensorSimulator.t :=
  WithNaN.SensorSimulator.mk [Numeric.ofRecord mildDay] 100 0 ∅ ∅.

Definition startHouse : WithNaN.GreenhouseData.t := Numeric.ofHouse house1.

(** * Properties *)

(** ** Comparisons, [Math.min] and [Math.max] *)

Section JSFacts.
#[local] Open Scope Q_scope.

Lemma Qle_bool_spec (a b : Q) : BoolSpec (a <= b) (b < a) (Qle_bool a b).
Proof.
  destruct (Qle_bool a b) eqn:E; constructor.
  - now apply Qle_bool_iff.
  - apply Qnot_le_lt. intros H. apply Qle_bool_iff in H. congruence.
Qed.

Lemma Qlt_bool_spec (a b : Q) : BoolSpec (a < b) (b <= a) (Qlt_bool a b).
Proof.
  unfold Qlt_bool. destruct (Qle_bool_spec b a); constructor; assumption.
Qed.

Lemma Qeq_bool_spec (a b : Q) : BoolSpec (a == b) (~ a == b) (Qeq_bool a b).
Proof.
  destruct (Qeq_bool a b) eqn:E; constructor.
  - now apply Qeq_bool_iff.
  - intros H. apply Qeq_bool_iff in H. congruence.
Qed.

Lemma Math_max_spec (a b : Q) :
  (a <= b /\ Math_max a b = b) \/ (b < a /\ Math_max a b = a).
Proof. unfold Math_max. destruct (Qle_bool_spec a b); auto. Qed.

Lemma Math_min_spec (a b : Q) :
  (a <= b /\ Math_min a b = a) \/ (b < a /\ Math_min a b = b).
Proof. unfold Math_min. destruct (Qle_bool_spec a b); auto. Qed.

Lemma Math_max_lb_l (a b : Q) : a <= Math_max a b.
Proof. destruct (Math_max_spec a b) as [[? ->]|[? ->]]; lra. Qed.

Lemma Math_max_lb_r (a b : Q) : b <= Math_max a b.
Proof. destruct (Math_max_spec a b) as [[? ->]|[? ->]]; lra. Qed.

Lemma Math_min_ub_l (a b : Q) : Math_min a b <= a.
Proof. destruct (Math_min_spec a b) as [[? ->]|[? ->]]; lra. Qed.

Lemma Math_min_ub_r (a b : Q) : Math_min a b <= b.
Proof. destruct (Math_min_spec a b) as [[? ->]|[? ->]]; lra. Qed.

Lemma Math_floor_le (x : Q) : Math_floor x <= x.
Proof. apply Qfloor_le. Qed.

Lemma Math_floor_mono (x y : Q) : x <= y -> Math_floor x <= Math_floor y.
Proof.
  intros H. unfold Math_floor. rewrite <- Zle_Qle. now apply Qfloor_resp_le.
Qed.

Lemma Math_floor_int (z : Z) : Math_floor (inject_Z z) = inject_Z z.
Proof. unfold Math_floor. now rewrite Qfloor_Z. Qed.

Lemma Math_ceil_ge (x : Q) : x <= Math_ceil x.
Proof. apply Qle_ceiling. Qed.
End JSFacts.

(** Case analysis on every comparison of the goal, then linear arithmetic. *)
Ltac js_case :=
  match goal with
  | |- context [Qle_bool ?a ?b] => destruct (Qle_bool_spec a b)
  | |- context [Qlt_bool ?a ?b] => destruct (Qlt_bool_spec a b)
  | |- context [Qeq_bool ?a ?b] => destruct (Qeq_bool_spec a b)
  end.
Ltac js_cases := repeat (js_case; cbn [andb orb negb]).

(** ** Table capacity and the crowding step *)

Section Crowding.
#[local] Open Scope Q_scope.
Import SensorSimulator.

Lemma calculateMaxPlants_ge_24 (plantSize : Q) : 24 <= calculateMaxPlants plantSize.
Proof.
  unfold calculateMaxPlants. destruct (Qle_bool_spec plantSize 2); [lra|].
  apply Math_max_lb_l.
Qed.

Lemma calculateMaxPlants_small (plantSize : Q) :
  plantSize <= 15 -> 480 <= calculateMaxPlants plantSize.
Proof.
  intros Hs. unfold calculateMaxPlants.
  destruct (Qle_bool_spec plantSize 2) as [|H2]; [lra|].
  eapply Qle_trans; [|apply Math_max_lb_r].
  change 480 with (inject_Z 480) at 1. rewrite <- (Math_floor_int 480).
  apply Math_floor_mono. unfold MAX_PLANT_SIZE.
  set (r := plantSize / 15).
  assert (Hr : 0 < r /\ r <= 1).
  { unfold r. split.
    - apply Qlt_shift_div_l; lra.
    - apply Qle_shift_div_r; lra. }
  apply Qle_shift_div_l; [nra|].
  change (inject_Z 480) with 480. nra.
Qed.

Lemma crowd_plantSize (table : PlantTable.t) :
  PlantTable.plantSize (crowd table) = PlantTable.plantSize table.
Proof. unfold crowd. js_cases; reflexivity. Qed.

Lemma crowd_plantCount_le (table : PlantTable.t) :
  PlantTable.plantCount (crowd table) <= PlantTable.plantCount table.
Proof. unfold crowd. js_cases; cbn; lra. Qed.
End Crowding.

(** C9.  Applying the crowding step (capacity from the plant size, then the
    clamp of the plant count to that capacity) twice in a row leaves the
    table, and so its plant count, as one application leaves it, for every
    plant size and plant count. *)
Theorem crowd_idempotent (table : PlantTable.t) :
  SensorSimulator.crowd (SensorSimulator.crowd table) = SensorSimulator.crowd table
  /\ PlantTable.plantCount (SensorSimulator.crowd (SensorSimulator.crowd table))
     = PlantTable.plantCount (SensorSimulator.crowd table).
Proof.
  assert (H : SensorSimulator.crowd (SensorSimulator.crowd table)
              = SensorSimulator.crowd table).
  { unfold SensorSimulator.crowd.
    destruct (Qlt_bool_spec
                (SensorSimulator.calculateMaxPlants (PlantTable.plantSize table))
                (PlantTable.plantCount table)) as [Hgt|Hle].
    - cbn [PlantTable.plantSize PlantTable.plantCount PlantTable.set_plantCount].
      js_case; [|reflexivity].
      exfalso. eapply Qlt_irrefl; eassumption.
    - js_case; [|reflexivity].
      exfalso. apply (Qlt_irrefl (PlantTable.plantCount table)).
      eapply Qle_lt_trans; eassumption. }
  split; [exact H | now rewrite H].
Qed.

(** C10.  For every plant size of at most 15 cm the computed capacity is at
    least 480, so the crowding step removes no plant from a table that holds
    at most 480; a crowding step that changes such a table implies a plant
    size above 15 cm. *)
Theorem crowding_only_above_15cm :
  (forall plantSize : Q,
      (plantSize <= 15)%Q -> (480 <= SensorSimulator.calculateMaxPlants plantSize)%Q)
  /\ (forall table : PlantTable.t,
         (PlantTable.plantSize table <= 15)%Q ->
         (PlantTable.plantCount table <= 480)%Q ->
         SensorSimulator.crowd table = table)
  /\ (forall table : PlantTable.t,
         (PlantTable.plantCount table <= 480)%Q ->
         (PlantTable.plantCount (SensorSimulator.crowd table)
          < PlantTable.plantCount table)%Q ->
         (15 < PlantTable.plantSize table)%Q).
Proof.
  assert (Hkeep : forall table : PlantTable.t,
             (PlantTable.plantSize table <= 15)%Q ->
             (PlantTable.plantCount table <= 480)%Q ->
             SensorSimulator.crowd table = table).
  { intros table Hs Hc. unfold SensorSimulator.crowd.
    pose proof (calculateMaxPlants_small _ Hs) as Hcap.
    js_case; [|reflexivity]. lra. }
  split; [exact calculateMaxPlants_small|].
  split; [exact Hkeep|].
  intros table Hc Hlt.
  destruct (Qlt_le_dec 15 (PlantTable.plantSize table)) as [|Hs]; [assumption|].
  rewrite (Hkeep table Hs Hc) in Hlt. exfalso. revert Hlt. apply Qlt_irrefl.
Qed.

(** A seedling table of the start configuration is left alone by crowding. *)
Lemma crowding_only_above_15cm_witness :
  SensorSimulator.crowd (GreenhouseManager.initialTable 1 1 100)
  = GreenhouseManager.initialTable 1 1 100.
Proof.
  apply (proj1 (proj2 crowding_only_above_15cm)); cbn; lra.
Defined.

(** ** The greenhouse environment update *)

Section Environment.
#[local] Open Scope Q_scope.
Import SensorSimulator.

Variables (s : SensorSimulator.t) (greenhouse : GreenhouseData.t)
          (envData : EnvironmentData.t).

Lemma limitHumidity_temperature (g : GreenhouseData.t) :
  GreenhouseData.temperature (limitHumidity g) = GreenhouseData.temperature g.
Proof. unfold limitHumidity. js_cases; reflexivity. Qed.

Lemma limitHumidity_le (g : GreenhouseData.t) :
  GreenhouseData.humidity (limitHumidity g) <= 85.
Proof. unfold limitHumidity, MAX_HUMIDITY. js_cases; cbn; lra. Qed.

(** The end of the update, read off the state the branch produced. *)
Lemma updateGreenhouseEnvironment_clamps :
  let g1 := snd (applyLightAndVentilation s greenhouse envData) in
  let g' := snd (updateGreenhouseEnvironment s greenhouse envData) in
  fst (updateGreenhouseEnvironment s greenhouse envData)
  = fst (applyLightAndVentilation s greenhouse envData)
  /\ GreenhouseData.temperature g'
     = Math_max 0 (Math_min 70 (GreenhouseData.temperature g1))
  /\ GreenhouseData.humidity g'
     = Math_max 0 (Math_min 100 (GreenhouseData.humidity (limitHumidity g1))).
Proof.
  unfold updateGreenhouseEnvironment.
  destruct (applyLightAndVentilation s greenhouse envData) as [s1 g1]. cbn.
  now rewrite limitHumidity_temperature.
Qed.

Lemma ventilate_marker :
  ventilationStartTime (fst (ventilate s greenhouse envData))
    !! GreenhouseData.id greenhouse
  = Some (ventilationStart s greenhouse).
Proof.
  unfold ventilate, ventilationStart. cbn.
  destruct (ventilationStartTime s !! GreenhouseData.id greenhouse) eqn:E.
  - exact E.
  - apply lookup_insert_eq.
Qed.
End Environment.

(** On numbers: after the environment update of a greenhouse, whatever the
    prior simulator state, greenhouse record and climate record, the temperature
    lies in [0, 70] and the humidity in [0, 100] and at most 85; the
    humidity is the [0, 100] clamp of the value already capped at 85, and the
    temperature the [0, 70] clamp of the value the branch produced. *)
Theorem updateGreenhouseEnvironment_ranges
    (s : SensorSimulator.t) (greenhouse : GreenhouseData.t)
    (envData : EnvironmentData.t) :
  let g1 := snd (SensorSimulator.applyLightAndVentilation s greenhouse envData) in
  let g' := snd (SensorSimulator.updateGreenhouseEnvironment s greenhouse envData) in
  (0 <= GreenhouseData.temperature g' <= 70)%Q
  /\ (0 <= GreenhouseData.humidity g' <= 100)%Q
  /\ (GreenhouseData.humidity g' <= 85)%Q
  /\ GreenhouseData.humidity g'
     = Math_max 0 (Math_min 100 (GreenhouseData.humidity (SensorSimulator.limitHumidity g1)))
  /\ GreenhouseData.temperature g'
     = Math_max 0 (Math_min 70 (GreenhouseData.temperature g1)).
Proof.
  intros g1 g'.
  destruct (updateGreenhouseEnvironment_clamps s greenhouse envData) as (_ & Ht & Hh).
  fold g1 in Ht, Hh. fold g' in Ht, Hh.
  pose proof (limitHumidity_le g1) as Hcap.
  rewrite Ht, Hh.
  set (h := GreenhouseData.humidity (SensorSimulator.limitHumidity g1)) in *.
  set (t := GreenhouseData.temperature g1).
  destruct (Math_min_spec 70 t) as [[? ->]|[? ->]];
    destruct (Math_min_spec 100 h) as [[? E]|[? E]]; rewrite E;
    repeat match goal with
           | |- context [Math_max ?a ?b] =>
               destruct (Math_max_spec a b) as [[? ->]|[? ->]]
           end;
    repeat split; try reflexivity; lra.
Qed.

(** C2, as stated, fails: fifteen minutes into ventilation (elapsed < 30) the
    tick already lowers the humidity, from 80 to 79.5. *)
Lemma ventilation_humidity_before_30_counterexample :
  GreenhouseData.fan humidFannedHouse = true
  /\ (SensorSimulator.minuteOfTheDay minute15
      - SensorSimulator.ventilationStart minute15 humidFannedHouse = 15)%Z
  /\ (GreenhouseData.humidity
        (snd (SensorSimulator.updateGreenhouseEnvironment minute15 humidFannedHouse mildDay))
      == 79.5)%Q
  /\ ~ (GreenhouseData.humidity
          (snd (SensorSimulator.updateGreenhouseEnvironment minute15 humidFannedHouse mildDay))
        == GreenhouseData.humidity humidFannedHouse)%Q.
Proof.
  repeat split; try reflexivity.
  vm_compute. discriminate.
Qed.

(** C2, amended.  With the fan on and [elapsed] the minute of the day minus
    the recorded ventilation start (the current minute when none was
    recorded, which the tick then records): the temperature is left alone
    while [elapsed < 30] and moves toward the outside average by 10% of the
    gap once [elapsed >= 30]; the humidity moves toward 60 by
    [(elapsed / 30) * 0.05] of the gap on every such tick, before as well as
    after minute 30.  These are the values the final cap and clamps of the
    tick are applied to. *)
Theorem ventilation_correction
    (s : SensorSimulator.t) (greenhouse : GreenhouseData.t)
    (envData : EnvironmentData.t) :
  GreenhouseData.fan greenhouse = true ->
  let elapsed :=
    (SensorSimulator.minuteOfTheDay s - SensorSimulator.ventilationStart s greenhouse)%Z in
  let T := GreenhouseData.temperature greenhouse in
  let H := GreenhouseData.humidity greenhouse in
  let s1 := fst (SensorSimulator.applyLightAndVentilation s greenhouse envData) in
  let g1 := snd (SensorSimulator.applyLightAndVentilation s greenhouse envData) in
  let g' := snd (SensorSimulator.updateGreenhouseEnvironment s greenhouse envData) in
  SensorSimulator.ventilationStartTime s1 !! GreenhouseData.id greenhouse
  = Some (SensorSimulator.ventilationStart s greenhouse)
  /\ ((elapsed < 30)%Z -> GreenhouseData.temperature g1 = T)
  /\ ((30 <= elapsed)%Z ->
      (GreenhouseData.temperature g1 == T + 0.1 * (EnvironmentData.tavg envData - T))%Q)
  /\ (GreenhouseData.humidity g1 == H + (inject_Z elapsed / 30 * 0.05) * (60 - H))%Q
  /\ GreenhouseData.temperature g'
     = Math_max 0 (Math_min 70 (GreenhouseData.temperature g1))
  /\ GreenhouseData.humidity g'
     = Math_max 0 (Math_min 100 (GreenhouseData.humidity (SensorSimulator.limitHumidity g1))).
Proof.
  intros Hfan elapsed T H s1 g1 g'.
  destruct (updateGreenhouseEnvironment_clamps s greenhouse envData) as (_ & Ht & Hh).
  assert (E : SensorSimulator.applyLightAndVentilation s greenhouse envData
              = SensorSimulator.ventilate s
                  (GreenhouseData.set_lightIntensity
                     (Math_round (1000 * (1 - GreenhouseData.shading greenhouse / 100)))
                     greenhouse) envData).
  { unfold SensorSimulator.applyLightAndVentilation. cbn. now rewrite Hfan. }
  split.
  { unfold s1. rewrite E.
    exact (ventilate_marker s
             (GreenhouseData.set_lightIntensity
                (Math_round (1000 * (1 - GreenhouseData.shading greenhouse / 100)))
                greenhouse) envData). }
  assert (Hstart : forall v,
             SensorSimulator.ventilationStart s (GreenhouseData.set_lightIntensity v greenhouse)
             = SensorSimulator.ventilationStart s greenhouse) by reflexivity.
  split; [|split; [|split; [|split; [exact Ht | exact Hh]]]].
  - intros Hlt. unfold g1. rewrite E. unfold SensorSimulator.ventilate.
    rewrite Hstart. fold elapsed.
    destruct (Z.leb_spec SensorSimulator.VENTILATION_EXCHANGE_TIME elapsed) as [Hge|_].
    + unfold SensorSimulator.VENTILATION_EXCHANGE_TIME in Hge. lia.
    + reflexivity.
  - intros Hge. unfold g1. rewrite E. unfold SensorSimulator.ventilate.
    rewrite Hstart. fold elapsed.
    destruct (Z.leb_spec SensorSimulator.VENTILATION_EXCHANGE_TIME elapsed) as [_|Hlt].
    + cbn. fold T. lra.
    + unfold SensorSimulator.VENTILATION_EXCHANGE_TIME in Hlt. lia.
  - unfold g1. rewrite E. unfold SensorSimulator.ventilate.
    rewrite Hstart. fold elapsed.
    destruct (Z.leb_spec SensorSimulator.VENTILATION_EXCHANGE_TIME elapsed);
      cbn; fold H; unfold SensorSimulator.VENTILATION_EXCHANGE_TIME;
      change (inject_Z 30) with 30%Q; lra.
Qed.

(** Greenhouse 1 with the fan on, forty minutes after the recorded start. *)
Lemma ventilation_correction_witness :
  SensorSimulator.ventilationStartTime
    (fst (SensorSimulator.applyLightAndVentilation
            (SensorSimulator.mk [] 100 40 {[ 1%Z := 0%Z ]} ∅) humidFannedHouse mildDay))
    !! 1%Z = Some 0%Z.
Proof.
  exact (proj1 (ventilation_correction
                  (SensorSimulator.mk [] 100 40 {[ 1%Z := 0%Z ]} ∅)
                  humidFannedHouse mildDay eq_refl)).
Defined.

(** ** The table tick *)

Ltac table_simpl :=
  cbn [PlantTable.id PlantTable.position PlantTable.temperature PlantTable.plantSize
       PlantTable.plantCount PlantTable.soilMoisture PlantTable.soilFertility
       PlantTable.artLight PlantTable.water PlantTable.fertilizer PlantTable.plantedDate
       PlantTable.set_temperature PlantTable.set_plantSize PlantTable.set_plantCount
       PlantTable.set_soilMoisture PlantTable.set_soilFertility PlantTable.set_artLight
       PlantTable.set_water PlantTable.set_fertilizer PlantTable.set_plantedDate] in *.

Ltac minmax_cases :=
  repeat match goal with
         | |- context [Math_max ?a ?b] => destruct (Math_max_spec a b) as [[? ->]|[? ->]]
         | |- context [Math_min ?a ?b] => destruct (Math_min_spec a b) as [[? ->]|[? ->]]
         end.

(** Division by a literal, rewritten as the product [lra] understands. *)
Ltac qdiv_const :=
  unfold Qdiv in *;
  repeat match goal with
         | |- context [Qinv (?n # ?d)] =>
             let v := eval vm_compute in (Qinv (n # d)) in
             change (Qinv (n # d)) with v
         | H : context [Qinv (?n # ?d)] |- _ =>
             let v := eval vm_compute in (Qinv (n # d)) in
             change (Qinv (n # d)) with v in H
         end.

Section TableTick.
#[local] Open Scope Q_scope.
Import SensorSimulator.

Variable s : SensorSimulator.t.

(** *** Water, fertiliser and growth *)

Lemma evaporationRate_nonneg (house : GreenhouseData.t) : 0 <= evaporationRate house.
Proof.
  unfold evaporationRate, EVAPORATION_RATE.
  pose proof (Math_max_lb_l 0 ((GreenhouseData.temperature house - 10) / 40)).
  pose proof (Math_max_lb_l 0 (1 - GreenhouseData.humidity house / 100)).
  apply Qmult_le_0_compat; [apply Qmult_le_0_compat|]; try assumption. lra.
Qed.

Lemma evaporationRate_le (house : GreenhouseData.t) :
  GreenhouseData.temperature house <= 60 -> 0 <= GreenhouseData.humidity house ->
  evaporationRate house <= 0.75.
Proof.
  intros Ht Hh. unfold evaporationRate, EVAPORATION_RATE.
  set (tf := Math_max 0 ((GreenhouseData.temperature house - 10) / 40)).
  set (hf := Math_max 0 (1 - GreenhouseData.humidity house / 100)).
  assert (0 <= tf <= 1.25).
  { unfold tf. minmax_cases; qdiv_const; lra. }
  assert (0 <= hf <= 1).
  { unfold hf. minmax_cases; qdiv_const; lra. }
  nra.
Qed.

Lemma manageWater_dry (table : PlantTable.t) (house : GreenhouseData.t) :
  PlantTable.water table = false ->
  manageWater table house
  = PlantTable.set_soilMoisture
      (Math_max 0 (PlantTable.soilMoisture table - evaporationRate house)) table.
Proof. intros Hw. unfold manageWater. now rewrite Hw. Qed.

Lemma manageWater_bounds (table : PlantTable.t) (house : GreenhouseData.t) :
  tableBounds table -> tableBounds (manageWater table house).
Proof.
  intros (Hc & Hs & Hm & Hf).
  destruct (PlantTable.water table) eqn:Hw.
  - unfold manageWater. rewrite Hw.
    unfold tableBounds, WATER_INCREASE_RATE, FERTILIZER_RATE.
    destruct (PlantTable.fertilizer (PlantTable.set_soilMoisture _ table));
      table_simpl; minmax_cases; repeat split; lra.
  - rewrite (manageWater_dry _ _ Hw). pose proof (evaporationRate_nonneg house).
    unfold tableBounds. table_simpl. minmax_cases; repeat split; lra.
Qed.

Lemma manageWater_frame (table : PlantTable.t) (house : GreenhouseData.t) :
  PlantTable.plantCount (manageWater table house) = PlantTable.plantCount table
  /\ PlantTable.plantSize (manageWater table house) = PlantTable.plantSize table
  /\ PlantTable.plantedDate (manageWater table house) = PlantTable.plantedDate table.
Proof.
  unfold manageWater. destruct (PlantTable.water table); [|now table_simpl].
  destruct (PlantTable.fertilizer (PlantTable.set_soilMoisture _ table)); now table_simpl.
Qed.

Lemma decayFertilizer_bounds (table : PlantTable.t) :
  tableBounds table -> tableBounds (decayFertilizer table).
Proof.
  intros (Hc & Hs & Hm & Hf). unfold decayFertilizer, tableBounds, FERTILIZER_DECAY.
  js_cases; table_simpl; minmax_cases; repeat split; lra.
Qed.

Lemma decayFertilizer_frame (table : PlantTable.t) :
  PlantTable.plantCount (decayFertilizer table) = PlantTable.plantCount table
  /\ PlantTable.plantSize (decayFertilizer table) = PlantTable.plantSize table
  /\ PlantTable.soilMoisture (decayFertilizer table) = PlantTable.soilMoisture table
  /\ PlantTable.plantedDate (decayFertilizer table) = PlantTable.plantedDate table.
Proof. unfold decayFertilizer. js_cases; now table_simpl. Qed.

Lemma grow_bounds (table : PlantTable.t) (house : GreenhouseData.t) :
  tableBounds table -> tableBounds (grow table house).
Proof.
  intros (Hc & Hs & Hm & Hf). unfold grow, tableBounds.
  js_cases; table_simpl; repeat split; lra.
Qed.

Lemma grow_frame (table : PlantTable.t) (house : GreenhouseData.t) :
  PlantTable.plantCount (grow table house) = PlantTable.plantCount table
  /\ PlantTable.plantSize table <= PlantTable.plantSize (grow table house)
  /\ PlantTable.soilMoisture (grow table house) = PlantTable.soilMoisture table
  /\ PlantTable.plantedDate (grow table house) = PlantTable.plantedDate table.
Proof. unfold grow. js_cases; table_simpl; repeat split; lra. Qed.
(** *** Drought, replant, harvest and crowding *)

Lemma deathCount_nonneg (table : PlantTable.t) :
  0 <= PlantTable.plantCount table -> 0 <= Math_ceil (PlantTable.plantCount table * 0.01).
Proof.
  intros Hc. pose proof (Math_ceil_ge (PlantTable.plantCount table * 0.01)). lra.
Qed.

Lemma drought_bounds (table : PlantTable.t) :
  tableBounds table -> tableBounds (drought table).
Proof.
  intros (Hc & Hs & Hm & Hf). unfold drought, tableBounds.
  pose proof (deathCount_nonneg table (proj1 Hc)).
  js_cases; table_simpl; minmax_cases; repeat split; lra.
Qed.

Lemma drought_moist (table : PlantTable.t) :
  10 <= PlantTable.soilMoisture table -> drought table = table.
Proof. intros Hm. unfold drought. js_cases; [lra | reflexivity]. Qed.

Lemma drought_frame (table : PlantTable.t) :
  PlantTable.plantSize (drought table) = PlantTable.plantSize table
  /\ PlantTable.soilMoisture (drought table) = PlantTable.soilMoisture table
  /\ PlantTable.plantedDate (drought table) = PlantTable.plantedDate table.
Proof. unfold drought. js_cases; now table_simpl. Qed.

Lemma drought_sparse (table : PlantTable.t) :
  0 <= PlantTable.plantCount table < 24 -> PlantTable.plantCount (drought table) < 24.
Proof.
  intros Hc. unfold drought. pose proof (deathCount_nonneg table (proj1 Hc)).
  js_cases; table_simpl; minmax_cases; lra.
Qed.

Lemma replantTable_fields (table : PlantTable.t) :
  PlantTable.plantCount (replantTable s table) = 480
  /\ PlantTable.plantSize (replantTable s table) = 2
  /\ PlantTable.plantedDate (replantTable s table) = currentDay s
  /\ PlantTable.soilMoisture (replantTable s table) = PlantTable.soilMoisture table
  /\ PlantTable.soilFertility (replantTable s table)
     = Math_min 100 (PlantTable.soilFertility table + 20).
Proof. unfold replantTable. now table_simpl. Qed.

Lemma replantTable_bounds (table : PlantTable.t) :
  (0 <= PlantTable.soilMoisture table <= 100) -> (0 <= PlantTable.soilFertility table) ->
  tableBounds (replantTable s table).
Proof.
  intros Hm Hf. unfold tableBounds.
  destruct (replantTable_fields table) as (-> & -> & _ & -> & ->).
  minmax_cases; repeat split; lra.
Qed.

Lemma replantIfSparse_keep (table : PlantTable.t) :
  24 <= PlantTable.plantCount table -> replantIfSparse s table = table.
Proof. intros Hc. unfold replantIfSparse. js_cases; [lra | reflexivity]. Qed.

Lemma replantIfSparse_sparse (table : PlantTable.t) :
  PlantTable.plantCount table < 24 -> replantIfSparse s table = replantTable s table.
Proof. intros Hc. unfold replantIfSparse. js_cases; [reflexivity | lra]. Qed.

Lemma replantIfSparse_bounds (table : PlantTable.t) :
  tableBounds table -> tableBounds (replantIfSparse s table).
Proof.
  intros Hb. unfold replantIfSparse. js_cases; [|assumption].
  destruct Hb as (Hc & Hs & Hm & Hf). apply replantTable_bounds; lra.
Qed.

Lemma replantIfSparse_alive (table : PlantTable.t) :
  0 < PlantTable.plantSize table ->
  24 <= PlantTable.plantCount (replantIfSparse s table)
  /\ 0 < PlantTable.plantSize (replantIfSparse s table).
Proof.
  intros Hs. unfold replantIfSparse. js_cases; [|split; assumption].
  destruct (replantTable_fields table) as (-> & -> & _). split; lra.
Qed.

Lemma harvestCount_range (table : PlantTable.t) :
  0 <= PlantTable.plantCount table ->
  0 <= harvestCount table <= PlantTable.plantCount table.
Proof.
  intros Hc. unfold harvestCount.
  pose proof (Math_floor_le (PlantTable.plantCount table * 0.95)).
  pose proof (Math_floor_mono 0 (PlantTable.plantCount table * 0.95)) as H0.
  change (Math_floor 0) with 0 in H0. split; [apply H0|]; lra.
Qed.

Lemma harvestPlants_bounds (table : PlantTable.t) :
  tableBounds table -> tableBounds (harvestPlants s table).
Proof.
  intros (Hc & Hs & Hm & Hf). unfold harvestPlants.
  pose proof (harvestCount_range table (proj1 Hc)).
  js_cases; table_simpl.
  - apply replantTable_bounds; table_simpl; lra.
  - unfold tableBounds. table_simpl. repeat split; lra.
Qed.

Lemma harvestPlants_alive (table : PlantTable.t) :
  0 < PlantTable.plantSize table ->
  24 <= PlantTable.plantCount (harvestPlants s table)
  /\ 0 < PlantTable.plantSize (harvestPlants s table).
Proof.
  intros Hs. unfold harvestPlants. js_cases; table_simpl.
  - match goal with
    | |- context [replantTable s ?t] =>
        destruct (replantTable_fields t) as (-> & -> & _)
    end. split; lra.
  - split; assumption.
Qed.

Lemma harvestIfReady_small (table : PlantTable.t) :
  PlantTable.plantSize table < 30 -> harvestIfReady s table = table.
Proof. intros Hs. unfold harvestIfReady. js_cases; try reflexivity. lra. Qed.

Lemma harvestIfReady_ready (table : PlantTable.t) :
  30 <= PlantTable.plantSize table -> PlantTable.soilMoisture table <= 50 ->
  harvestIfReady s table = harvestPlants s table.
Proof. intros Hs Hm. unfold harvestIfReady. js_cases; try reflexivity; lra. Qed.

Lemma harvestIfReady_bounds (table : PlantTable.t) :
  tableBounds table -> tableBounds (harvestIfReady s table).
Proof.
  intros Hb. unfold harvestIfReady.
  js_cases; try assumption. now apply harvestPlants_bounds.
Qed.

Lemma harvestIfReady_alive (table : PlantTable.t) :
  24 <= PlantTable.plantCount table -> 0 < PlantTable.plantSize table ->
  24 <= PlantTable.plantCount (harvestIfReady s table)
  /\ 0 < PlantTable.plantSize (harvestIfReady s table).
Proof.
  intros Hc Hs. unfold harvestIfReady.
  js_cases; try (split; assumption). now apply harvestPlants_alive.
Qed.

Lemma crowd_keep (table : PlantTable.t) :
  PlantTable.plantSize table <= 15 -> PlantTable.plantCount table <= 480 ->
  crowd table = table.
Proof.
  intros Hs Hc. unfold crowd. pose proof (calculateMaxPlants_small _ Hs).
  js_case; [|reflexivity]. lra.
Qed.

Lemma crowd_fits (table : PlantTable.t) :
  PlantTable.plantCount table <= 24 -> crowd table = table.
Proof.
  intros Hc. unfold crowd.
  pose proof (calculateMaxPlants_ge_24 (PlantTable.plantSize table)).
  js_case; [|reflexivity]. lra.
Qed.

Lemma crowd_bounds (table : PlantTable.t) :
  tableBounds table -> tableBounds (crowd table).
Proof.
  intros (Hc & Hs & Hm & Hf). unfold crowd, tableBounds.
  pose proof (calculateMaxPlants_ge_24 (PlantTable.plantSize table)).
  js_case; table_simpl; repeat split; lra.
Qed.

Lemma crowd_alive (table : PlantTable.t) :
  24 <= PlantTable.plantCount table -> 24 <= PlantTable.plantCount (crowd table).
Proof.
  intros Hc. unfold crowd.
  pose proof (calculateMaxPlants_ge_24 (PlantTable.plantSize table)).
  js_case; table_simpl; lra.
Qed.
(** *** The blocks after the death checks, together *)

Lemma liveTick_bounds (table : PlantTable.t) (house : GreenhouseData.t) :
  tableBounds table -> tableBounds (liveTick s table house).
Proof.
  intros Hb. unfold liveTick. cbv zeta.
  apply crowd_bounds, harvestIfReady_bounds.
  change (tableBounds
            (replantIfSparse s
               (drought (grow (decayFertilizer (manageWater table house)) house)))).
  now apply replantIfSparse_bounds, drought_bounds, grow_bounds,
    decayFertilizer_bounds, manageWater_bounds.
Qed.

Lemma liveTick_alive (table : PlantTable.t) (house : GreenhouseData.t) :
  0 < PlantTable.plantSize table ->
  24 <= PlantTable.plantCount (liveTick s table house)
  /\ 0 < PlantTable.plantSize (liveTick s table house).
Proof.
  intros Hs. unfold liveTick. cbv zeta.
  set (t1 := manageWater table house).
  set (t2 := decayFertilizer t1).
  set (t3 := grow t2 house).
  set (t4 := drought t3).
  assert (H4 : 0 < PlantTable.plantSize t4).
  { destruct (manageWater_frame table house) as (_ & E1 & _).
    destruct (decayFertilizer_frame t1) as (_ & E2 & _).
    destruct (grow_frame t2 house) as (_ & E3 & _).
    destruct (drought_frame t3) as (E4 & _).
    fold t1 in E1. fold t2 in E2. fold t3 in E3. fold t4 in E4.
    rewrite E4. rewrite E2, E1 in E3. lra. }
  destruct (replantIfSparse_alive t4 H4) as (Hc5 & Hs5).
  set (t5 := replantIfSparse s t4) in *.
  set (t6 := PlantTable.set_temperature (GreenhouseData.temperature house) t5).
  destruct (harvestIfReady_alive t6 Hc5 Hs5) as (Hc7 & Hs7).
  split; [now apply crowd_alive | now rewrite crowd_plantSize].
Qed.

(** What follows the replant leaves the seedlings alone. *)
Lemma seedlings_untouched (table : PlantTable.t) (v : Q) :
  PlantTable.plantCount table = 480 -> PlantTable.plantSize table = 2 ->
  crowd (harvestIfReady s (PlantTable.set_temperature v table))
  = PlantTable.set_temperature v table.
Proof.
  intros Ec Es.
  rewrite harvestIfReady_small by (table_simpl; rewrite Es; lra).
  apply crowd_keep; table_simpl; [rewrite Es | rewrite Ec]; lra.
Qed.

Lemma before_drought_count (table : PlantTable.t) (house : GreenhouseData.t) :
  PlantTable.plantCount (grow (decayFertilizer (manageWater table house)) house)
  = PlantTable.plantCount table.
Proof.
  destruct (manageWater_frame table house) as (E1 & _).
  destruct (decayFertilizer_frame (manageWater table house)) as (E2 & _).
  destruct (grow_frame (decayFertilizer (manageWater table house)) house) as (E3 & _).
  now rewrite E3, E2, E1.
Qed.

(** A sparse table is replanted, and the rest of the tick leaves the
    seedlings alone. *)
Lemma liveTick_replants (table : PlantTable.t) (house : GreenhouseData.t) :
  0 <= PlantTable.plantCount table < 24 ->
  PlantTable.plantCount (liveTick s table house) = 480
  /\ PlantTable.plantSize (liveTick s table house) = 2
  /\ PlantTable.plantedDate (liveTick s table house) = currentDay s.
Proof.
  intros Hc. unfold liveTick. cbv zeta.
  rewrite replantIfSparse_sparse
    by (apply drought_sparse; now rewrite before_drought_count).
  destruct (replantTable_fields
              (drought (grow (decayFertilizer (manageWater table house)) house)))
    as (Ec & Es & Ed & _).
  rewrite (seedlings_untouched _ _ Ec Es).
  revert Ec Es Ed.
  generalize (replantTable s
                (drought (grow (decayFertilizer (manageWater table house)) house))).
  intros seedlings Ec Es Ed. table_simpl. auto.
Qed.
End TableTick.

(** *** The death checks in front of them *)

Section DeathChecks.
#[local] Open Scope Q_scope.
Import SensorSimulator.

Variables (s : SensorSimulator.t) (table : PlantTable.t) (house : GreenhouseData.t).

Lemma checkOverFertilization_day (key : string) :
  currentDay (fst (checkOverFertilization s key table)) = currentDay s.
Proof.
  unfold checkOverFertilization.
  destruct (Qlt_bool 100 (PlantTable.soilFertility table)); [|reflexivity].
  destruct (OVER_FERTILIZER_DEATH <=? overFertilizedMinutes s key + 1)%Z; reflexivity.
Qed.

(** The three outcomes of the over-fertilisation check. *)
Lemma checkOverFertilization_reset (key : string) :
  PlantTable.soilFertility table <= 100 ->
  snd (checkOverFertilization s key table) = false
  /\ overFertilizerTime (fst (checkOverFertilization s key table)) !! key = None.
Proof.
  intros Hf. unfold checkOverFertilization.
  destruct (Qlt_bool_spec 100 (PlantTable.soilFertility table)); [lra|].
  split; [reflexivity|]. cbn. apply lookup_delete_eq.
Qed.

Lemma checkOverFertilization_count (key : string) :
  100 < PlantTable.soilFertility table ->
  (overFertilizedMinutes s key + 1 < OVER_FERTILIZER_DEATH)%Z ->
  snd (checkOverFertilization s key table) = false
  /\ overFertilizerTime (fst (checkOverFertilization s key table)) !! key
     = Some (overFertilizedMinutes s key + 1)%Z.
Proof.
  intros Hf Hn. unfold checkOverFertilization.
  destruct (Qlt_bool_spec 100 (PlantTable.soilFertility table)); [|lra].
  destruct (Z.leb_spec OVER_FERTILIZER_DEATH (overFertilizedMinutes s key + 1)); [lia|].
  split; [reflexivity|]. cbn. apply lookup_insert_eq.
Qed.

Lemma checkOverFertilization_kill (key : string) :
  100 < PlantTable.soilFertility table ->
  (OVER_FERTILIZER_DEATH <= overFertilizedMinutes s key + 1)%Z ->
  snd (checkOverFertilization s key table) = true
  /\ overFertilizerTime (fst (checkOverFertilization s key table)) !! key = None.
Proof.
  intros Hf Hn. unfold checkOverFertilization.
  destruct (Qlt_bool_spec 100 (PlantTable.soilFertility table)); [|lra].
  destruct (Z.leb_spec OVER_FERTILIZER_DEATH (overFertilizedMinutes s key + 1)); [|lia].
  split; [reflexivity|]. cbn. apply lookup_delete_eq.
Qed.

Lemma checkOverFertilization_spared :
  ~ overFertilizationKills s house table ->
  snd (checkOverFertilization s (tableKey house table) table) = false.
Proof.
  intros Hno.
  destruct (Qlt_le_dec 100 (PlantTable.soilFertility table)) as [Hf|Hf].
  - destruct (Z_lt_le_dec (overFertilizedMinutes s (tableKey house table) + 1)
                OVER_FERTILIZER_DEATH) as [Hn|Hn].
    + now apply checkOverFertilization_count.
    + exfalso. apply Hno. split; assumption.
  - now apply checkOverFertilization_reset.
Qed.

Lemma replantTable_day (s' : SensorSimulator.t) (x : PlantTable.t) :
  currentDay s' = currentDay s -> replantTable s' x = replantTable s x.
Proof. intros E. unfold replantTable. now rewrite E. Qed.

Lemma liveTick_day (s' : SensorSimulator.t) :
  currentDay s' = currentDay s -> liveTick s' table house = liveTick s table house.
Proof.
  intros E. unfold liveTick, replantIfSparse, harvestIfReady, harvestPlants.
  cbv zeta.
  generalize (drought (grow (decayFertilizer (manageWater table house)) house)).
  intros x. rewrite (replantTable_day s' x E).
  destruct (Qlt_bool (PlantTable.plantCount x) 24);
    match goal with
    | |- context [replantTable s' ?y] => rewrite (replantTable_day s' y E)
    end; reflexivity.
Qed.

(** The four ways through [updateTableData]. *)
Lemma updateTableData_dead :
  ~ liveTable table -> updateTableData s table house = (s, table).
Proof.
  intros Hdead. unfold updateTableData.
  destruct (Qle_bool_spec (PlantTable.plantCount table) 0); [reflexivity|].
  destruct (Qle_bool_spec (PlantTable.plantSize table) 0); [reflexivity|].
  exfalso. apply Hdead. split; assumption.
Qed.

Lemma updateTableData_heat :
  liveTable table -> DEATH_TEMP < GreenhouseData.temperature house ->
  updateTableData s table house = (s, killPlants table).
Proof.
  intros [Hc Hs] Ht. unfold updateTableData.
  destruct (Qle_bool_spec (PlantTable.plantCount table) 0); [lra|].
  destruct (Qle_bool_spec (PlantTable.plantSize table) 0); [lra|].
  cbn [orb].
  destruct (Qlt_bool_spec DEATH_TEMP (GreenhouseData.temperature house)); [reflexivity|lra].
Qed.

Lemma updateTableData_checked :
  liveTable table -> GreenhouseData.temperature house <= DEATH_TEMP ->
  updateTableData s table house
  = (fst (checkOverFertilization s (tableKey house table) table),
     if snd (checkOverFertilization s (tableKey house table) table)
     then killPlants table
     else liveTick s table house).
Proof.
  intros [Hc Hs] Ht. unfold updateTableData.
  destruct (Qle_bool_spec (PlantTable.plantCount table) 0); [lra|].
  destruct (Qle_bool_spec (PlantTable.plantSize table) 0); [lra|].
  cbn [orb].
  destruct (Qlt_bool_spec DEATH_TEMP (GreenhouseData.temperature house)); [lra|].
  pose proof (checkOverFertilization_day (tableKey house table)) as Hday.
  destruct (checkOverFertilization s (tableKey house table) table) as [s1 died].
  cbn [fst snd] in *. destruct died; [reflexivity|].
  now rewrite (liveTick_day s1 Hday).
Qed.

Lemma updateTableData_live :
  liveTable table -> GreenhouseData.temperature house <= DEATH_TEMP ->
  ~ overFertilizationKills s house table ->
  snd (updateTableData s table house) = liveTick s table house.
Proof.
  intros Hl Ht Hno. rewrite (updateTableData_checked Hl Ht). cbn [snd].
  now rewrite (checkOverFertilization_spared Hno).
Qed.
End DeathChecks.

Lemma killPlants_bounds (table : PlantTable.t) :
  tableBounds table -> tableBounds (SensorSimulator.killPlants table).
Proof.
  intros (Hc & Hs & Hm & Hf). unfold SensorSimulator.killPlants, tableBounds.
  table_simpl. repeat split; lra.
Qed.

(** On numbers: a table record with [0 <= plantCount <= 480],
    [plantSize >= 0], [0 <= soilMoisture <= 100] and
    [0 <= soilFertility <= 150] satisfies the same four bounds after one
    table tick, for every simulator state and every greenhouse record. *)
Theorem updateTableData_bounds
    (s : SensorSimulator.t) (table : PlantTable.t) (house : GreenhouseData.t) :
  tableBounds table ->
  tableBounds (snd (SensorSimulator.updateTableData s table house)).
Proof.
  intros Hb.
  destruct (Qlt_le_dec 0 (PlantTable.plantCount table)) as [Hc|Hc];
    [destruct (Qlt_le_dec 0 (PlantTable.plantSize table)) as [Hs|Hs]|].
  - destruct (Qlt_le_dec SensorSimulator.DEATH_TEMP (GreenhouseData.temperature house))
      as [Ht|Ht].
    + rewrite updateTableData_heat by (try split; assumption).
      now apply killPlants_bounds.
    + rewrite updateTableData_checked by (try split; assumption). cbn [snd].
      destruct (snd (SensorSimulator.checkOverFertilization _ _ _)).
      * now apply killPlants_bounds.
      * now apply liveTick_bounds.
  - rewrite updateTableData_dead; [assumption|]. intros [_ H]. lra.
  - rewrite updateTableData_dead; [assumption|]. intros [H _]. lra.
Qed.

(** C3, as stated, fails: a table without plants is below 24 and the tick
    leaves it without plants. *)
Lemma replant_any_sparse_counterexample :
  (PlantTable.plantCount emptyTable < 24)%Q
  /\ snd (SensorSimulator.updateTableData SensorSimulator.new emptyTable house1) = emptyTable
  /\ ~ (PlantTable.plantCount
          (snd (SensorSimulator.updateTableData SensorSimulator.new emptyTable house1))
        == 480)%Q.
Proof.
  split; [reflexivity|]. split; [reflexivity|]. vm_compute. discriminate.
Qed.

(** C3, amended.  A live table (plants present, of positive size) with fewer
    than 24 plants, in a tick in which neither the heat rule nor the
    over-fertilisation rule fires, ends the tick with 480 plants of size 2
    planted on the current simulated day. *)
Theorem sparse_live_table_replanted
    (s : SensorSimulator.t) (table : PlantTable.t) (house : GreenhouseData.t) :
  liveTable table ->
  (PlantTable.plantCount table < 24)%Q ->
  (GreenhouseData.temperature house <= SensorSimulator.DEATH_TEMP)%Q ->
  ~ overFertilizationKills s house table ->
  PlantTable.plantCount (snd (SensorSimulator.updateTableData s table house)) = 480%Q
  /\ PlantTable.plantSize (snd (SensorSimulator.updateTableData s table house)) = 2%Q
  /\ PlantTable.plantedDate (snd (SensorSimulator.updateTableData s table house))
     = SensorSimulator.currentDay s.
Proof.
  intros Hl Hc Ht Hno. rewrite (updateTableData_live s table house Hl Ht Hno).
  apply liveTick_replants. destruct Hl as [Hpos _]. split; lra.
Qed.

(** Ten plants left on table 1: the tick replants. *)
Lemma sparse_live_table_replanted_witness :
  PlantTable.plantCount
    (snd (SensorSimulator.updateTableData SensorSimulator.new sparseTable house1)) = 480%Q.
Proof.
  apply (sparse_live_table_replanted SensorSimulator.new sparseTable house1).
  - split; reflexivity.
  - reflexivity.
  - vm_compute. discriminate.
  - intros [H _]. vm_compute in H. discriminate.
Defined.

(** *** Harvest of a full table *)

Section Harvest.
#[local] Open Scope Q_scope.
Import SensorSimulator.

Variable s : SensorSimulator.t.

(** The blocks in front of the harvest, on a full table that is not watered
    in a house within its ranges: no plant is lost, the plants do not shrink
    and the soil does not get wetter nor dry out below the drought line. *)
Lemma before_harvest (table : PlantTable.t) (house : GreenhouseData.t) :
  PlantTable.water table = false ->
  24 <= PlantTable.plantCount table ->
  10.75 <= PlantTable.soilMoisture table ->
  GreenhouseData.temperature house <= 60 ->
  0 <= GreenhouseData.humidity house ->
  let x := replantIfSparse s
             (drought (grow (decayFertilizer (manageWater table house)) house)) in
  PlantTable.plantCount x = PlantTable.plantCount table
  /\ PlantTable.plantSize table <= PlantTable.plantSize x
  /\ PlantTable.soilMoisture x <= PlantTable.soilMoisture table
  /\ PlantTable.plantedDate x = PlantTable.plantedDate table.
Proof.
  intros Hw Hc Hm Ht Hh x. unfold x. clear x.
  pose proof (evaporationRate_nonneg house) as He0.
  pose proof (evaporationRate_le house Ht Hh) as He1.
  destruct (manageWater_frame table house) as (Ec1 & Es1 & Ed1).
  assert (Hm1 : 10 <= PlantTable.soilMoisture (manageWater table house)
                <= PlantTable.soilMoisture table).
  { rewrite (manageWater_dry table house Hw). table_simpl. minmax_cases; lra. }
  revert Ec1 Es1 Ed1 Hm1. generalize (manageWater table house). intros t1 Ec1 Es1 Ed1 Hm1.
  destruct (decayFertilizer_frame t1) as (Ec2 & Es2 & Em2 & Ed2).
  revert Ec2 Es2 Em2 Ed2. generalize (decayFertilizer t1). intros t2 Ec2 Es2 Em2 Ed2.
  destruct (grow_frame t2 house) as (Ec3 & Es3 & Em3 & Ed3).
  revert Ec3 Es3 Em3 Ed3. generalize (grow t2 house). intros t3 Ec3 Es3 Em3 Ed3.
  rewrite (drought_moist t3) by (rewrite Em3, Em2; lra).
  rewrite (replantIfSparse_keep s t3) by (rewrite Ec3, Ec2, Ec1; lra).
  rewrite Ec3, Ec2, Ec1, Em3, Em2, Ed3, Ed2, Ed1.
  rewrite Es2, Es1 in Es3.
  repeat split; try reflexivity; lra.
Qed.

(** Harvest and crowding on a full, ripe table: 24 plants stay, which is
    not below 24, so the plants are not replaced. *)
Lemma harvest_full_table (x : PlantTable.t) (v : Q) :
  PlantTable.plantCount x = 480 ->
  30 <= PlantTable.plantSize x ->
  PlantTable.soilMoisture x <= 50 ->
  let r := crowd (harvestIfReady s (PlantTable.set_temperature v x)) in
  PlantTable.plantCount r = 480 - Math_floor (480 * 0.95)
  /\ PlantTable.plantSize r = PlantTable.plantSize x
  /\ PlantTable.plantedDate r = PlantTable.plantedDate x.
Proof.
  intros Hc Hs Hm r. unfold r. clear r.
  rewrite harvestIfReady_ready by (table_simpl; assumption).
  assert (E : harvestPlants s (PlantTable.set_temperature v x)
              = PlantTable.set_plantCount (480 - Math_floor (480 * 0.95))
                  (PlantTable.set_temperature v x)).
  { unfold harvestPlants, harvestCount. table_simpl. rewrite Hc.
    destruct (Qlt_bool_spec (480 - Math_floor (480 * 0.95)) 24) as [Habs|_];
      [|reflexivity].
    exfalso. vm_compute in Habs. discriminate. }
  rewrite E. rewrite crowd_fits by (table_simpl; vm_compute; discriminate).
  now table_simpl.
Qed.
End Harvest.

(** C1, as stated, fails.  On table 1 of the start configuration, grown to
    31 cm with a soil moisture of 40 and all 480 plants, one tick harvests
    456 plants; the 24 that remain are not fewer than 24, so no replant
    follows: the tick ends with 24 plants that are still over 31 cm. *)
Lemma harvest_then_replant_counterexample :
  SensorSimulator.harvestCount ripeTable = 456%Q
  /\ PlantTable.plantCount
       (snd (SensorSimulator.updateTableData SensorSimulator.new ripeTable house1)) = 24%Q
  /\ ~ (PlantTable.plantCount
          (snd (SensorSimulator.updateTableData SensorSimulator.new ripeTable house1))
        == 480)%Q
  /\ ~ (PlantTable.plantSize
          (snd (SensorSimulator.updateTableData SensorSimulator.new ripeTable house1))
        == 2)%Q.
Proof.
  split; [vm_compute; reflexivity|]. split; [vm_compute; reflexivity|].
  split; vm_compute; discriminate.
Qed.

(** C1, amended.  For a table with plant size 31, soil moisture 40 and 480
    plants whose water actuator is off, in a house of at most 60 degrees and
    non-negative humidity and in a tick in which the over-fertilisation rule
    does not fire, one tick harvests [floor (480 * 0.95) = 456] plants and
    leaves 24; 24 is not below the replant threshold, so no replant fires in
    this tick: it ends with 24 plants, of size at least 31, and the planted
    day unchanged. *)
Theorem harvest_leaves_24_without_replant
    (s : SensorSimulator.t) (table : PlantTable.t) (house : GreenhouseData.t) :
  PlantTable.plantSize table = 31%Q ->
  PlantTable.soilMoisture table = 40%Q ->
  PlantTable.plantCount table = 480%Q ->
  PlantTable.water table = false ->
  (GreenhouseData.temperature house <= SensorSimulator.DEATH_TEMP)%Q ->
  (0 <= GreenhouseData.humidity house)%Q ->
  ~ overFertilizationKills s house table ->
  SensorSimulator.harvestCount table = 456%Q
  /\ PlantTable.plantCount (snd (SensorSimulator.updateTableData s table house))
     = (PlantTable.plantCount table - SensorSimulator.harvestCount table)%Q
  /\ (PlantTable.plantCount (snd (SensorSimulator.updateTableData s table house)) == 24)%Q
  /\ (31 <= PlantTable.plantSize (snd (SensorSimulator.updateTableData s table house)))%Q
  /\ PlantTable.plantedDate (snd (SensorSimulator.updateTableData s table house))
     = PlantTable.plantedDate table.
Proof.
  intros Hs Hm Hc Hw Ht Hh Hno.
  assert (Hl : liveTable table).
  { split; [rewrite Hc | rewrite Hs]; reflexivity. }
  assert (Hh456 : SensorSimulator.harvestCount table = 456%Q).
  { unfold SensorSimulator.harvestCount. rewrite Hc. reflexivity. }
  rewrite (updateTableData_live s table house Hl Ht Hno).
  unfold SensorSimulator.liveTick. cbv zeta.
  assert (Hc24 : (24 <= PlantTable.plantCount table)%Q)
    by (rewrite Hc; vm_compute; discriminate).
  assert (Hm10 : (10.75 <= PlantTable.soilMoisture table)%Q)
    by (rewrite Hm; vm_compute; discriminate).
  destruct (before_harvest s table house Hw Hc24 Hm10 Ht Hh) as (Ec & Es' & Em & Ed).
  revert Ec Es' Em Ed.
  generalize (SensorSimulator.replantIfSparse s
                (SensorSimulator.drought
                   (SensorSimulator.grow
                      (SensorSimulator.decayFertilizer
                         (SensorSimulator.manageWater table house)) house))).
  intros x Ec Es' Em Ed.
  destruct (harvest_full_table s x (GreenhouseData.temperature house)) as (Rc & Rs & Rd).
  { now rewrite Ec. }
  { rewrite Hs in Es'. lra. }
  { rewrite Hm in Em. lra. }
  rewrite Rc, Rs, Rd, Hh456, Hc.
  split; [reflexivity|]. split; [reflexivity|]. split; [reflexivity|].
  split; [now rewrite <- Hs | assumption].
Qed.

(** The ripe table of the start configuration. *)
Lemma harvest_leaves_24_without_replant_witness :
  (PlantTable.plantCount
     (snd (SensorSimulator.updateTableData SensorSimulator.new ripeTable house1)) == 24)%Q.
Proof.
  apply (harvest_leaves_24_without_replant SensorSimulator.new ripeTable house1);
    try reflexivity.
  - vm_compute. discriminate.
  - vm_compute. discriminate.
  - intros [H _]. vm_compute in H. discriminate.
Defined.

(** ** Over-fertilisation over consecutive ticks *)

Section OverFertilization.
#[local] Open Scope Q_scope.
Import SensorSimulator.

Variable key : string.

Lemma runTable_cons (s : SensorSimulator.t) (tick : PlantTable.t * GreenhouseData.t)
    (rest : list (PlantTable.t * GreenhouseData.t)) :
  runTable s (tick :: rest)
  = (fst (runTable (fst (updateTableData s (fst tick) (snd tick))) rest),
     snd (updateTableData s (fst tick) (snd tick))
     :: snd (runTable (fst (updateTableData s (fst tick) (snd tick))) rest)).
Proof.
  destruct tick as [table house]. cbn [runTable fst snd].
  destruct (updateTableData s table house) as [s1 out]. cbn [fst snd].
  now destruct (runTable s1 rest).
Qed.

Lemma runTable_app (a b : list (PlantTable.t * GreenhouseData.t)) :
  forall s : SensorSimulator.t,
    runTable s (a ++ b)
    = (fst (runTable (fst (runTable s a)) b),
       snd (runTable s a) ++ snd (runTable (fst (runTable s a)) b)).
Proof.
  induction a as [|tick a IH]; intros s.
  - cbn [app runTable fst snd]. now destruct (runTable s b).
  - rewrite <- app_comm_cons, !runTable_cons, IH. reflexivity.
Qed.

Lemma runTable_length (ticks : list (PlantTable.t * GreenhouseData.t)) :
  forall s : SensorSimulator.t, length (snd (runTable s ticks)) = length ticks.
Proof.
  induction ticks as [|tick ticks IH]; intros s; [reflexivity|].
  rewrite runTable_cons. cbn [snd length]. now rewrite IH.
Qed.

(** One tick that reaches the check: it counts, kills or resets. *)
Lemma tick_counts (s : SensorSimulator.t) (tick : PlantTable.t * GreenhouseData.t) :
  reachesFertilityCheck key tick -> overFertilized tick ->
  (overFertilizedMinutes s key + 1 < OVER_FERTILIZER_DEATH)%Z ->
  overFertilizerTime (fst (updateTableData s (fst tick) (snd tick))) !! key
  = Some (overFertilizedMinutes s key + 1)%Z
  /\ liveTable (snd (updateTableData s (fst tick) (snd tick))).
Proof.
  intros (Hkey & Hl & Ht) Hf Hn.
  rewrite (updateTableData_checked s _ _ Hl Ht). rewrite Hkey. cbn [fst snd].
  destruct (checkOverFertilization_count s (fst tick) key Hf Hn) as [-> ->].
  split; [reflexivity|].
  destruct (liveTick_alive s (fst tick) (snd tick) (proj2 Hl)). split; lra.
Qed.

Lemma tick_kills (s : SensorSimulator.t) (tick : PlantTable.t * GreenhouseData.t) :
  reachesFertilityCheck key tick -> overFertilized tick ->
  (OVER_FERTILIZER_DEATH <= overFertilizedMinutes s key + 1)%Z ->
  overFertilizerTime (fst (updateTableData s (fst tick) (snd tick))) !! key = None
  /\ snd (updateTableData s (fst tick) (snd tick)) = killPlants (fst tick).
Proof.
  intros (Hkey & Hl & Ht) Hf Hn.
  rewrite (updateTableData_checked s _ _ Hl Ht). rewrite Hkey. cbn [fst snd].
  destruct (checkOverFertilization_kill s (fst tick) key Hf Hn) as [-> ->].
  split; reflexivity.
Qed.

Lemma tick_resets (s : SensorSimulator.t) (tick : PlantTable.t * GreenhouseData.t) :
  reachesFertilityCheck key tick -> PlantTable.soilFertility (fst tick) <= 100 ->
  overFertilizerTime (fst (updateTableData s (fst tick) (snd tick))) !! key = None
  /\ liveTable (snd (updateTableData s (fst tick) (snd tick))).
Proof.
  intros (Hkey & Hl & Ht) Hf.
  rewrite (updateTableData_checked s _ _ Hl Ht). rewrite Hkey. cbn [fst snd].
  destruct (checkOverFertilization_reset s (fst tick) key Hf) as [-> ->].
  split; [reflexivity|].
  destruct (liveTick_alive s (fst tick) (snd tick) (proj2 Hl)). split; lra.
Qed.

Lemma minutes_of_lookup (s : SensorSimulator.t) (n : Z) :
  overFertilizerTime s !! key = Some n -> overFertilizedMinutes s key = n.
Proof. intros E. unfold overFertilizedMinutes. now rewrite E. Qed.

Lemma minutes_of_none (s : SensorSimulator.t) :
  overFertilizerTime s !! key = None -> overFertilizedMinutes s key = 0%Z.
Proof. intros E. unfold overFertilizedMinutes. now rewrite E. Qed.

(** While the fertility stays above 100 and the tenth minute is not reached,
    every tick adds one to the counter and no tick kills. *)
Lemma run_counts (ticks : list (PlantTable.t * GreenhouseData.t)) :
  forall s : SensorSimulator.t,
    Forall (reachesFertilityCheck key) ticks -> Forall overFertilized ticks ->
    (overFertilizedMinutes s key + Z.of_nat (length ticks) < OVER_FERTILIZER_DEATH)%Z ->
    overFertilizedMinutes (fst (runTable s ticks)) key
    = (overFertilizedMinutes s key + Z.of_nat (length ticks))%Z
    /\ (ticks <> [] ->
        overFertilizerTime (fst (runTable s ticks)) !! key
        = Some (overFertilizedMinutes s key + Z.of_nat (length ticks))%Z)
    /\ Forall liveTable (snd (runTable s ticks)).
Proof.
  induction ticks as [|tick ticks IH]; intros s Hr Hf Hn.
  - cbn [runTable fst snd length]. split; [lia|]. split; [congruence|constructor].
  - apply Forall_cons in Hr as [Hr1 Hr]. apply Forall_cons in Hf as [Hf1 Hf].
    cbn [length] in Hn. rewrite runTable_cons. cbn [fst snd length].
    destruct (tick_counts s tick Hr1 Hf1) as [Hcnt Hlive]; [lia|].
    pose proof (minutes_of_lookup _ _ Hcnt) as Hmin.
    destruct (IH (fst (updateTableData s (fst tick) (snd tick))) Hr Hf) as (E & Elook & Hall);
      [rewrite Hmin; lia|].
    rewrite Hmin in E, Elook.
    split; [rewrite E; lia|]. split; [|now constructor].
    intros _. destruct ticks as [|tick' ticks'].
    + cbn [runTable fst length]. rewrite Hcnt. f_equal; lia.
    + rewrite Elook by discriminate. f_equal; lia.
Qed.

(** Whatever the fertility does, no tick kills before the counter can reach
    ten. *)
Lemma run_spared (ticks : list (PlantTable.t * GreenhouseData.t)) :
  forall s : SensorSimulator.t,
    Forall (reachesFertilityCheck key) ticks ->
    (0 <= overFertilizedMinutes s key)%Z ->
    (overFertilizedMinutes s key + Z.of_nat (length ticks) < OVER_FERTILIZER_DEATH)%Z ->
    (0 <= overFertilizedMinutes (fst (runTable s ticks)) key
     <= overFertilizedMinutes s key + Z.of_nat (length ticks))%Z
    /\ Forall liveTable (snd (runTable s ticks)).
Proof.
  induction ticks as [|tick ticks IH]; intros s Hr H0 Hn.
  - cbn [runTable fst snd length]. split; [lia|constructor].
  - apply Forall_cons in Hr as [Hr1 Hr].
    cbn [length] in Hn. rewrite runTable_cons. cbn [fst snd length].
    destruct (Qlt_le_dec 100 (PlantTable.soilFertility (fst tick))) as [Hf|Hf].
    + destruct (tick_counts s tick Hr1 Hf) as [Hcnt Hlive]; [lia|].
      pose proof (minutes_of_lookup _ _ Hcnt) as Hmin.
      destruct (IH (fst (updateTableData s (fst tick) (snd tick))) Hr) as (E & Hall);
        [rewrite Hmin; lia | rewrite Hmin; lia|].
      rewrite Hmin in E. split; [lia | now constructor].
    + destruct (tick_resets s tick Hr1 Hf) as [Hnone Hlive].
      pose proof (minutes_of_none _ Hnone) as Hmin.
      destruct (IH (fst (updateTableData s (fst tick) (snd tick))) Hr) as (E & Hall);
        [rewrite Hmin; lia | rewrite Hmin; lia|].
      rewrite Hmin in E. split; [lia | now constructor].
Qed.
Lemma runTable_snoc (s : SensorSimulator.t)
    (before : list (PlantTable.t * GreenhouseData.t))
    (tick : PlantTable.t * GreenhouseData.t) :
  runTable s (before ++ [tick])
  = (fst (updateTableData (fst (runTable s before)) (fst tick) (snd tick)),
     snd (runTable s before)
     ++ [snd (updateTableData (fst (runTable s before)) (fst tick) (snd tick))]).
Proof. rewrite runTable_app, runTable_cons. reflexivity. Qed.

(** Ten ticks above 100 from a cleared counter. *)
Lemma run_held (s : SensorSimulator.t)
    (before : list (PlantTable.t * GreenhouseData.t))
    (last : PlantTable.t * GreenhouseData.t) :
  length before = 9%nat ->
  Forall (reachesFertilityCheck key) (before ++ [last]) ->
  Forall overFertilized (before ++ [last]) ->
  overFertilizerTime s !! key = None ->
  (forall k : nat, (1 <= k <= 9)%nat ->
     overFertilizerTime (fst (runTable s (take k before))) !! key = Some (Z.of_nat k))
  /\ Forall liveTable (snd (runTable s before))
  /\ snd (runTable s (before ++ [last]))
     = snd (runTable s before) ++ [killPlants (fst last)]
  /\ overFertilizerTime (fst (runTable s (before ++ [last]))) !! key = None.
Proof.
  intros Hlen Hr Hf Hnone.
  apply Forall_app in Hr as [Hr Hr1]. apply Forall_cons in Hr1 as [Hr1 _].
  apply Forall_app in Hf as [Hf Hf1]. apply Forall_cons in Hf1 as [Hf1 _].
  pose proof (minutes_of_none s Hnone) as Hmin.
  unfold OVER_FERTILIZER_DEATH in *.
  split; [|split].
  - intros k Hk.
    destruct (run_counts (take k before) s) as (_ & Elook & _).
    + now apply Forall_take.
    + now apply Forall_take.
    + rewrite Hmin, length_take. unfold OVER_FERTILIZER_DEATH. lia.
    + rewrite Elook.
      * rewrite Hmin, length_take. f_equal. lia.
      * intros E. apply (f_equal length) in E. rewrite length_take in E.
        cbn [length] in E. lia.
  - destruct (run_counts before s Hr Hf) as (_ & _ & Hall); [|assumption].
    rewrite Hmin, Hlen. unfold OVER_FERTILIZER_DEATH. lia.
  - destruct (run_counts before s Hr Hf) as (E9 & _ & _).
    { rewrite Hmin, Hlen. unfold OVER_FERTILIZER_DEATH. lia. }
    rewrite Hmin, Hlen in E9.
    destruct (tick_kills (fst (runTable s before)) last Hr1 Hf1) as [Hcleared Hkilled].
    { rewrite E9. unfold OVER_FERTILIZER_DEATH. lia. }
    rewrite runTable_snoc. cbn [fst snd]. rewrite Hkilled. split; [reflexivity|assumption].
Qed.

(** Ten ticks from a cleared counter, one of the first nine starting from a
    fertility of at most 100. *)
Lemma run_with_drop (s : SensorSimulator.t)
    (before after : list (PlantTable.t * GreenhouseData.t))
    (tick : PlantTable.t * GreenhouseData.t) :
  (length before + 1 + length after = 10)%nat ->
  Forall (reachesFertilityCheck key) (before ++ tick :: after) ->
  PlantTable.soilFertility (fst tick) <= 100 ->
  overFertilizerTime s !! key = None ->
  overFertilizerTime (fst (runTable s (before ++ [tick]))) !! key = None
  /\ Forall liveTable (snd (runTable s (before ++ tick :: after))).
Proof.
  intros Hlen Hr Hf Hnone.
  apply Forall_app in Hr as [Hr Hr1]. apply Forall_cons in Hr1 as [Hr1 Hr2].
  pose proof (minutes_of_none s Hnone) as Hmin.
  destruct (run_spared before s Hr) as (_ & Hall1).
  { rewrite Hmin. lia. }
  { rewrite Hmin. unfold OVER_FERTILIZER_DEATH. lia. }
  destruct (tick_resets (fst (runTable s before)) tick Hr1 Hf) as [Hcleared Hlive].
  pose proof (minutes_of_none _ Hcleared) as Hmin'.
  destruct (run_spared after
              (fst (updateTableData (fst (runTable s before)) (fst tick) (snd tick))) Hr2)
    as (_ & Hall2).
  { rewrite Hmin'. lia. }
  { rewrite Hmin'. unfold OVER_FERTILIZER_DEATH. lia. }
  split.
  - rewrite runTable_snoc. exact Hcleared.
  - rewrite runTable_app, runTable_cons. cbn [snd].
    apply Forall_app. split; [assumption|]. now constructor.
Qed.
End OverFertilization.

(** C8, as stated, fails.  Table 1 is live and its fertility is above 100
    at each of ten consecutive ticks, counted from a cleared counter, but the
    house is at 61 degrees in the tenth: that tick returns from the heat
    check, in front of the over-fertilisation check.  The plants are dead,
    by the heat; the counter has not moved to 10 and has not been cleared: it
    still reads 9. *)
Lemma over_fertilization_hot_tenth_tick_counterexample :
  length hotTenthTick = 10%nat
  /\ Forall (fun tick => liveTable (fst tick) /\ overFertilized tick) hotTenthTick
  /\ SensorSimulator.overFertilizerTime SensorSimulator.new !! "1-1" = None
  /\ SensorSimulator.overFertilizerTime
       (fst (SensorSimulator.runTable SensorSimulator.new (take 9 hotTenthTick))) !! "1-1"
     = Some 9%Z
  /\ SensorSimulator.overFertilizerTime
       (fst (SensorSimulator.runTable SensorSimulator.new hotTenthTick)) !! "1-1"
     = Some 9%Z
  /\ ~ SensorSimulator.overFertilizerTime
         (fst (SensorSimulator.runTable SensorSimulator.new hotTenthTick)) !! "1-1"
       = None.
Proof.
  split; [reflexivity|]. split.
  { unfold hotTenthTick. cbn [replicate app].
    repeat (constructor; [split; [split|]; vm_compute; reflexivity|]). constructor. }
  split; [reflexivity|]. split; [vm_compute; reflexivity|].
  split; [vm_compute; reflexivity|]. vm_compute. discriminate.
Qed.

(** C8, amended.  Ten consecutive ticks of one table, each reaching the
    over-fertilisation check (the table is live and the house not above 60
    degrees when the tick starts), from a cleared counter.
    If every tick starts from a fertility above 100, the counter reads [k]
    after tick [k] for [k = 1..9], the first nine ticks leave a live table,
    the tenth forces plant count and size to 0 and the counter is cleared.
    If one of the first nine ticks starts from a fertility of at most 100,
    the counter is cleared by that tick and the tenth tick leaves a live
    table. *)
Theorem over_fertilization_death_on_tenth_tick
    (s : SensorSimulator.t) (key : string)
    (ticks : list (PlantTable.t * GreenhouseData.t)) :
  length ticks = 10%nat ->
  Forall (reachesFertilityCheck key) ticks ->
  SensorSimulator.overFertilizerTime s !! key = None ->
  (Forall overFertilized ticks ->
   (forall k : nat, (1 <= k <= 9)%nat ->
      SensorSimulator.overFertilizerTime
        (fst (SensorSimulator.runTable s (take k ticks))) !! key = Some (Z.of_nat k))
   /\ (forall (k : nat) (out : PlantTable.t), (k < 9)%nat ->
         snd (SensorSimulator.runTable s ticks) !! k = Some out -> liveTable out)
   /\ (exists out : PlantTable.t,
         snd (SensorSimulator.runTable s ticks) !! 9%nat = Some out
         /\ PlantTable.plantCount out = 0%Q /\ PlantTable.plantSize out = 0%Q)
   /\ SensorSimulator.overFertilizerTime (fst (SensorSimulator.runTable s ticks)) !! key
      = None)
  /\ (forall (j : nat) (tick : PlantTable.t * GreenhouseData.t),
        (j < 9)%nat -> ticks !! j = Some tick ->
        (PlantTable.soilFertility (fst tick) <= 100)%Q ->
        SensorSimulator.overFertilizerTime
          (fst (SensorSimulator.runTable s (take (S j) ticks))) !! key = None
        /\ (forall out : PlantTable.t,
              snd (SensorSimulator.runTable s ticks) !! 9%nat = Some out -> liveTable out)).
Proof.
  intros Hlen Hr Hnone. split.
  - intros Hf.
    assert (Hlast : is_Some (ticks !! 9%nat)) by (apply lookup_lt_is_Some; lia).
    destruct Hlast as [last Hlast].
    pose proof (take_drop_middle ticks 9 last Hlast) as E.
    rewrite (drop_ge ticks 10) in E by lia.
    assert (Hlen9 : length (take 9 ticks) = 9%nat) by (rewrite length_take; lia).
    revert E Hlen9. generalize (take 9 ticks). intros before E Hlen9. subst ticks.
    destruct (run_held key s before last Hlen9 Hr Hf Hnone) as (Hcnt & Hlive & Houts & Hcl).
    split; [|split; [|split]].
    + intros k Hk. rewrite take_app_le by lia. now apply Hcnt.
    + intros k out Hk Hout. rewrite Houts in Hout.
      rewrite lookup_app_l in Hout by (rewrite runTable_length; lia).
      revert Hout. now apply Forall_lookup.
    + exists (SensorSimulator.killPlants (fst last)). rewrite Houts.
      split; [|split; reflexivity].
      rewrite lookup_app_r by (rewrite runTable_length; lia).
      rewrite runTable_length, Hlen9. reflexivity.
    + exact Hcl.
  - intros j tick Hj Htick Hf.
    pose proof (take_drop_middle ticks j tick Htick) as E.
    assert (Hlens : (length (take j ticks) + 1 + length (drop (S j) ticks) = 10)%nat).
    { rewrite length_take, length_drop. lia. }
    destruct (run_with_drop key s (take j ticks) (drop (S j) ticks) tick Hlens)
      as (Hcl & Hall); try assumption.
    { now rewrite E. }
    rewrite E in Hall. split.
    + rewrite (take_S_r ticks j tick Htick). exact Hcl.
    + intros out Hout. revert Hout. now apply Forall_lookup.
Qed.

(** Table 1 held at a fertility of 110 for ten ticks dies on the tenth. *)
Lemma over_fertilization_death_on_tenth_tick_witness :
  exists out : PlantTable.t,
    snd (SensorSimulator.runTable SensorSimulator.new heldTicks) !! 9%nat = Some out
    /\ PlantTable.plantCount out = 0%Q /\ PlantTable.plantSize out = 0%Q.
Proof.
  refine (proj1 (proj2 (proj2
            (proj1 (over_fertilization_death_on_tenth_tick
                      SensorSimulator.new "1-1" heldTicks eq_refl _ eq_refl) _)))).
  - unfold heldTicks. cbn [replicate].
    repeat (constructor; [repeat split; vm_compute; congruence|]). constructor.
  - unfold heldTicks. cbn [replicate].
    repeat (constructor; [vm_compute; reflexivity|]). constructor.
Defined.

(** ** The manager: simulation speed *)

(** C6.  [setSimulationSpeed] returns true exactly when [0 < speed <= 1000].
    On success the time step is [max 1 (baseTimeStep / speed)], a running
    timer is restarted with that period, and the simulator (hence the
    current day and the minute of the day), the greenhouses and the base
    time step are unchanged; for speed 10 at a base of 100 the time step is
    10.  On failure the manager is unchanged. *)
Theorem setSimulationSpeed_spec (m : GreenhouseManager.t) (speed : Q) :
  let r := GreenhouseManager.setSimulationSpeed m speed in
  (snd r = true <-> (0 < speed /\ speed <= 1000)%Q)
  /\ (snd r = true ->
      GreenhouseManager.timeStep (fst r)
      = Math_max 1 (GreenhouseManager.baseTimeStep m / speed)
      /\ GreenhouseManager.simulationSpeed (fst r) = speed
      /\ (GreenhouseManager.simulationInterval m <> None ->
          GreenhouseManager.simulationInterval (fst r)
          = Some (GreenhouseManager.timeStep (fst r)))
      /\ GreenhouseManager.sensorSimulator (fst r) = GreenhouseManager.sensorSimulator m
      /\ SensorSimulator.getCurrentDay (GreenhouseManager.sensorSimulator (fst r))
         = SensorSimulator.getCurrentDay (GreenhouseManager.sensorSimulator m)
      /\ SensorSimulator.getMinuteOfDay (GreenhouseManager.sensorSimulator (fst r))
         = SensorSimulator.getMinuteOfDay (GreenhouseManager.sensorSimulator m)
      /\ GreenhouseManager.greenhouses (fst r) = GreenhouseManager.greenhouses m
      /\ GreenhouseManager.baseTimeStep (fst r) = GreenhouseManager.baseTimeStep m)
  /\ (snd r = false -> fst r = m)
  /\ ((GreenhouseManager.baseTimeStep m == 100)%Q -> (speed == 10)%Q ->
      snd r = true /\ (GreenhouseManager.timeStep (fst r) == 10)%Q).
Proof.
  intros r. unfold r, GreenhouseManager.setSimulationSpeed.
  destruct (Qlt_bool_spec 0 speed) as [Hpos|Hpos];
    destruct (Qle_bool_spec speed 1000) as [Hmax|Hmax]; cbn [andb fst snd].
  - split; [tauto|]. split.
    + intros _. cbn. repeat split.
      intros Hrun. destruct (GreenhouseManager.simulationInterval m); congruence.
    + split; [discriminate|]. intros Hb Hs. split; [reflexivity|]. cbn.
      assert (E : (GreenhouseManager.baseTimeStep m / speed == 10)%Q).
      { rewrite Hb, Hs. reflexivity. }
      destruct (Math_max_spec 1 (GreenhouseManager.baseTimeStep m / speed))
        as [[_ ->]|[Hlt _]]; [exact E|].
      exfalso. rewrite E in Hlt. revert Hlt. vm_compute. discriminate.
  - split; [split; [discriminate | intros [_ H]; lra]|].
    split; [discriminate|]. split; [reflexivity|]. intros _ Hs. exfalso. lra.
  - split; [split; [discriminate | intros [H _]; lra]|].
    split; [discriminate|]. split; [reflexivity|]. intros _ Hs. exfalso. lra.
  - split; [split; [discriminate | intros [H _]; lra]|].
    split; [discriminate|]. split; [reflexivity|]. intros _ Hs. exfalso. lra.
Qed.

(** Speed 10 on the running manager of the start configuration. *)
Lemma setSimulationSpeed_spec_witness :
  snd (GreenhouseManager.setSimulationSpeed runningManager 10) = true
  /\ (GreenhouseManager.timeStep
        (fst (GreenhouseManager.setSimulationSpeed runningManager 10)) == 10)%Q.
Proof.
  apply (proj2 (proj2 (proj2 (setSimulationSpeed_spec runningManager 10))));
    reflexivity.
Defined.

(** ** The manager: actuators *)

Section Actuators.
#[local] Open Scope Q_scope.
Import GreenhouseManager.

Variable m : GreenhouseManager.t.

Lemma in_range_spec (lo hi v : Q) :
  Qle_bool lo v && Qle_bool v hi = true <-> lo <= v <= hi.
Proof.
  destruct (Qle_bool_spec lo v); destruct (Qle_bool_spec v hi); cbn [andb];
    split; try discriminate; try tauto; intros [? ?]; lra.
Qed.

Lemma locateTable_Some (greenhouseId tableId : Z) (i : nat) (table : PlantTable.t) :
  locateTable m greenhouseId tableId = Some (i, table) <->
  exists greenhouse : GreenhouseData.t,
    greenhouses m !! greenhouseId = Some greenhouse
    /\ GreenhouseData.tables greenhouse !! i = Some table
    /\ PlantTable.id table = tableId
    /\ (forall (j : nat) (other : PlantTable.t),
          GreenhouseData.tables greenhouse !! j = Some other -> (j < i)%nat ->
          PlantTable.id other <> tableId).
Proof.
  unfold locateTable, findTable.
  destruct (greenhouses m !! greenhouseId) as [greenhouse|].
  - rewrite list_find_Some. split.
    + intros H. exists greenhouse. split; [reflexivity | exact H].
    + intros (g & Hg & H). now inversion Hg; subst.
  - split; [discriminate|]. intros (g & Hg & _). discriminate.
Qed.

Lemma locateTable_None (greenhouseId tableId : Z) :
  locateTable m greenhouseId tableId = None <-> ~ knownTable m greenhouseId tableId.
Proof.
  unfold locateTable, findTable, knownTable.
  destruct (greenhouses m !! greenhouseId) as [greenhouse|].
  - rewrite list_find_None, Forall_forall. split.
    + intros Hall (g & table & Hg & Hin & Hid). inversion Hg; subst g.
      exact (Hall table Hin Hid).
    + intros Hno table Hin Hid. apply Hno. now exists greenhouse, table.
  - split; [|reflexivity]. intros _ (g & table & Hg & _). discriminate.
Qed.

Lemma locateTable_known (greenhouseId tableId : Z) (i : nat) (table : PlantTable.t) :
  locateTable m greenhouseId tableId = Some (i, table) -> knownTable m greenhouseId tableId.
Proof.
  intros H. apply locateTable_Some in H as (greenhouse & Hg & Hi & Hid & _).
  exists greenhouse, table. split; [assumption|]. split; [|assumption].
  apply list_elem_of_lookup. now exists i.
Qed.

(** The common shape of the three table mutators: look the table up, check
    the value, assign the field. *)
Lemma table_mutator_spec (assign : PlantTable.t -> PlantTable.t) (valid : bool)
    (greenhouseId tableId : Z) :
  let r := match locateTable m greenhouseId tableId with
           | Some (i, table) =>
               if valid then (storeTable m greenhouseId i (assign table), true)
               else (m, false)
           | None => (m, false)
           end in
  (snd r = true <-> knownTable m greenhouseId tableId /\ valid = true)
  /\ (snd r = false -> fst r = m)
  /\ (snd r = true -> tableFieldSet assign m greenhouseId tableId (fst r)).
Proof.
  destruct (locateTable m greenhouseId tableId) as [[i table]|] eqn:E.
  - pose proof (locateTable_known _ _ _ _ E) as Hk.
    apply locateTable_Some in E as (greenhouse & Hg & Hi & Hid & Hfirst).
    destruct valid; cbn [fst snd].
    + split; [tauto|]. split; [discriminate|]. intros _.
      exists greenhouse, i, table. repeat split; try assumption.
      unfold storeTable. now rewrite Hg.
    + split; [split; [discriminate | intros [_ H]; discriminate]|].
      split; [reflexivity | discriminate].
  - apply locateTable_None in E. cbn [fst snd].
    split; [split; [discriminate | tauto]|]. split; [reflexivity | discriminate].
Qed.

(** The common shape of the two greenhouse mutators. *)
Lemma greenhouse_mutator_spec (assign : GreenhouseData.t -> GreenhouseData.t)
    (valid : bool) (greenhouseId : Z) :
  let r := match greenhouses m !! greenhouseId with
           | Some greenhouse =>
               if valid then (storeGreenhouse m greenhouseId (assign greenhouse), true)
               else (m, false)
           | None => (m, false)
           end in
  (snd r = true <-> is_Some (greenhouses m !! greenhouseId) /\ valid = true)
  /\ (snd r = false -> fst r = m)
  /\ (snd r = true -> greenhouseFieldSet assign m greenhouseId (fst r)).
Proof.
  destruct (greenhouses m !! greenhouseId) as [greenhouse|] eqn:E.
  - destruct valid; cbn [fst snd].
    + split; [split; [eauto | reflexivity]|]. split; [discriminate|]. intros _.
      exists greenhouse. split; [assumption | reflexivity].
    + split; [split; [discriminate | intros [_ H]; discriminate]|].
      split; [reflexivity | discriminate].
  - cbn [fst snd]. split; [split; [discriminate | intros [[? H] _]; discriminate]|].
    split; [reflexivity | discriminate].
Qed.
End Actuators.

Section ActuatorsFieldByField.

Variable m : GreenhouseManager.t.

Lemma tableFieldSet_written (assign : PlantTable.t -> PlantTable.t)
    (written : PlantTable.t -> PlantTable.t -> Prop)
    (greenhouseId tableId : Z) (m' : GreenhouseManager.t) :
  (forall table : PlantTable.t, written table (assign table)) ->
  tableFieldSet assign m greenhouseId tableId m' ->
  tableWritten written m greenhouseId tableId m'.
Proof.
  intros Hw (greenhouse & i & table & Hg & Hi & Hid & Hfirst & ->).
  exists greenhouse,
    (GreenhouseData.set_tables
       (<[i := assign table]> (GreenhouseData.tables greenhouse)) greenhouse),
    i, table, (assign table).
  split; [exact Hg|]. split; [exact Hi|]. split; [exact Hid|].
  split; [exact Hfirst|]. split; [apply Hw|].
  split; [cbn; apply lookup_insert_eq|].
  cbn [GreenhouseData.tables GreenhouseData.set_tables].
  split; [apply list_lookup_insert_eq; now apply lookup_lt_Some in Hi|].
  split; [apply length_insert|].
  split; [intros j Hj; now apply list_lookup_insert_ne|].
  split; [reflexivity|]. split; [reflexivity|]. split; [repeat split|].
  split; [|repeat split].
  intros other Hother. cbn. now apply lookup_insert_ne.
Qed.

Lemma greenhouseFieldSet_written (assign : GreenhouseData.t -> GreenhouseData.t)
    (written : GreenhouseData.t -> GreenhouseData.t -> Prop)
    (greenhouseId : Z) (m' : GreenhouseManager.t) :
  (forall greenhouse : GreenhouseData.t, written greenhouse (assign greenhouse)) ->
  greenhouseFieldSet assign m greenhouseId m' ->
  greenhouseWritten written m greenhouseId m'.
Proof.
  intros Hw (greenhouse & Hg & ->).
  exists greenhouse, (assign greenhouse).
  split; [exact Hg|]. split; [apply Hw|].
  split; [cbn; apply lookup_insert_eq|].
  split; [|repeat split].
  intros other Hother. cbn. now apply lookup_insert_ne.
Qed.
End ActuatorsFieldByField.

Lemma set_water_written (state : bool) (table : PlantTable.t) :
  waterSetTo state table (PlantTable.set_water state table).
Proof. repeat split. Qed.

Lemma set_fertilizer_written (state : bool) (table : PlantTable.t) :
  fertilizerSetTo state table (PlantTable.set_fertilizer state table).
Proof. repeat split. Qed.

Lemma set_artLight_written (lumens : Q) (table : PlantTable.t) :
  artLightSetTo lumens table (PlantTable.set_artLight lumens table).
Proof. repeat split. Qed.

Lemma set_fan_written (state : bool) (greenhouse : GreenhouseData.t) :
  fanSetTo state greenhouse (GreenhouseData.set_fan state greenhouse).
Proof. repeat split. Qed.

Lemma set_shading_written (percentage : Q) (greenhouse : GreenhouseData.t) :
  shadingSetTo percentage greenhouse (GreenhouseData.set_shading percentage greenhouse).
Proof. repeat split. Qed.

(** C7.  Each of the five actuator mutators returns true exactly when its
    ids are known (the greenhouse id is in the registry and, for the table
    mutators, a table of that greenhouse carries the table id) and its value
    is in range (shading in [0, 100], lumens in [0, 2000]); when it returns
    false the manager is unchanged; when it returns true exactly the targeted
    field is set: the target (the greenhouse, or the first table with the id)
    reads the given value in that field and is as before in every other
    field, and every other table, every other greenhouse and the rest of the
    manager are as before. *)
Theorem actuator_mutators_spec
    (m : GreenhouseManager.t) (greenhouseId tableId : Z) (state : bool) (value : Q) :
  (let r := GreenhouseManager.setTableWatering m greenhouseId tableId state in
   (snd r = true <-> knownTable m greenhouseId tableId)
   /\ (snd r = false -> fst r = m)
   /\ (snd r = true -> tableWritten (waterSetTo state) m greenhouseId tableId (fst r)))
  /\ (let r := GreenhouseManager.setTableFertilizer m greenhouseId tableId state in
      (snd r = true <-> knownTable m greenhouseId tableId)
      /\ (snd r = false -> fst r = m)
      /\ (snd r = true ->
          tableWritten (fertilizerSetTo state) m greenhouseId tableId (fst r)))
  /\ (let r := GreenhouseManager.setGreenhouseFan m greenhouseId state in
      (snd r = true <-> is_Some (GreenhouseManager.greenhouses m !! greenhouseId))
      /\ (snd r = false -> fst r = m)
      /\ (snd r = true -> greenhouseWritten (fanSetTo state) m greenhouseId (fst r)))
  /\ (let r := GreenhouseManager.setGreenhouseShading m greenhouseId value in
      (snd r = true <->
       is_Some (GreenhouseManager.greenhouses m !! greenhouseId)
       /\ (0 <= value <= 100)%Q)
      /\ (snd r = false -> fst r = m)
      /\ (snd r = true -> greenhouseWritten (shadingSetTo value) m greenhouseId (fst r)))
  /\ (let r := GreenhouseManager.setTableLight m greenhouseId tableId value in
      (snd r = true <-> knownTable m greenhouseId tableId /\ (0 <= value <= 2000)%Q)
      /\ (snd r = false -> fst r = m)
      /\ (snd r = true ->
          tableWritten (artLightSetTo value) m greenhouseId tableId (fst r))).
Proof.
  split; [|split; [|split; [|split]]].
  - destruct (table_mutator_spec m (PlantTable.set_water state) true greenhouseId tableId)
      as (Hiff & Hfail & Hok).
    split; [rewrite Hiff; tauto|]. split; [assumption|]. intros Hr.
    eapply tableFieldSet_written; [apply set_water_written | now apply Hok].
  - destruct (table_mutator_spec m (PlantTable.set_fertilizer state) true
                greenhouseId tableId) as (Hiff & Hfail & Hok).
    split; [rewrite Hiff; tauto|]. split; [assumption|]. intros Hr.
    eapply tableFieldSet_written; [apply set_fertilizer_written | now apply Hok].
  - destruct (greenhouse_mutator_spec m (GreenhouseData.set_fan state) true greenhouseId)
      as (Hiff & Hfail & Hok).
    split; [rewrite Hiff; tauto|]. split; [assumption|]. intros Hr.
    eapply greenhouseFieldSet_written; [apply set_fan_written | now apply Hok].
  - destruct (greenhouse_mutator_spec m (GreenhouseData.set_shading value)
                (Qle_bool 0 value && Qle_bool value 100) greenhouseId)
      as (Hiff & Hfail & Hok).
    split; [rewrite Hiff, in_range_spec; tauto|]. split; [assumption|]. intros Hr.
    eapply greenhouseFieldSet_written; [apply set_shading_written | now apply Hok].
  - destruct (table_mutator_spec m (PlantTable.set_artLight value)
                (Qle_bool 0 value && Qle_bool value 2000) greenhouseId tableId)
      as (Hiff & Hfail & Hok).
    split; [rewrite Hiff, in_range_spec; tauto|]. split; [assumption|]. intros Hr.
    eapply tableFieldSet_written; [apply set_artLight_written | now apply Hok].
Qed.

(** A shading of 150 on greenhouse 1 is refused and nothing changes. *)
Lemma actuator_mutators_spec_witness :
  fst (GreenhouseManager.setGreenhouseShading runningManager 1 150) = runningManager.
Proof.
  apply (proj1 (proj2 (proj1 (proj2 (proj2 (proj2
           (actuator_mutators_spec runningManager 1 1 true 150))))))).
  vm_compute. reflexivity.
Defined.

(** ** The actuators on the start configuration *)

Example watering_table_3_of_greenhouse_2 :
  snd (GreenhouseManager.setTableWatering runningManager 2 3 true) = true
  /\ (PlantTable.water
        <$> GreenhouseManager.getTable
              (fst (GreenhouseManager.setTableWatering runningManager 2 3 true)) 2 3)
     = Some true
  /\ GreenhouseManager.getTable
       (fst (GreenhouseManager.setTableWatering runningManager 2 3 true)) 2 4
     = GreenhouseManager.getTable runningManager 2 4.
Proof. repeat split; vm_compute; reflexivity. Qed.

Example unknown_ids_are_refused :
  GreenhouseManager.setTableWatering runningManager 5 1 true = (runningManager, false)
  /\ GreenhouseManager.setTableFertilizer runningManager 1 9 true = (runningManager, false)
  /\ GreenhouseManager.setGreenhouseFan runningManager 0 true = (runningManager, false)
  /\ GreenhouseManager.setTableLight runningManager 1 1 2001 = (runningManager, false)
  /\ GreenhouseManager.setGreenhouseShading runningManager 1 (-1) = (runningManager, false).
Proof. repeat split; vm_compute; reflexivity. Qed.

Example speed_out_of_range_is_refused :
  GreenhouseManager.setSimulationSpeed runningManager 0 = (runningManager, false)
  /\ GreenhouseManager.setSimulationSpeed runningManager 1001 = (runningManager, false).
Proof. split; vm_compute; reflexivity. Qed.

(** ** What an actuator assignment leaves alone *)

Lemma set_water_only (v : bool) (x : PlantTable.t) :
  PlantTable.water (PlantTable.set_water v x) = v
  /\ PlantTable.set_water (PlantTable.water x) (PlantTable.set_water v x) = x.
Proof. destruct x. split; reflexivity. Qed.

Lemma set_fertilizer_only (v : bool) (x : PlantTable.t) :
  PlantTable.fertilizer (PlantTable.set_fertilizer v x) = v
  /\ PlantTable.set_fertilizer (PlantTable.fertilizer x) (PlantTable.set_fertilizer v x) = x.
Proof. destruct x. split; reflexivity. Qed.

Lemma set_artLight_only (v : Q) (x : PlantTable.t) :
  PlantTable.artLight (PlantTable.set_artLight v x) = v
  /\ PlantTable.set_artLight (PlantTable.artLight x) (PlantTable.set_artLight v x) = x.
Proof. destruct x. split; reflexivity. Qed.

Lemma set_fan_only (v : bool) (g : GreenhouseData.t) :
  GreenhouseData.fan (GreenhouseData.set_fan v g) = v
  /\ GreenhouseData.set_fan (GreenhouseData.fan g) (GreenhouseData.set_fan v g) = g.
Proof. destruct g. split; reflexivity. Qed.

Lemma set_shading_only (v : Q) (g : GreenhouseData.t) :
  GreenhouseData.shading (GreenhouseData.set_shading v g) = v
  /\ GreenhouseData.set_shading (GreenhouseData.shading g) (GreenhouseData.set_shading v g) = g.
Proof. destruct g. split; reflexivity. Qed.

(** [getTable] is the table of the lookup the mutators share. *)
Lemma getTable_locateTable (m : GreenhouseManager.t) (greenhouseId tableId : Z) :
  GreenhouseManager.getTable m greenhouseId tableId
  = snd <$> GreenhouseManager.locateTable m greenhouseId tableId.
Proof.
  unfold GreenhouseManager.getTable, GreenhouseManager.locateTable.
  now destruct (GreenhouseManager.greenhouses m !! greenhouseId).
Qed.

(** ** Two more scenarios of the table tick *)

(** In a house at 61 degrees a live table loses all plants. *)
Example heat_death_at_61 :
  snd (SensorSimulator.updateTableData SensorSimulator.new
         (GreenhouseManager.initialTable 1 1 100)
         (GreenhouseData.set_temperature 61 house1))
  = SensorSimulator.killPlants (GreenhouseManager.initialTable 1 1 100).
Proof. vm_compute. reflexivity. Qed.

(** At a soil moisture of 5 a (hypothetical) table of 1000 plants loses
    [ceil (1000 * 0.01) = 10] of them to the drought block. *)
Example drought_takes_one_percent :
  PlantTable.plantCount
    (SensorSimulator.drought
       (PlantTable.set_plantCount 1000
          (PlantTable.set_soilMoisture 5 (GreenhouseManager.initialTable 1 1 100))))
  = 990%Q.
Proof. vm_compute. reflexivity. Qed.

(** * Further properties of the simulator and the manager *)

(** ** The climate record of the day and the clock *)

(** X1.  [getCurrentEnvironmentData] has no record to give exactly when none is
    loaded; from day 0 on it gives the record at index
    [currentDay mod length], so the year wraps around; and what it gives is
    always one of the loaded records. *)
Theorem getCurrentEnvironmentData_wraps (s : SensorSimulator.t) :
  (SensorSimulator.getCurrentEnvironmentData s = None
   <-> SensorSimulator.environmentData s = [])
  /\ ((0 <= SensorSimulator.currentDay s)%Z ->
      SensorSimulator.environmentData s <> [] ->
      SensorSimulator.getCurrentEnvironmentData s
      = SensorSimulator.environmentData s
          !! Z.to_nat (SensorSimulator.currentDay s
                       mod Z.of_nat (length (SensorSimulator.environmentData s))))
  /\ (forall record : EnvironmentData.t,
        SensorSimulator.getCurrentEnvironmentData s = Some record ->
        record ∈ SensorSimulator.environmentData s).
Proof.
  unfold SensorSimulator.getCurrentEnvironmentData.
  destruct (SensorSimulator.environmentData s) as [|e0 l] eqn:E.
  - split; [tauto|]. split; [congruence|discriminate].
  - set (data := e0 :: l) in *.
    assert (Hlen : (0 < Z.of_nat (length data))%Z) by (unfold data; cbn [length]; lia).
    split; [split; [|discriminate]|split].
    + destruct (Z.rem _ _ <? 0)%Z; discriminate.
    + intros Hday _. rewrite Z.rem_mod_nonneg by lia.
      pose proof (Z.mod_pos_bound (SensorSimulator.currentDay s)
                    (Z.of_nat (length data)) Hlen) as Hb.
      destruct (Z.ltb_spec (SensorSimulator.currentDay s `mod` Z.of_nat (length data)) 0);
        [lia|].
      rewrite nth_lookup.
      destruct (lookup_lt_is_Some_2 data
                  (Z.to_nat (SensorSimulator.currentDay s `mod` Z.of_nat (length data))))
        as [record ->]; [lia | reflexivity].
    + intros record.
      destruct (Z.ltb_spec (Z.rem (SensorSimulator.currentDay s) (Z.of_nat (length data))) 0).
      * intros [= Hrec]. rewrite <- Hrec. unfold data. apply list_elem_of_here.
      * intros [= Hrec]. rewrite <- Hrec. unfold data.
        destruct (Z.to_nat _) as [|i]; [apply list_elem_of_here|].
        rewrite nth_lookup.
        destruct (l !! i) as [found|] eqn:Hl; cbn [default].
        -- apply list_elem_of_further. now apply list_elem_of_lookup_2 in Hl.
        -- apply list_elem_of_here.
Qed.

(** Day 366 of a 365-record year reads record 1. *)
Lemma getCurrentEnvironmentData_wraps_witness :
  SensorSimulator.getCurrentEnvironmentData
    (SensorSimulator.mk (replicate 365 mildDay) 366 0 ∅ ∅)
  = replicate 365 mildDay !! Z.to_nat (366 mod Z.of_nat (length (replicate 365 mildDay))).
Proof.
  apply (proj1 (proj2 (getCurrentEnvironmentData_wraps
                         (SensorSimulator.mk (replicate 365 mildDay) 366 0 ∅ ∅)))).
  - vm_compute. discriminate.
  - discriminate.
Defined.

(** X2.  [updateTime], [n] times from a minute inside the day: the minute stays
    inside the day, the minutes since day 0 grow by exactly [n], and the
    climate data and the two side maps are not touched. *)
Theorem updateTime_counts_minutes (n : nat) (s : SensorSimulator.t) :
  (0 <= SensorSimulator.minuteOfTheDay s < 1440)%Z ->
  let s' := Nat.iter n SensorSimulator.updateTime s in
  (0 <= SensorSimulator.minuteOfTheDay s' < 1440)%Z
  /\ (SensorSimulator.currentDay s' * 1440 + SensorSimulator.minuteOfTheDay s'
      = SensorSimulator.currentDay s * 1440 + SensorSimulator.minuteOfTheDay s
        + Z.of_nat n)%Z
  /\ SensorSimulator.environmentData s' = SensorSimulator.environmentData s
  /\ SensorSimulator.ventilationStartTime s' = SensorSimulator.ventilationStartTime s
  /\ SensorSimulator.overFertilizerTime s' = SensorSimulator.overFertilizerTime s.
Proof.
  intros Hm. cbv zeta. induction n as [|n IH].
  - cbn [Nat.iter nat_rect]. repeat split; try reflexivity; lia.
  - rewrite Nat.iter_succ. destruct IH as (Hr & Ht & He & Hv & Ho).
    set (s1 := Nat.iter n SensorSimulator.updateTime s) in *. clearbody s1.
    unfold SensorSimulator.updateTime.
    destruct (Z.leb_spec 1440 (SensorSimulator.minuteOfTheDay s1 + 1));
      cbn [SensorSimulator.minuteOfTheDay SensorSimulator.currentDay
           SensorSimulator.environmentData SensorSimulator.ventilationStartTime
           SensorSimulator.overFertilizerTime];
      repeat split; try assumption; lia.
Qed.

(** Two minutes from 23:59 of day 100 end at 00:01 of day 101. *)
Lemma updateTime_counts_minutes_witness :
  let s' := Nat.iter 2 SensorSimulator.updateTime (SensorSimulator.mk [] 100 1439 ∅ ∅) in
  (0 <= SensorSimulator.minuteOfTheDay s' < 1440)%Z.
Proof.
  apply (updateTime_counts_minutes 2 (SensorSimulator.mk [] 100 1439 ∅ ∅)).
  cbn. lia.
Defined.

(** ** Growth factors *)

Section GrowthFactors.
#[local] Open Scope Q_scope.
Import SensorSimulator.

Lemma unit_mult (x y : Q) : 0 <= x <= 1 -> 0 <= y <= 1 -> 0 <= x * y <= 1.
Proof. intros Hx Hy. nra. Qed.

Lemma calculateMoistureFactor_unit (moisture : Q) :
  0 <= moisture -> 0 <= calculateMoistureFactor moisture <= 1.
Proof.
  intros Hm. unfold calculateMoistureFactor, OPTIMAL_MOISTURE_MIN, OPTIMAL_MOISTURE_MAX.
  js_cases; minmax_cases; qdiv_const; lra.
Qed.

Lemma calculateFertilityFactor_unit (fertility : Q) :
  0 <= fertility -> 0 <= calculateFertilityFactor fertility <= 1.
Proof.
  intros Hf. unfold calculateFertilityFactor.
  js_cases; minmax_cases; qdiv_const; lra.
Qed.

Lemma calculateLightFactor_unit (houseLight tableLight : Q) :
  0 <= houseLight + tableLight -> 0 <= calculateLightFactor houseLight tableLight <= 1.
Proof.
  intros Hl. unfold calculateLightFactor. cbv zeta.
  set (totalLight := houseLight + tableLight) in *.
  destruct (Qle_bool_spec 400 totalLight) as [H4|H4];
    destruct (Qle_bool_spec totalLight 800) as [H8|H8]; cbn [andb]; try lra.
  - destruct (Qlt_bool_spec totalLight 400); [lra|].
    assert (Hq : 0 <= 800 / totalLight <= 1).
    { split; [apply Qle_shift_div_l | apply Qle_shift_div_r]; lra. }
    minmax_cases; lra.
  - destruct (Qlt_bool_spec totalLight 400); [|lra]. qdiv_const. lra.
Qed.

Lemma calculateTemperatureFactor_cases (temp : Q) :
  (temp < 5 /\ calculateTemperatureFactor temp == 0)
  \/ (5 <= temp < 22 /\ calculateTemperatureFactor temp == (temp - 5) * (1 # 17))
  \/ (temp == 22 /\ calculateTemperatureFactor temp == 1)
  \/ (22 < temp <= 40 /\ calculateTemperatureFactor temp == 1 - (temp - 22) * (1 # 18))
  \/ (40 < temp <= 60 /\ calculateTemperatureFactor temp == 1 - (temp - 40) * (1 # 20))
  \/ (60 < temp /\ calculateTemperatureFactor temp == 0).
Proof.
  unfold calculateTemperatureFactor, OPTIMAL_TEMP, DEATH_TEMP. cbv zeta.
  change (22 - 5) with 17. change (40 - 22) with 18. change (60 - 40) with 20.
  destruct (Qlt_bool_spec temp 5); [left; split; [assumption | reflexivity]|].
  destruct (Qlt_bool_spec temp 22).
  { right; left. split; [lra|]. qdiv_const. reflexivity. }
  destruct (Qeq_bool_spec temp 22) as [|Hne];
    [right; right; left; split; [assumption|reflexivity]|].
  assert (22 < temp).
  { apply Qnot_le_lt. intros Hle. apply Hne. lra. }
  destruct (Qle_bool_spec temp 40).
  { right; right; right; left. split; [lra|]. qdiv_const. reflexivity. }
  right; right; right; right.
  destruct (Math_max_spec 0 (1 - (temp - 40) / 20)) as [[Hpos ->]|[Hneg ->]];
    qdiv_const; [left | right]; (split; [lra | reflexivity]).
Qed.

Lemma calculateTemperatureFactor_unit (temp : Q) :
  0 <= calculateTemperatureFactor temp <= 1.
Proof.
  destruct (calculateTemperatureFactor_cases temp)
    as [[H E]|[[H E]|[[H E]|[[H E]|[[H E]|[H E]]]]]]; rewrite E; lra.
Qed.

(** X3.  The temperature factor is a share between 0 and 1 at every
    temperature.  It is zero up to 5 degrees and from 60 degrees on, and also
    at exactly 40 degrees: the decline from the optimum reaches zero at 40,
    and the branch above 40 starts again from one. *)
Theorem temperature_factor_zero_set (temp : Q) :
  0 <= calculateTemperatureFactor temp <= 1
  /\ (calculateTemperatureFactor temp == 0 <-> temp <= 5 \/ temp == 40 \/ 60 <= temp).
Proof.
  destruct (calculateTemperatureFactor_cases temp)
    as [[H E]|[[H E]|[[H E]|[[H E]|[[H E]|[H E]]]]]]; rewrite E;
    (split; [lra|]);
    (split;
     [intros H0; first [left; lra | right; left; lra | right; right; lra]
     | intros [H0|[H0|H0]]; lra]).
Qed.

(** X4.  With non-negative soil moisture, fertility and total light, every
    factor is a share between 0 and 1, so a tick adds between 0 and 0.2 cm
    to the plant size. *)
Theorem growth_at_most_base_rate (table : PlantTable.t) (house : GreenhouseData.t) :
  0 <= PlantTable.soilMoisture table ->
  0 <= PlantTable.soilFertility table ->
  0 <= GreenhouseData.lightIntensity house + PlantTable.artLight table ->
  0 <= growthRate table house <= BASE_GROWTH_RATE
  /\ PlantTable.plantSize table <= PlantTable.plantSize (grow table house)
     <= PlantTable.plantSize table + BASE_GROWTH_RATE.
Proof.
  intros Hm Hf Hl.
  assert (Hr : 0 <= growthRate table house <= BASE_GROWTH_RATE).
  { unfold growthRate, BASE_GROWTH_RATE. cbv zeta.
    pose proof (calculateMoistureFactor_unit _ Hm) as H1.
    pose proof (calculateFertilityFactor_unit _ Hf) as H2.
    pose proof (calculateLightFactor_unit _ _ Hl) as H3.
    pose proof (calculateTemperatureFactor_unit (GreenhouseData.temperature house)) as H4.
    pose proof (unit_mult _ _ H1 H2) as H12.
    pose proof (unit_mult _ _ H12 H3) as H123.
    pose proof (unit_mult _ _ H123 H4) as H1234.
    revert H1234.
    generalize (calculateMoistureFactor (PlantTable.soilMoisture table)).
    generalize (calculateFertilityFactor (PlantTable.soilFertility table)).
    generalize (calculateLightFactor (GreenhouseData.lightIntensity house)
                  (PlantTable.artLight table)).
    generalize (calculateTemperatureFactor (GreenhouseData.temperature house)).
    intros d c b a H. lra. }
  split; [exact Hr|].
  unfold grow. unfold BASE_GROWTH_RATE in *. js_cases; table_simpl; lra.
Qed.

(** Table 1 of the start configuration in its house. *)
Lemma growth_at_most_base_rate_witness :
  0 <= growthRate (GreenhouseManager.initialTable 1 1 100) house1 <= BASE_GROWTH_RATE.
Proof.
  apply (growth_at_most_base_rate (GreenhouseManager.initialTable 1 1 100) house1);
    vm_compute; discriminate.
Defined.
End GrowthFactors.

(** ** More on the table tick *)

Section TableTickMore.
#[local] Open Scope Q_scope.
Import SensorSimulator.

Variable s : SensorSimulator.t.

Lemma crowd_within_capacity (table : PlantTable.t) :
  PlantTable.plantCount (crowd table)
  <= calculateMaxPlants (PlantTable.plantSize (crowd table)).
Proof.
  rewrite crowd_plantSize. unfold crowd. js_case; table_simpl; lra.
Qed.

Lemma sameSettings_refl (table : PlantTable.t) : sameSettings table table.
Proof. repeat split. Qed.

Lemma sameSettings_trans (a b c : PlantTable.t) :
  sameSettings a b -> sameSettings b c -> sameSettings a c.
Proof.
  intros (A1 & A2 & A3 & A4 & A5) (B1 & B2 & B3 & B4 & B5).
  repeat split; congruence.
Qed.

Lemma manageWater_settings (table : PlantTable.t) (house : GreenhouseData.t) :
  sameSettings table (manageWater table house)
  /\ PlantTable.temperature (manageWater table house) = PlantTable.temperature table.
Proof.
  unfold manageWater. destruct (PlantTable.water table); [|now table_simpl].
  destruct (PlantTable.fertilizer (PlantTable.set_soilMoisture _ table)); now table_simpl.
Qed.

Lemma decayFertilizer_settings (table : PlantTable.t) :
  sameSettings table (decayFertilizer table)
  /\ PlantTable.temperature (decayFertilizer table) = PlantTable.temperature table.
Proof. unfold decayFertilizer. js_cases; now table_simpl. Qed.

Lemma grow_settings (table : PlantTable.t) (house : GreenhouseData.t) :
  sameSettings table (grow table house)
  /\ PlantTable.temperature (grow table house) = PlantTable.temperature table.
Proof. unfold grow. js_cases; now table_simpl. Qed.

Lemma drought_settings (table : PlantTable.t) :
  sameSettings table (drought table)
  /\ PlantTable.temperature (drought table) = PlantTable.temperature table.
Proof. unfold drought. js_cases; now table_simpl. Qed.

Lemma replantTable_settings (table : PlantTable.t) :
  sameSettings table (replantTable s table)
  /\ PlantTable.temperature (replantTable s table) = PlantTable.temperature table.
Proof. unfold replantTable. now table_simpl. Qed.

Lemma replantIfSparse_settings (table : PlantTable.t) :
  sameSettings table (replantIfSparse s table)
  /\ PlantTable.temperature (replantIfSparse s table) = PlantTable.temperature table.
Proof.
  unfold replantIfSparse. js_cases; [apply replantTable_settings | now split].
Qed.

Lemma harvestPlants_settings (table : PlantTable.t) :
  sameSettings table (harvestPlants s table)
  /\ PlantTable.temperature (harvestPlants s table) = PlantTable.temperature table.
Proof.
  unfold harvestPlants. js_cases; [|now table_simpl].
  match goal with
  | |- context [replantTable s ?x] => destruct (replantTable_settings x) as [Hs Ht]
  end.
  now table_simpl.
Qed.

Lemma harvestIfReady_settings (table : PlantTable.t) :
  sameSettings table (harvestIfReady s table)
  /\ PlantTable.temperature (harvestIfReady s table) = PlantTable.temperature table.
Proof.
  unfold harvestIfReady. js_cases; try (now split). apply harvestPlants_settings.
Qed.

Lemma crowd_settings (table : PlantTable.t) :
  sameSettings table (crowd table)
  /\ PlantTable.temperature (crowd table) = PlantTable.temperature table.
Proof. unfold crowd. js_case; now table_simpl. Qed.

Lemma killPlants_settings (table : PlantTable.t) :
  sameSettings table (killPlants table)
  /\ PlantTable.temperature (killPlants table) = PlantTable.temperature table.
Proof. unfold killPlants. now table_simpl. Qed.

Lemma liveTick_settings (table : PlantTable.t) (house : GreenhouseData.t) :
  sameSettings table (liveTick s table house)
  /\ PlantTable.temperature (liveTick s table house) = GreenhouseData.temperature house.
Proof.
  unfold liveTick. cbv zeta.
  destruct (manageWater_settings table house) as [S1 _].
  revert S1. generalize (manageWater table house). intros t1 S1.
  destruct (decayFertilizer_settings t1) as [S2 _].
  revert S2. generalize (decayFertilizer t1). intros t2 S2.
  destruct (grow_settings t2 house) as [S3 _].
  revert S3. generalize (grow t2 house). intros t3 S3.
  destruct (drought_settings t3) as [S4 _].
  revert S4. generalize (drought t3). intros t4 S4.
  destruct (replantIfSparse_settings t4) as [S5 _].
  revert S5. generalize (replantIfSparse s t4). intros t5 S5.
  assert (S6 : sameSettings t5
                 (PlantTable.set_temperature (GreenhouseData.temperature house) t5))
    by (repeat split).
  assert (T6 : PlantTable.temperature
                 (PlantTable.set_temperature (GreenhouseData.temperature house) t5)
               = GreenhouseData.temperature house) by reflexivity.
  revert S6 T6.
  generalize (PlantTable.set_temperature (GreenhouseData.temperature house) t5).
  intros t6 S6 T6.
  destruct (harvestIfReady_settings t6) as [S7 T7].
  revert S7 T7. generalize (harvestIfReady s t6). intros t7 S7 T7.
  destruct (crowd_settings t7) as [S8 T8].
  split; [|congruence].
  repeat (eapply sameSettings_trans; [eassumption|]). apply sameSettings_refl.
Qed.
End TableTickMore.

Section TableTickMoisture.
#[local] Open Scope Q_scope.
Import SensorSimulator.

Variable s : SensorSimulator.t.

Lemma replantIfSparse_moisture (table : PlantTable.t) :
  PlantTable.soilMoisture (replantIfSparse s table) = PlantTable.soilMoisture table.
Proof.
  unfold replantIfSparse. js_cases; [|reflexivity].
  now destruct (replantTable_fields s table) as (_ & _ & _ & -> & _).
Qed.

Lemma harvestIfReady_moisture (table : PlantTable.t) :
  PlantTable.soilMoisture (harvestIfReady s table) = PlantTable.soilMoisture table.
Proof.
  unfold harvestIfReady, harvestPlants. js_cases; reflexivity.
Qed.

Lemma crowd_moisture (table : PlantTable.t) :
  PlantTable.soilMoisture (crowd table) = PlantTable.soilMoisture table.
Proof. unfold crowd. js_case; now table_simpl. Qed.

Lemma liveTick_moisture (table : PlantTable.t) (house : GreenhouseData.t) :
  PlantTable.soilMoisture (liveTick s table house)
  = PlantTable.soilMoisture (manageWater table house).
Proof.
  unfold liveTick. cbv zeta.
  generalize (manageWater table house). intros t1.
  rewrite crowd_moisture, harvestIfReady_moisture.
  change (PlantTable.soilMoisture
            (replantIfSparse s (drought (grow (decayFertilizer t1) house)))
          = PlantTable.soilMoisture t1).
  rewrite replantIfSparse_moisture.
  destruct (drought_frame (grow (decayFertilizer t1) house)) as (_ & -> & _).
  destruct (grow_frame (decayFertilizer t1) house) as (_ & _ & -> & _).
  now destruct (decayFertilizer_frame t1) as (_ & _ & -> & _).
Qed.
End TableTickMoisture.

(** X5.  A tick that runs through the live blocks (the table is live, the house
    not above 60 degrees, the over-fertilisation rule does not fire) never
    ends with an empty table: it leaves at least 24 plants of positive size,
    and no more plants than the capacity for the size it ends with. *)
Theorem live_tick_keeps_24_to_capacity
    (s : SensorSimulator.t) (table : PlantTable.t) (house : GreenhouseData.t) :
  liveTable table ->
  (GreenhouseData.temperature house <= SensorSimulator.DEATH_TEMP)%Q ->
  ~ overFertilizationKills s house table ->
  let table' := snd (SensorSimulator.updateTableData s table house) in
  (24 <= PlantTable.plantCount table'
   <= SensorSimulator.calculateMaxPlants (PlantTable.plantSize table'))%Q
  /\ (0 < PlantTable.plantSize table')%Q.
Proof.
  intros Hl Ht Hno table'. unfold table'.
  rewrite (updateTableData_live s table house Hl Ht Hno).
  destruct (liveTick_alive s table house (proj2 Hl)) as [Hc Hs].
  split; [split; [exact Hc|]|exact Hs].
  unfold SensorSimulator.liveTick. cbv zeta. apply crowd_within_capacity.
Qed.

(** Table 1 of the start configuration after one tick. *)
Lemma live_tick_keeps_24_to_capacity_witness :
  (0 < PlantTable.plantSize
         (snd (SensorSimulator.updateTableData SensorSimulator.new
                 (GreenhouseManager.initialTable 1 1 100) house1)))%Q.
Proof.
  apply (live_tick_keeps_24_to_capacity SensorSimulator.new
           (GreenhouseManager.initialTable 1 1 100) house1).
  - split; reflexivity.
  - vm_compute. discriminate.
  - intros [H _]. vm_compute in H. discriminate.
Defined.

Lemma updateTableData_cases
    (s : SensorSimulator.t) (table : PlantTable.t) (house : GreenhouseData.t) :
  (~ liveTable table /\ snd (SensorSimulator.updateTableData s table house) = table)
  \/ (liveTable table
      /\ snd (SensorSimulator.updateTableData s table house)
         = SensorSimulator.killPlants table)
  \/ (liveTable table
      /\ snd (SensorSimulator.updateTableData s table house)
         = SensorSimulator.liveTick s table house).
Proof.
  destruct (Qlt_le_dec 0 (PlantTable.plantCount table)) as [Hc|Hc];
    [destruct (Qlt_le_dec 0 (PlantTable.plantSize table)) as [Hs|Hs]|].
  - assert (Hl : liveTable table) by (split; assumption).
    destruct (Qlt_le_dec SensorSimulator.DEATH_TEMP (GreenhouseData.temperature house))
      as [Ht|Ht].
    + right; left. split; [assumption|]. now rewrite updateTableData_heat.
    + rewrite updateTableData_checked by assumption. cbn [snd].
      destruct (snd (SensorSimulator.checkOverFertilization _ _ _)); auto.
  - left. assert (Hd : ~ liveTable table) by (intros [_ H]; lra).
    split; [assumption|]. now rewrite updateTableData_dead.
  - left. assert (Hd : ~ liveTable table) by (intros [H _]; lra).
    split; [assumption|]. now rewrite updateTableData_dead.
Qed.

(** X6.  The table tick writes the measured fields only: on every path the id,
    the position label, the artificial light and the two actuator flags of
    the table are what they were. *)
Theorem updateTableData_keeps_settings
    (s : SensorSimulator.t) (table : PlantTable.t) (house : GreenhouseData.t) :
  sameSettings table (snd (SensorSimulator.updateTableData s table house)).
Proof.
  destruct (Qlt_le_dec 0 (PlantTable.plantCount table)) as [Hc|Hc];
    [destruct (Qlt_le_dec 0 (PlantTable.plantSize table)) as [Hs|Hs]|].
  - destruct (Qlt_le_dec SensorSimulator.DEATH_TEMP (GreenhouseData.temperature house))
      as [Ht|Ht].
    + rewrite updateTableData_heat by (try split; assumption). apply killPlants_settings.
    + rewrite updateTableData_checked by (try split; assumption). cbn [snd].
      destruct (snd (SensorSimulator.checkOverFertilization _ _ _)).
      * apply killPlants_settings.
      * apply liveTick_settings.
  - rewrite updateTableData_dead; [apply sameSettings_refl|]. intros [_ H]. lra.
  - rewrite updateTableData_dead; [apply sameSettings_refl|]. intros [H _]. lra.
Qed.

(** X7.  The table temperature follows the house only on a tick that runs
    through: then it ends equal to the house temperature.  A table that is
    not live is returned as it is, and a table killed in this tick by heat
    or over-fertilisation loses plants and size but keeps the temperature it
    had. *)
Theorem table_temperature_follows_house_on_live_ticks
    (s : SensorSimulator.t) (table : PlantTable.t) (house : GreenhouseData.t) :
  let table' := snd (SensorSimulator.updateTableData s table house) in
  (liveTable table ->
   (GreenhouseData.temperature house <= SensorSimulator.DEATH_TEMP)%Q ->
   ~ overFertilizationKills s house table ->
   PlantTable.temperature table' = GreenhouseData.temperature house)
  /\ (~ liveTable table -> table' = table)
  /\ (liveTable table ->
      (SensorSimulator.DEATH_TEMP < GreenhouseData.temperature house)%Q
      \/ overFertilizationKills s house table ->
      PlantTable.temperature table' = PlantTable.temperature table
      /\ PlantTable.plantCount table' = 0%Q /\ PlantTable.plantSize table' = 0%Q).
Proof.
  intros table'. unfold table'. split; [|split].
  - intros Hl Ht Hno. rewrite (updateTableData_live s table house Hl Ht Hno).
    apply liveTick_settings.
  - intros Hdead. now rewrite updateTableData_dead.
  - intros Hl Hwhy.
    assert (E : snd (SensorSimulator.updateTableData s table house)
                = SensorSimulator.killPlants table).
    { destruct (Qlt_le_dec SensorSimulator.DEATH_TEMP (GreenhouseData.temperature house))
        as [Ht|Ht].
      - now rewrite updateTableData_heat.
      - destruct Hwhy as [Hhot|[Hf Hn]]; [lra|].
        rewrite updateTableData_checked by assumption. cbn [snd].
        now destruct (checkOverFertilization_kill s table
                        (SensorSimulator.tableKey house table) Hf Hn) as [-> _]. }
    rewrite E. repeat split.
Qed.

(** The heat of 61 degrees kills table 1 and leaves its temperature at 20. *)
Lemma table_temperature_follows_house_on_live_ticks_witness :
  PlantTable.temperature
    (snd (SensorSimulator.updateTableData SensorSimulator.new
            (GreenhouseManager.initialTable 1 1 100)
            (GreenhouseData.set_temperature 61 house1)))
  = PlantTable.temperature (GreenhouseManager.initialTable 1 1 100).
Proof.
  apply (proj2 (proj2 (table_temperature_follows_house_on_live_ticks SensorSimulator.new
                          (GreenhouseManager.initialTable 1 1 100)
                          (GreenhouseData.set_temperature 61 house1)))).
  - split; reflexivity.
  - left. reflexivity.
Defined.

(** X8.  Over a tick that runs through, only the water block moves the soil
    moisture (replant and harvest do not reset it): with the water on it
    rises by 3 up to 100; with the water off it never rises, does not go
    below 0, and in a house of at most 60 degrees and non-negative humidity
    it falls by at most 0.75. *)
Theorem soil_moisture_over_a_tick
    (s : SensorSimulator.t) (table : PlantTable.t) (house : GreenhouseData.t) :
  liveTable table ->
  (GreenhouseData.temperature house <= SensorSimulator.DEATH_TEMP)%Q ->
  ~ overFertilizationKills s house table ->
  (0 <= PlantTable.soilMoisture table)%Q ->
  let moisture := PlantTable.soilMoisture table in
  let moisture' :=
    PlantTable.soilMoisture (snd (SensorSimulator.updateTableData s table house)) in
  (PlantTable.water table = true -> moisture' = Math_min 100 (moisture + 3))
  /\ (PlantTable.water table = false ->
      (0 <= moisture' <= moisture)%Q
      /\ ((0 <= GreenhouseData.humidity house)%Q -> (moisture - 0.75 <= moisture')%Q)).
Proof.
  intros Hl Ht Hno Hm moisture moisture'. unfold moisture', moisture.
  rewrite (updateTableData_live s table house Hl Ht Hno), liveTick_moisture.
  split; intros Hw.
  - unfold SensorSimulator.manageWater. rewrite Hw.
    destruct (PlantTable.fertilizer (PlantTable.set_soilMoisture _ table)); reflexivity.
  - rewrite (manageWater_dry table house Hw). table_simpl.
    pose proof (evaporationRate_nonneg house) as He0.
    split.
    + minmax_cases; lra.
    + intros Hh. pose proof (evaporationRate_le house Ht Hh) as He1.
      minmax_cases; lra.
Qed.

(** Table 1 of the start configuration, not watered: 80 does not rise. *)
Lemma soil_moisture_over_a_tick_witness :
  (0 <= PlantTable.soilMoisture
          (snd (SensorSimulator.updateTableData SensorSimulator.new
                  (GreenhouseManager.initialTable 1 1 100) house1))
   <= PlantTable.soilMoisture (GreenhouseManager.initialTable 1 1 100))%Q.
Proof.
  apply (proj2 (soil_moisture_over_a_tick SensorSimulator.new
                  (GreenhouseManager.initialTable 1 1 100) house1
                  (conj eq_refl eq_refl)
                  ltac:(vm_compute; discriminate)
                  ltac:(intros [H _]; vm_compute in H; discriminate)
                  ltac:(vm_compute; discriminate))).
  reflexivity.
Defined.

Lemma harvestCount_integer (table : PlantTable.t) (n : Z) :
  PlantTable.plantCount table = inject_Z n ->
  SensorSimulator.harvestCount table = inject_Z (n * 95 / 100).
Proof.
  intros Hc. unfold SensorSimulator.harvestCount, Math_floor. rewrite Hc.
  f_equal.
Qed.

(** X9.  A harvest of a table of [n] plants ([n] a whole number) takes
    [floor (0.95 n)] of them.  Up to 460 plants fewer than 24 remain and the
    table is replanted on the spot (480 seedlings of 2 cm, planted today);
    from 461 to 480 plants exactly 24 remain and the table is not
    replanted. *)
Theorem harvest_replants_up_to_460
    (s : SensorSimulator.t) (table : PlantTable.t) (n : Z) :
  PlantTable.plantCount table = inject_Z n ->
  ((0 <= n <= 460)%Z ->
   PlantTable.plantCount (SensorSimulator.harvestPlants s table) = 480%Q
   /\ PlantTable.plantSize (SensorSimulator.harvestPlants s table) = 2%Q
   /\ PlantTable.plantedDate (SensorSimulator.harvestPlants s table)
      = SensorSimulator.currentDay s)
  /\ ((461 <= n <= 480)%Z ->
      (PlantTable.plantCount (SensorSimulator.harvestPlants s table) == 24)%Q
      /\ PlantTable.plantSize (SensorSimulator.harvestPlants s table)
         = PlantTable.plantSize table
      /\ PlantTable.plantedDate (SensorSimulator.harvestPlants s table)
         = PlantTable.plantedDate table).
Proof.
  intros Hc.
  pose proof (Z.div_mod (n * 95) 100 ltac:(lia)) as Hdiv.
  pose proof (Z.mod_pos_bound (n * 95) 100 ltac:(lia)) as Hmod.
  assert (Hrest : (PlantTable.plantCount table - SensorSimulator.harvestCount table
                   == inject_Z (n - n * 95 / 100))%Q).
  { rewrite (harvestCount_integer table n Hc), Hc.
    unfold Z.sub. rewrite inject_Z_plus, inject_Z_opp. reflexivity. }
  unfold SensorSimulator.harvestPlants. table_simpl.
  destruct (Qlt_bool_spec
              (PlantTable.plantCount table - SensorSimulator.harvestCount table) 24)
    as [Hlt|Hge]; rewrite Hrest in *.
  - change 24%Q with (inject_Z 24) in Hlt. rewrite <- Zlt_Qlt in Hlt.
    split; [|intros Hn; lia]. intros _.
    match goal with
    | |- context [SensorSimulator.replantTable s ?x] =>
        destruct (replantTable_fields s x) as (-> & -> & -> & _)
    end.
    repeat split.
  - change 24%Q with (inject_Z 24) in Hge. rewrite <- Zle_Qle in Hge.
    split; [intros Hn; lia|]. intros Hn. table_simpl.
    split; [|split; reflexivity].
    rewrite Hrest. replace (n - n * 95 / 100)%Z with 24%Z by lia. reflexivity.
Qed.

(** A table of 400 plants is replanted by its harvest. *)
Lemma harvest_replants_up_to_460_witness :
  PlantTable.plantCount
    (SensorSimulator.harvestPlants SensorSimulator.new
       (PlantTable.set_plantCount 400 ripeTable)) = 480%Q.
Proof.
  apply (proj1 (harvest_replants_up_to_460 SensorSimulator.new
                  (PlantTable.set_plantCount 400 ripeTable) 400 eq_refl)).
  lia.
Defined.

(** *** The fertiliser flag without water *)

Section FertilizerFlag.
#[local] Open Scope Q_scope.
Import SensorSimulator.

Variables (s : SensorSimulator.t) (b : bool).

Lemma decayFertilizer_flag (x : PlantTable.t) :
  decayFertilizer (PlantTable.set_fertilizer b x)
  = PlantTable.set_fertilizer b (decayFertilizer x).
Proof. unfold decayFertilizer. table_simpl. js_cases; reflexivity. Qed.

Lemma grow_flag (x : PlantTable.t) (house : GreenhouseData.t) :
  grow (PlantTable.set_fertilizer b x) house = PlantTable.set_fertilizer b (grow x house).
Proof.
  unfold grow.
  change (growthRate (PlantTable.set_fertilizer b x) house) with (growthRate x house).
  js_cases; reflexivity.
Qed.

Lemma drought_flag (x : PlantTable.t) :
  drought (PlantTable.set_fertilizer b x) = PlantTable.set_fertilizer b (drought x).
Proof. unfold drought. table_simpl. js_cases; reflexivity. Qed.

Lemma replantTable_flag (x : PlantTable.t) :
  replantTable s (PlantTable.set_fertilizer b x)
  = PlantTable.set_fertilizer b (replantTable s x).
Proof. reflexivity. Qed.

Lemma replantIfSparse_flag (x : PlantTable.t) :
  replantIfSparse s (PlantTable.set_fertilizer b x)
  = PlantTable.set_fertilizer b (replantIfSparse s x).
Proof. unfold replantIfSparse. table_simpl. js_cases; reflexivity. Qed.

Lemma harvestIfReady_flag (x : PlantTable.t) :
  harvestIfReady s (PlantTable.set_fertilizer b x)
  = PlantTable.set_fertilizer b (harvestIfReady s x).
Proof.
  unfold harvestIfReady, harvestPlants, harvestCount. table_simpl.
  js_cases; reflexivity.
Qed.

Lemma crowd_flag (x : PlantTable.t) :
  crowd (PlantTable.set_fertilizer b x) = PlantTable.set_fertilizer b (crowd x).
Proof. unfold crowd. table_simpl. js_cases; reflexivity. Qed.

Lemma liveTick_flag (table : PlantTable.t) (house : GreenhouseData.t) :
  PlantTable.water table = false ->
  liveTick s (PlantTable.set_fertilizer b table) house
  = PlantTable.set_fertilizer b (liveTick s table house).
Proof.
  intros Hw. unfold liveTick. cbv zeta.
  rewrite (manageWater_dry (PlantTable.set_fertilizer b table) house Hw).
  rewrite (manageWater_dry table house Hw).
  change (PlantTable.set_soilMoisture
            (Math_max 0
               (PlantTable.soilMoisture (PlantTable.set_fertilizer b table)
                - evaporationRate house)) (PlantTable.set_fertilizer b table))
    with (PlantTable.set_fertilizer b
            (PlantTable.set_soilMoisture
               (Math_max 0 (PlantTable.soilMoisture table - evaporationRate house)) table)).
  generalize (PlantTable.set_soilMoisture
                (Math_max 0 (PlantTable.soilMoisture table - evaporationRate house)) table).
  intros t1.
  rewrite decayFertilizer_flag, grow_flag, drought_flag, replantIfSparse_flag.
  generalize (replantIfSparse s (drought (grow (decayFertilizer t1) house))). intros t5.
  change (PlantTable.set_temperature (GreenhouseData.temperature house)
            (PlantTable.set_fertilizer b t5))
    with (PlantTable.set_fertilizer b
            (PlantTable.set_temperature (GreenhouseData.temperature house) t5)).
  now rewrite harvestIfReady_flag, crowd_flag.
Qed.
End FertilizerFlag.

(** X10.  "Fertilizer can only be applied when watering": on a table whose water
    actuator is off the fertiliser flag plays no part in the tick.  The tick
    from the table with the flag set to [b] leaves the simulator state and
    the table the tick from the table as it is leaves, with the flag at
    [b]. *)
Theorem fertilizer_needs_water
    (s : SensorSimulator.t) (table : PlantTable.t) (house : GreenhouseData.t) (b : bool) :
  PlantTable.water table = false ->
  SensorSimulator.updateTableData s (PlantTable.set_fertilizer b table) house
  = (fst (SensorSimulator.updateTableData s table house),
     PlantTable.set_fertilizer b (snd (SensorSimulator.updateTableData s table house))).
Proof.
  intros Hw. unfold SensorSimulator.updateTableData.
  change (SensorSimulator.tableKey house (PlantTable.set_fertilizer b table))
    with (SensorSimulator.tableKey house table).
  change (PlantTable.plantCount (PlantTable.set_fertilizer b table))
    with (PlantTable.plantCount table).
  change (PlantTable.plantSize (PlantTable.set_fertilizer b table))
    with (PlantTable.plantSize table).
  change (SensorSimulator.checkOverFertilization s
            (SensorSimulator.tableKey house table) (PlantTable.set_fertilizer b table))
    with (SensorSimulator.checkOverFertilization s
            (SensorSimulator.tableKey house table) table).
  destruct (Qle_bool (PlantTable.plantCount table) 0 || Qle_bool (PlantTable.plantSize table) 0);
    [reflexivity|].
  destruct (Qlt_bool SensorSimulator.DEATH_TEMP (GreenhouseData.temperature house));
    [reflexivity|].
  destruct (SensorSimulator.checkOverFertilization s
              (SensorSimulator.tableKey house table) table) as [s1 died].
  destruct died; [reflexivity|]. cbn [fst snd].
  now rewrite (liveTick_flag s1 b table house Hw).
Qed.

(** Table 1 of the start configuration with the fertiliser switched on. *)
Lemma fertilizer_needs_water_witness :
  SensorSimulator.updateTableData SensorSimulator.new
    (PlantTable.set_fertilizer true (GreenhouseManager.initialTable 1 1 100)) house1
  = (fst (SensorSimulator.updateTableData SensorSimulator.new
            (GreenhouseManager.initialTable 1 1 100) house1),
     PlantTable.set_fertilizer true
       (snd (SensorSimulator.updateTableData SensorSimulator.new
               (GreenhouseManager.initialTable 1 1 100) house1))).
Proof.
  apply (fertilizer_needs_water SensorSimulator.new
           (GreenhouseManager.initialTable 1 1 100) house1 true).
  reflexivity.
Defined.

(** ** More on the greenhouse environment *)

Section EnvironmentMore.
#[local] Open Scope Q_scope.
Import SensorSimulator.

Lemma lightIntensity_range (shading : Q) :
  0 <= shading <= 100 -> 0 <= Math_round (1000 * (1 - shading / 100)) <= 1000.
Proof.
  intros Hs. unfold Math_round.
  assert (Hx : 0.5 <= 1000 * (1 - shading / 100) + 0.5 <= 1000.5) by (qdiv_const; lra).
  pose proof (Math_floor_mono _ _ (proj1 Hx)) as Hlo.
  pose proof (Math_floor_mono _ _ (proj2 Hx)) as Hhi.
  change (Math_floor 0.5) with 0 in Hlo. change (Math_floor 1000.5) with 1000 in Hhi.
  unfold Math_floor in *. lra.
Qed.

Lemma applyLightAndVentilation_off (s : SensorSimulator.t) (greenhouse : GreenhouseData.t)
    (envData : EnvironmentData.t) :
  GreenhouseData.fan greenhouse = false ->
  applyLightAndVentilation s greenhouse envData
  = heatFromLight s
      (GreenhouseData.set_lightIntensity
         (Math_round (1000 * (1 - GreenhouseData.shading greenhouse / 100))) greenhouse)
      (Math_round (1000 * (1 - GreenhouseData.shading greenhouse / 100)) * LIGHT_HEAT_EFFECT).
Proof.
  intros Hfan. unfold applyLightAndVentilation. cbn. now rewrite Hfan.
Qed.

Lemma applyLightAndVentilation_on (s : SensorSimulator.t) (greenhouse : GreenhouseData.t)
    (envData : EnvironmentData.t) :
  GreenhouseData.fan greenhouse = true ->
  applyLightAndVentilation s greenhouse envData
  = ventilate s
      (GreenhouseData.set_lightIntensity
         (Math_round (1000 * (1 - GreenhouseData.shading greenhouse / 100))) greenhouse)
      envData.
Proof.
  intros Hfan. unfold applyLightAndVentilation. cbn. now rewrite Hfan.
Qed.
End EnvironmentMore.

(** X11.  With the fan off and a shading between 0 and 100 the light intensity is
    between 0 and 1000 and the branch adds a ten-thousandth of it to the
    temperature: the house never cools and warms by at most 0.1 degrees a
    tick; the humidity is not corrected and the ventilation start is
    forgotten. *)
Theorem closed_house_warms
    (s : SensorSimulator.t) (greenhouse : GreenhouseData.t)
    (envData : EnvironmentData.t) :
  GreenhouseData.fan greenhouse = false ->
  (0 <= GreenhouseData.shading greenhouse <= 100)%Q ->
  let s1 := fst (SensorSimulator.applyLightAndVentilation s greenhouse envData) in
  let g1 := snd (SensorSimulator.applyLightAndVentilation s greenhouse envData) in
  let T := GreenhouseData.temperature greenhouse in
  SensorSimulator.ventilationStartTime s1 !! GreenhouseData.id greenhouse = None
  /\ (0 <= GreenhouseData.lightIntensity g1 <= 1000)%Q
  /\ (GreenhouseData.temperature g1 == T + GreenhouseData.lightIntensity g1 * (1 # 10000))%Q
  /\ (T <= GreenhouseData.temperature g1 <= T + 0.1)%Q
  /\ GreenhouseData.humidity g1 = GreenhouseData.humidity greenhouse.
Proof.
  intros Hfan Hs s1 g1 T. unfold s1, g1.
  rewrite (applyLightAndVentilation_off s greenhouse envData Hfan).
  pose proof (lightIntensity_range _ Hs) as Hl.
  unfold SensorSimulator.heatFromLight, SensorSimulator.LIGHT_HEAT_EFFECT. cbn [fst snd].
  split; [cbn; apply lookup_delete_eq|].
  revert Hl.
  generalize (Math_round (1000 * (1 - GreenhouseData.shading greenhouse / 100))).
  intros light Hl. cbn. fold T.
  split; [exact Hl|].
  assert (E : (T + light * (3 / 500) / 60 == T + light * (1 # 10000))%Q)
    by (qdiv_const; lra).
  split; [exact E|]. split; [rewrite E; lra | reflexivity].
Qed.

(** Greenhouse 1 of the start configuration, fan off, no shading. *)
Lemma closed_house_warms_witness :
  (GreenhouseData.temperature house1
   <= GreenhouseData.temperature
        (snd (SensorSimulator.applyLightAndVentilation SensorSimulator.new house1 mildDay))
   <= GreenhouseData.temperature house1 + 0.1)%Q.
Proof.
  apply (closed_house_warms SensorSimulator.new house1 mildDay eq_refl).
  vm_compute. split; discriminate.
Defined.

(** X12.  Switching the fan off and on again restarts the ventilation, however
    long it ran before: after a tick with the fan off and the clock moved
    on, the next tick of the same greenhouse with the fan on records the
    current minute as the start, leaves the temperature alone and does not
    correct the humidity (elapsed is 0). *)
Theorem fan_restart_resets_ventilation
    (s : SensorSimulator.t) (greenhouse restarted : GreenhouseData.t)
    (envData envData' : EnvironmentData.t) :
  GreenhouseData.fan greenhouse = false ->
  GreenhouseData.id restarted = GreenhouseData.id greenhouse ->
  GreenhouseData.fan restarted = true ->
  let s1 :=
    SensorSimulator.updateTime
      (fst (SensorSimulator.updateGreenhouseEnvironment s greenhouse envData)) in
  let r := SensorSimulator.applyLightAndVentilation s1 restarted envData' in
  SensorSimulator.ventilationStartTime (fst r) !! GreenhouseData.id greenhouse
  = Some (SensorSimulator.minuteOfTheDay s1)
  /\ GreenhouseData.temperature (snd r) = GreenhouseData.temperature restarted
  /\ (GreenhouseData.humidity (snd r) == GreenhouseData.humidity restarted)%Q.
Proof.
  intros Hoff Hid Hon s1 r.
  assert (Hnone : SensorSimulator.ventilationStartTime s1 !! GreenhouseData.id restarted
                  = None).
  { unfold s1. rewrite Hid.
    destruct (updateGreenhouseEnvironment_clamps s greenhouse envData) as (-> & _).
    rewrite (applyLightAndVentilation_off s greenhouse envData Hoff).
    unfold SensorSimulator.updateTime, SensorSimulator.heatFromLight. cbn [fst].
    destruct (1440 <=? _)%Z; cbn; apply lookup_delete_eq. }
  clearbody s1. unfold r.
  rewrite (applyLightAndVentilation_on s1 restarted envData' Hon).
  unfold SensorSimulator.ventilate, SensorSimulator.ventilationStart.
  cbn [GreenhouseData.id GreenhouseData.set_lightIntensity].
  rewrite Hnone. rewrite Z.sub_diag.
  change (SensorSimulator.VENTILATION_EXCHANGE_TIME <=? 0)%Z with false.
  cbn [fst snd]. rewrite <- Hid.
  split; [cbn; apply lookup_insert_eq|]. split; [reflexivity|].
  cbn. unfold SensorSimulator.VENTILATION_EXCHANGE_TIME.
  change (inject_Z 0) with 0%Q. change (inject_Z 30) with 30%Q. qdiv_const. lra.
Qed.

(** Greenhouse 1: forty minutes of ventilation, fan off for a tick, on
    again: the start is the minute after. *)
Lemma fan_restart_resets_ventilation_witness :
  SensorSimulator.ventilationStartTime
    (fst (SensorSimulator.applyLightAndVentilation
            (SensorSimulator.updateTime
               (fst (SensorSimulator.updateGreenhouseEnvironment
                       (SensorSimulator.mk [] 100 40 {[ 1%Z := 0%Z ]} ∅) house1 mildDay)))
            humidFannedHouse mildDay)) !! GreenhouseData.id house1
  = Some 41%Z.
Proof.
  exact (proj1 (fan_restart_resets_ventilation
                  (SensorSimulator.mk [] 100 40 {[ 1%Z := 0%Z ]} ∅)
                  house1 humidFannedHouse mildDay mildDay eq_refl eq_refl eq_refl)).
Defined.

(** X13.  The elapsed time is a difference of minutes of the day, and the clock
    keeps the recorded start when the day rolls over.  When the start is a
    later minute than the current one, the elapsed time is negative: the
    temperature is not corrected, and the gap between the humidity and 60
    grows by the factor [1 + (start - minute) / 600] instead of
    shrinking. *)
Theorem ventilation_across_midnight
    (s : SensorSimulator.t) (greenhouse : GreenhouseData.t)
    (envData : EnvironmentData.t) (start : Z) :
  GreenhouseData.fan greenhouse = true ->
  SensorSimulator.ventilationStartTime s !! GreenhouseData.id greenhouse = Some start ->
  (SensorSimulator.minuteOfTheDay s < start)%Z ->
  let g1 := snd (SensorSimulator.applyLightAndVentilation s greenhouse envData) in
  let H := GreenhouseData.humidity greenhouse in
  GreenhouseData.temperature g1 = GreenhouseData.temperature greenhouse
  /\ (GreenhouseData.humidity g1 - 60
      == (H - 60) * (1 + inject_Z (start - SensorSimulator.minuteOfTheDay s) * (1 # 600)))%Q
  /\ ((60 <= H)%Q -> (H <= GreenhouseData.humidity g1)%Q)
  /\ ((H <= 60)%Q -> (GreenhouseData.humidity g1 <= H)%Q).
Proof.
  intros Hon Hstart Hlt g1 H. unfold g1.
  rewrite (applyLightAndVentilation_on s greenhouse envData Hon).
  unfold SensorSimulator.ventilate, SensorSimulator.ventilationStart.
  cbn [GreenhouseData.id GreenhouseData.set_lightIntensity].
  rewrite Hstart.
  destruct (Z.leb_spec SensorSimulator.VENTILATION_EXCHANGE_TIME
              (SensorSimulator.minuteOfTheDay s - start)) as [Hge|_].
  { unfold SensorSimulator.VENTILATION_EXCHANGE_TIME in Hge. lia. }
  cbn. fold H. split; [reflexivity|].
  unfold SensorSimulator.VENTILATION_EXCHANGE_TIME.
  assert (Hneg : (inject_Z (SensorSimulator.minuteOfTheDay s - start) < 0)%Q).
  { change 0%Q with (inject_Z 0). rewrite <- Zlt_Qlt. lia. }
  assert (Hopp : (inject_Z (start - SensorSimulator.minuteOfTheDay s)
                  == - inject_Z (SensorSimulator.minuteOfTheDay s - start))%Q).
  { rewrite <- inject_Z_opp. f_equiv. lia. }
  revert Hneg Hopp.
  generalize (inject_Z (SensorSimulator.minuteOfTheDay s - start)).
  generalize (inject_Z (start - SensorSimulator.minuteOfTheDay s)).
  intros back elapsed Hneg Hopp. change (inject_Z 30) with 30%Q. qdiv_const.
  split; [rewrite Hopp; lra|]. split; intros HH; nra.
Qed.

(** Ventilation started at 23:50, read at 00:05. *)
Lemma ventilation_across_midnight_witness :
  GreenhouseData.temperature
    (snd (SensorSimulator.applyLightAndVentilation
            (SensorSimulator.mk [] 101 5 {[ 1%Z := 1430%Z ]} ∅) humidFannedHouse mildDay))
  = GreenhouseData.temperature humidFannedHouse.
Proof.
  apply (ventilation_across_midnight
           (SensorSimulator.mk [] 101 5 {[ 1%Z := 1430%Z ]} ∅)
           humidFannedHouse mildDay 1430 eq_refl).
  - vm_compute. reflexivity.
  - cbn. lia.
Defined.

(** ** The whole tick *)

Section WholeTick.
#[local] Open Scope Q_scope.
Import SensorSimulator.

Lemma sameClock_refl (s : SensorSimulator.t) : sameClock s s.
Proof. repeat split. Qed.

Lemma sameClock_trans (a b c : SensorSimulator.t) :
  sameClock a b -> sameClock b c -> sameClock a c.
Proof. intros (A1 & A2 & A3) (B1 & B2 & B3). repeat split; congruence. Qed.

Lemma updateGreenhouseEnvironment_frame (s : SensorSimulator.t)
    (greenhouse : GreenhouseData.t) (envData : EnvironmentData.t) :
  sameClock s (fst (updateGreenhouseEnvironment s greenhouse envData))
  /\ GreenhouseData.id (snd (updateGreenhouseEnvironment s greenhouse envData))
     = GreenhouseData.id greenhouse
  /\ GreenhouseData.name (snd (updateGreenhouseEnvironment s greenhouse envData))
     = GreenhouseData.name greenhouse
  /\ GreenhouseData.fan (snd (updateGreenhouseEnvironment s greenhouse envData))
     = GreenhouseData.fan greenhouse
  /\ GreenhouseData.shading (snd (updateGreenhouseEnvironment s greenhouse envData))
     = GreenhouseData.shading greenhouse
  /\ GreenhouseData.tables (snd (updateGreenhouseEnvironment s greenhouse envData))
     = GreenhouseData.tables greenhouse.
Proof.
  destruct greenhouse as [gid gname light temp hum fan shading tables].
  unfold updateGreenhouseEnvironment, applyLightAndVentilation.
  cbn [GreenhouseData.fan GreenhouseData.set_lightIntensity].
  destruct fan.
  - unfold ventilate. cbv zeta.
    destruct (VENTILATION_EXCHANGE_TIME <=? _)%Z;
      unfold limitHumidity; js_case; repeat split.
  - unfold heatFromLight, limitHumidity. js_case; repeat split.
Qed.

Lemma updateGreenhouseEnvironment_houseRanges (s : SensorSimulator.t)
    (greenhouse : GreenhouseData.t) (envData : EnvironmentData.t) :
  houseRanges (snd (updateGreenhouseEnvironment s greenhouse envData)).
Proof.
  destruct (updateGreenhouseEnvironment_clamps s greenhouse envData) as (_ & Ht & Hh).
  pose proof (limitHumidity_le
                (snd (applyLightAndVentilation s greenhouse envData))) as Hcap.
  unfold houseRanges. rewrite Ht, Hh.
  revert Hcap.
  generalize (GreenhouseData.humidity
                (limitHumidity (snd (applyLightAndVentilation s greenhouse envData)))).
  generalize (GreenhouseData.temperature
                (snd (applyLightAndVentilation s greenhouse envData))).
  intros t h Hcap.
  destruct (Math_min_spec 70 t) as [[? ->]|[? ->]];
    destruct (Math_min_spec 100 h) as [[? ->]|[? ->]];
    minmax_cases; repeat split; lra.
Qed.

Lemma checkOverFertilization_frame (s : SensorSimulator.t) (key : string)
    (table : PlantTable.t) :
  sameClock s (fst (checkOverFertilization s key table)).
Proof.
  unfold checkOverFertilization.
  destruct (Qlt_bool 100 (PlantTable.soilFertility table)); [|repeat split].
  destruct (OVER_FERTILIZER_DEATH <=? overFertilizedMinutes s key + 1)%Z; repeat split.
Qed.

Lemma updateTableData_frame (s : SensorSimulator.t) (table : PlantTable.t)
    (house : GreenhouseData.t) :
  sameClock s (fst (updateTableData s table house)).
Proof.
  unfold updateTableData.
  destruct (Qle_bool (PlantTable.plantCount table) 0 || Qle_bool (PlantTable.plantSize table) 0);
    [apply sameClock_refl|].
  destruct (Qlt_bool DEATH_TEMP (GreenhouseData.temperature house));
    [apply sameClock_refl|].
  pose proof (checkOverFertilization_frame s (tableKey house table) table) as Hf.
  destruct (checkOverFertilization s (tableKey house table) table) as [s1 died].
  now destruct died.
Qed.

(** What one table tick gives, for the whole-tick invariants. *)
Lemma updateTableData_summary (s : SensorSimulator.t) (table : PlantTable.t)
    (house : GreenhouseData.t) :
  let table' := snd (updateTableData s table house) in
  sameSettings table table'
  /\ (tableBounds table -> tableBounds table')
  /\ (liveTable table' ->
      PlantTable.temperature table' = GreenhouseData.temperature house).
Proof.
  intros table'. unfold table'.
  destruct (updateTableData_cases s table house) as [[Hd ->]|[[Hl ->]|[Hl ->]]].
  - split; [apply sameSettings_refl|]. split; [auto|]. intros Hl. contradiction.
  - split; [apply killPlants_settings|]. split; [apply killPlants_bounds|].
    intros [Hc _]. exfalso. revert Hc. unfold killPlants. table_simpl. apply Qlt_irrefl.
  - split; [apply liveTick_settings|]. split; [apply liveTick_bounds|].
    intros _. apply liveTick_settings.
Qed.

Lemma updateTables_summary (house : GreenhouseData.t) (tables : list PlantTable.t) :
  forall s : SensorSimulator.t,
    sameClock s (fst (updateTables s tables house))
    /\ Forall2 sameSettings tables (snd (updateTables s tables house))
    /\ (Forall tableBounds tables ->
        Forall tableBounds (snd (updateTables s tables house)))
    /\ Forall (fun table => liveTable table ->
                 PlantTable.temperature table = GreenhouseData.temperature house)
         (snd (updateTables s tables house)).
Proof.
  induction tables as [|table rest IH]; intros s.
  - cbn. repeat split; constructor.
  - cbn [updateTables].
    pose proof (updateTableData_frame s table house) as Hclock.
    destruct (updateTableData_summary s table house) as (Hset & Hb & Ht).
    destruct (updateTableData s table house) as [s1 table'].
    cbn [fst snd] in *.
    destruct (IH s1) as (Hclock' & Hset' & Hb' & Ht').
    destruct (updateTables s1 rest house) as [s2 rest']. cbn [fst snd] in *.
    split; [eapply sameClock_trans; eassumption|].
    split; [now constructor|]. split; [|now constructor].
    intros Hall. apply Forall_cons in Hall as [H1 H2]. constructor; auto.
Qed.
Lemma updateGreenhouseEnvironmentOf_Some (s s' : SensorSimulator.t)
    (greenhouse greenhouse' : GreenhouseData.t) (envData : option EnvironmentData.t) :
  updateGreenhouseEnvironmentOf s greenhouse envData = Some (s', greenhouse') ->
  exists record : EnvironmentData.t,
    updateGreenhouseEnvironment s greenhouse record = (s', greenhouse').
Proof.
  unfold updateGreenhouseEnvironmentOf. destruct envData as [record|].
  - intros [= E]. now exists record.
  - destruct (readsClimate s greenhouse); [discriminate|].
    intros [= E]. now exists unreadRecord.
Qed.

Lemma updateGreenhouseEnvironmentOf_runs (s : SensorSimulator.t)
    (greenhouse : GreenhouseData.t) (envData : option EnvironmentData.t) :
  envData <> None \/ GreenhouseData.fan greenhouse = false ->
  is_Some (updateGreenhouseEnvironmentOf s greenhouse envData).
Proof.
  unfold updateGreenhouseEnvironmentOf, readsClimate.
  destruct envData as [record|]; [eauto|].
  intros [H|H]; [congruence|]. rewrite H. cbn [andb]. eauto.
Qed.

Lemma simulateGreenhouse_summary (s s' : SensorSimulator.t)
    (greenhouse greenhouse' : GreenhouseData.t) (envData : option EnvironmentData.t) :
  simulateGreenhouse s greenhouse envData = Some (s', greenhouse') ->
  sameClock s s' /\ tickedHouse greenhouse greenhouse'.
Proof.
  unfold simulateGreenhouse.
  destruct (updateGreenhouseEnvironmentOf s greenhouse envData) as [[s1 g1]|] eqn:E;
    [|discriminate].
  apply updateGreenhouseEnvironmentOf_Some in E as [record E].
  destruct (updateGreenhouseEnvironment_frame s greenhouse record)
    as (Hclock & Hid & Hname & Hfan & Hshade & Htables).
  pose proof (updateGreenhouseEnvironment_houseRanges s greenhouse record) as Hranges.
  rewrite E in *. cbn [fst snd] in *.
  destruct (updateTables_summary g1 (GreenhouseData.tables g1) s1)
    as (Hclock' & Hset & Hb & Hfollow).
  destruct (updateTables s1 (GreenhouseData.tables g1) g1) as [s2 tables'].
  cbn [fst snd] in *. intros [= <- <-].
  split; [eapply sameClock_trans; eassumption|].
  unfold tickedHouse, sameHouseSettings, houseRanges, tablesFollowHouse, tablesInBounds.
  cbn [GreenhouseData.id GreenhouseData.name GreenhouseData.fan GreenhouseData.shading
       GreenhouseData.tables GreenhouseData.temperature GreenhouseData.humidity
       GreenhouseData.set_tables].
  rewrite <- Htables. repeat split; try assumption; apply Hranges.
Qed.

Lemma simulateGreenhouse_runs (s : SensorSimulator.t) (greenhouse : GreenhouseData.t)
    (envData : option EnvironmentData.t) :
  envData <> None \/ GreenhouseData.fan greenhouse = false ->
  is_Some (simulateGreenhouse s greenhouse envData).
Proof.
  intros H. unfold simulateGreenhouse.
  destruct (updateGreenhouseEnvironmentOf_runs s greenhouse envData H) as [[s1 g1] ->].
  destruct (updateTables s1 (GreenhouseData.tables g1) g1). eauto.
Qed.

Lemma simulateGreenhouses_summary (envData : option EnvironmentData.t)
    (greenhouses : list GreenhouseData.t) :
  forall (s s' : SensorSimulator.t) (greenhouses' : list GreenhouseData.t),
    simulateGreenhouses s greenhouses envData = Some (s', greenhouses') ->
    sameClock s s' /\ Forall2 tickedHouse greenhouses greenhouses'.
Proof.
  induction greenhouses as [|greenhouse rest IH]; intros s s' greenhouses'.
  - cbn. intros [= <- <-]. split; [apply sameClock_refl | constructor].
  - cbn [simulateGreenhouses].
    destruct (simulateGreenhouse s greenhouse envData) as [[s1 g1]|] eqn:E1; [|discriminate].
    destruct (simulateGreenhouses s1 rest envData) as [[s2 rest']|] eqn:E2; [|discriminate].
    intros [= <- <-].
    apply simulateGreenhouse_summary in E1 as [Hc1 Ht1].
    apply IH in E2 as [Hc2 Ht2].
    split; [eapply sameClock_trans; eassumption | now constructor].
Qed.

Lemma simulateGreenhouses_runs (envData : option EnvironmentData.t)
    (greenhouses : list GreenhouseData.t) :
  envData <> None \/ Forall (fun g => GreenhouseData.fan g = false) greenhouses ->
  forall s : SensorSimulator.t, is_Some (simulateGreenhouses s greenhouses envData).
Proof.
  intros H. induction greenhouses as [|greenhouse rest IH]; intros s.
  - cbn. eauto.
  - cbn [simulateGreenhouses].
    destruct (simulateGreenhouse_runs s greenhouse envData) as [[s1 g1] ->].
    { destruct H as [H|H]; [now left|]. right. now apply Forall_cons in H as [H _]. }
    destruct (IH ltac:(destruct H as [H|H];
                       [now left | right; now apply Forall_cons in H as [_ H]]) s1)
      as [[s2 rest'] ->].
    eauto.
Qed.

Lemma getCurrentEnvironmentData_loaded (s : SensorSimulator.t) :
  environmentData s <> [] -> getCurrentEnvironmentData s <> None.
Proof.
  unfold getCurrentEnvironmentData. destruct (environmentData s); [congruence|].
  intros _. destruct (Z.rem _ _ <? 0)%Z; discriminate.
Qed.

Lemma updateTime_step (s : SensorSimulator.t) :
  (0 <= minuteOfTheDay s < 1440)%Z ->
  (0 <= minuteOfTheDay (updateTime s) < 1440)%Z
  /\ minutesSinceDay0 (updateTime s) = (minutesSinceDay0 s + 1)%Z
  /\ environmentData (updateTime s) = environmentData s.
Proof.
  intros Hm. unfold updateTime, minutesSinceDay0.
  destruct (Z.leb_spec 1440 (minuteOfTheDay s + 1)); cbn; repeat split; lia.
Qed.

Lemma simulateAllGreenhouses_summary (s s' : SensorSimulator.t)
    (greenhouses greenhouses' : list GreenhouseData.t) :
  simulateAllGreenhouses s greenhouses = Some (s', greenhouses') ->
  Forall2 tickedHouse greenhouses greenhouses'
  /\ environmentData s' = environmentData s
  /\ currentDay s' = currentDay (updateTime s)
  /\ minuteOfTheDay s' = minuteOfTheDay (updateTime s).
Proof.
  unfold simulateAllGreenhouses. cbv zeta.
  destruct (simulateGreenhouses s greenhouses (getCurrentEnvironmentData s))
    as [[s1 gs1]|] eqn:E; [|discriminate].
  intros [= <- <-].
  apply simulateGreenhouses_summary in E as [(Hd & Hm & He) Ht].
  split; [assumption|]. unfold updateTime. rewrite Hd, Hm.
  destruct (1440 <=? minuteOfTheDay s + 1)%Z; cbn; auto.
Qed.
End WholeTick.

Section Runs.
#[local] Open Scope Q_scope.
Import SensorSimulator.

Lemma sameHouseSettings_refl (g : GreenhouseData.t) : sameHouseSettings g g.
Proof.
  unfold sameHouseSettings. repeat split.
  apply Forall_Forall2_diag, Forall_forall. intros x _. apply sameSettings_refl.
Qed.

Lemma sameHouseSettings_trans (a b c : GreenhouseData.t) :
  sameHouseSettings a b -> sameHouseSettings b c -> sameHouseSettings a c.
Proof.
  intros (A1 & A2 & A3 & A4 & A5) (B1 & B2 & B3 & B4 & B5).
  unfold sameHouseSettings. repeat split; try congruence.
  eapply Forall2_trans; [|eassumption|eassumption]. apply sameSettings_trans.
Qed.

Lemma tickedHouse_parts (greenhouses greenhouses' : list GreenhouseData.t) :
  Forall2 tickedHouse greenhouses greenhouses' ->
  Forall2 sameHouseSettings greenhouses greenhouses'
  /\ Forall houseRanges greenhouses'
  /\ Forall tablesFollowHouse greenhouses'
  /\ (Forall tablesInBounds greenhouses -> Forall tablesInBounds greenhouses').
Proof.
  induction 1 as [|g g' gs gs' (H1 & H2 & H3 & H4) _ (I1 & I2 & I3 & I4)].
  - repeat split; constructor.
  - split; [now constructor|]. split; [now constructor|]. split; [now constructor|].
    intros Hall. apply Forall_cons in Hall as [Hg Hgs]. constructor; auto.
Qed.

Lemma simulateTicks_summary (n : nat) :
  forall (s : SensorSimulator.t) (greenhouses : list GreenhouseData.t),
    environmentData s <> [] ->
    (0 <= minuteOfTheDay s < 1440)%Z ->
    exists (s' : SensorSimulator.t) (greenhouses' : list GreenhouseData.t),
      simulateTicks n s greenhouses = Some (s', greenhouses')
      /\ environmentData s' = environmentData s
      /\ (0 <= minuteOfTheDay s' < 1440)%Z
      /\ minutesSinceDay0 s' = (minutesSinceDay0 s + Z.of_nat n)%Z
      /\ Forall2 sameHouseSettings greenhouses greenhouses'
      /\ (Forall tablesInBounds greenhouses -> Forall tablesInBounds greenhouses')
      /\ ((0 < n)%nat
          \/ (Forall houseRanges greenhouses /\ Forall tablesFollowHouse greenhouses) ->
          Forall houseRanges greenhouses' /\ Forall tablesFollowHouse greenhouses').
Proof.
  induction n as [|n IH]; intros s greenhouses Hdata Hminute.
  - exists s, greenhouses. cbn [simulateTicks].
    split; [reflexivity|]. split; [reflexivity|]. split; [assumption|].
    split; [lia|].
    split; [apply Forall_Forall2_diag, Forall_forall; intros g _;
            apply sameHouseSettings_refl|].
    split; [auto|]. intros [H|H]; [lia | exact H].
  - cbn [simulateTicks].
    destruct (simulateGreenhouses_runs (getCurrentEnvironmentData s) greenhouses
                (or_introl (getCurrentEnvironmentData_loaded s Hdata)) s)
      as [[s0 gs0] Hrun].
    assert (Htick : simulateAllGreenhouses s greenhouses = Some (updateTime s0, gs0)).
    { unfold simulateAllGreenhouses. cbv zeta. now rewrite Hrun. }
    rewrite Htick.
    destruct (simulateAllGreenhouses_summary _ _ _ _ Htick) as (Ht & He & Hd & Hm).
    apply tickedHouse_parts in Ht as (T1 & T2 & T3 & T4).
    destruct (updateTime_step s Hminute) as (Hr1 & Hs1 & _).
    assert (Hminute1 : (0 <= minuteOfTheDay (updateTime s0) < 1440)%Z) by (rewrite Hm; exact Hr1).
    assert (Hdata1 : environmentData (updateTime s0) <> []) by (rewrite He; exact Hdata).
    destruct (IH (updateTime s0) gs0 Hdata1 Hminute1)
      as (s' & gs' & Hrun' & He' & Hr' & Hs' & S' & B' & R').
    exists s', gs'. split; [assumption|]. split; [congruence|]. split; [assumption|].
    split.
    { rewrite Hs'. unfold minutesSinceDay0 in *. rewrite Hd, Hm. lia. }
    split.
    { eapply Forall2_trans; [|eassumption|eassumption]. apply sameHouseSettings_trans. }
    split; [auto|]. intros _. apply R'. right. split; assumption.
Qed.
End Runs.

(** X14.  A tick fails only for want of climate data.  With a record loaded, or
    with every fan off, [simulateAllGreenhouses] runs to its end.  With no
    record loaded it throws as soon as the first greenhouse has its fan on
    for the exchange time of 30 minutes, because that branch reads the
    average temperature of the missing record. *)
Theorem tick_throws_only_without_climate_data
    (s : SensorSimulator.t) (greenhouses : list GreenhouseData.t) :
  (SensorSimulator.environmentData s <> []
   \/ Forall (fun g => GreenhouseData.fan g = false) greenhouses ->
   is_Some (SensorSimulator.simulateAllGreenhouses s greenhouses))
  /\ (forall (greenhouse : GreenhouseData.t) (rest : list GreenhouseData.t),
        SensorSimulator.environmentData s = [] ->
        greenhouses = greenhouse :: rest ->
        GreenhouseData.fan greenhouse = true ->
        (30 <= SensorSimulator.minuteOfTheDay s
               - SensorSimulator.ventilationStart s greenhouse)%Z ->
        SensorSimulator.simulateAllGreenhouses s greenhouses = None).
Proof.
  split.
  - intros H. unfold SensorSimulator.simulateAllGreenhouses. cbv zeta.
    destruct (simulateGreenhouses_runs
                (SensorSimulator.getCurrentEnvironmentData s) greenhouses) with (s := s)
      as [[s1 gs1] ->].
    + destruct H as [H|H]; [left; now apply getCurrentEnvironmentData_loaded | now right].
    + eauto.
  - intros greenhouse rest Hnone -> Hfan Hlong.
    unfold SensorSimulator.simulateAllGreenhouses, SensorSimulator.getCurrentEnvironmentData.
    rewrite Hnone. cbv zeta. cbn [SensorSimulator.simulateGreenhouses].
    unfold SensorSimulator.simulateGreenhouse, SensorSimulator.updateGreenhouseEnvironmentOf,
      SensorSimulator.readsClimate.
    rewrite Hfan. cbn [andb].
    destruct (Z.leb_spec SensorSimulator.VENTILATION_EXCHANGE_TIME
                (SensorSimulator.minuteOfTheDay s
                 - SensorSimulator.ventilationStart s greenhouse)) as [_|Hlt];
      [reflexivity|].
    unfold SensorSimulator.VENTILATION_EXCHANGE_TIME in Hlt. lia.
Qed.

(** No climate data, the fan of greenhouse 1 on since minute 0, minute 40. *)
Lemma tick_throws_only_without_climate_data_witness :
  SensorSimulator.simulateAllGreenhouses
    (SensorSimulator.mk [] 100 40 {[ 1%Z := 0%Z ]} ∅) [humidFannedHouse] = None.
Proof.
  apply (proj2 (tick_throws_only_without_climate_data
                  (SensorSimulator.mk [] 100 40 {[ 1%Z := 0%Z ]} ∅) [humidFannedHouse])
           humidFannedHouse [] eq_refl eq_refl eq_refl).
  vm_compute. discriminate.
Defined.

(** ** More on the manager *)

Section Registry.
#[local] Open Scope Q_scope.
Import GreenhouseManager.

(** Replacing the element at [i] by one on which the predicate agrees does
    not move what [find] finds. *)
Lemma list_find_insert_agree {A : Type} (P : A -> Prop) `{!forall x, Decision (P x)}
    (l : list A) :
  forall (i : nat) (x y : A),
    l !! i = Some x -> (P x <-> P y) ->
    list_find P (<[i := y]> l)
    = (fun found => (fst found, if decide (fst found = i) then y else snd found))
        <$> list_find P l.
Proof.
  induction l as [|a l IH]; intros i x y Hi Hxy; [discriminate|].
  destruct i as [|i].
  - change (<[0%nat := y]> (a :: l)) with (y :: l). cbn [list_find].
    cbn in Hi. injection Hi as ->.
    destruct (decide (P y)) as [Hy|Hy]; destruct (decide (P x)) as [Hx|Hx];
      try tauto; try (destruct (list_find P l) as [[j z]|]);
      cbn; repeat case_decide; try lia; reflexivity.
  - change (<[S i := y]> (a :: l)) with (a :: <[i := y]> l). cbn [list_find].
    cbn in Hi.
    destruct (decide (P a)).
    + cbn. repeat case_decide; try lia; reflexivity.
    + rewrite (IH i x y Hi Hxy).
      destruct (list_find P l) as [[j z]|]; cbn; repeat case_decide; try lia; reflexivity.
Qed.

Variables (m m' : GreenhouseManager.t) (greenhouseId tableId : Z).

Lemma tableFieldSet_getTable (assign : PlantTable.t -> PlantTable.t) :
  (forall table, PlantTable.id (assign table) = PlantTable.id table) ->
  tableFieldSet assign m greenhouseId tableId m' ->
  getTable m' greenhouseId tableId = assign <$> getTable m greenhouseId tableId
  /\ (forall g t : Z, g <> greenhouseId \/ t <> tableId ->
        getTable m' g t = getTable m g t)
  /\ (forall g : Z, g <> greenhouseId -> getGreenhouse m' g = getGreenhouse m g).
Proof.
  intros Hid (greenhouse & i & table & Hg & Hi & Htid & Hfirst & ->).
  assert (Hfind : forall t : Z,
             findTable
               (GreenhouseData.set_tables
                  (<[i := assign table]> (GreenhouseData.tables greenhouse)) greenhouse) t
             = (fun found => (fst found,
                              if decide (fst found = i) then assign table else snd found))
                 <$> findTable greenhouse t).
  { intros t. unfold findTable. cbn [GreenhouseData.tables GreenhouseData.set_tables].
    apply (list_find_insert_agree _ _ i table (assign table) Hi). now rewrite Hid. }
  assert (Hthis : findTable greenhouse tableId = Some (i, table)).
  { unfold findTable. apply list_find_Some. split; [assumption|]. split; [assumption|].
    intros j other Hj Hlt. now apply (Hfirst j other). }
  split; [|split].
  - unfold getTable. cbn [greenhouses set_greenhouses].
    rewrite lookup_insert_eq, Hg, Hfind, Hthis. cbn. now rewrite decide_True.
  - intros g t Hne. unfold getTable. cbn [greenhouses set_greenhouses].
    destruct (decide (g = greenhouseId)) as [->|Hg'].
    + rewrite lookup_insert_eq, Hg, Hfind.
      destruct (findTable greenhouse t) as [[j other]|] eqn:Ht; cbn; [|reflexivity].
      destruct (decide (j = i)) as [->|]; [|reflexivity].
      exfalso. unfold findTable in Ht. apply list_find_Some in Ht as (Hj & Hp & _).
      rewrite Hi in Hj. injection Hj as <-. destruct Hne as [Hne|Hne]; congruence.
    + now rewrite lookup_insert_ne by congruence.
  - intros g Hne. unfold getGreenhouse. cbn [greenhouses set_greenhouses].
    now rewrite lookup_insert_ne by congruence.
Qed.

Lemma greenhouseFieldSet_get (assign : GreenhouseData.t -> GreenhouseData.t) :
  (forall g, GreenhouseData.tables (assign g) = GreenhouseData.tables g) ->
  greenhouseFieldSet assign m greenhouseId m' ->
  getGreenhouse m' greenhouseId = assign <$> getGreenhouse m greenhouseId
  /\ (forall g : Z, g <> greenhouseId -> getGreenhouse m' g = getGreenhouse m g)
  /\ (forall g t : Z, getTable m' g t = getTable m g t).
Proof.
  intros Htables (greenhouse & Hg & ->). unfold getGreenhouse, getTable.
  cbn [greenhouses set_greenhouses]. split; [|split].
  - now rewrite lookup_insert_eq, Hg.
  - intros g Hne. now rewrite lookup_insert_ne by congruence.
  - intros g t. destruct (decide (g = greenhouseId)) as [->|Hne].
    + rewrite lookup_insert_eq, Hg. unfold findTable. now rewrite Htables.
    + now rewrite lookup_insert_ne by congruence.
Qed.
End Registry.

(** X17.  A successful table setter is read back by [getTable]: the table under
    the two ids is the old one with the one field assigned, every other
    table reads as before and so does every other greenhouse. *)
Theorem table_setters_are_read_back
    (m : GreenhouseManager.t) (greenhouseId tableId : Z) (state : bool) (lumens : Q) :
  let readBack (assign : PlantTable.t -> PlantTable.t) (r : GreenhouseManager.t * bool) :=
    snd r = true ->
    GreenhouseManager.getTable (fst r) greenhouseId tableId
    = assign <$> GreenhouseManager.getTable m greenhouseId tableId
    /\ (forall g t : Z, g <> greenhouseId \/ t <> tableId ->
          GreenhouseManager.getTable (fst r) g t = GreenhouseManager.getTable m g t)
    /\ (forall g : Z, g <> greenhouseId ->
          GreenhouseManager.getGreenhouse (fst r) g = GreenhouseManager.getGreenhouse m g) in
  readBack (PlantTable.set_water state)
    (GreenhouseManager.setTableWatering m greenhouseId tableId state)
  /\ readBack (PlantTable.set_fertilizer state)
       (GreenhouseManager.setTableFertilizer m greenhouseId tableId state)
  /\ readBack (PlantTable.set_artLight lumens)
       (GreenhouseManager.setTableLight m greenhouseId tableId lumens).
Proof.
  cbv zeta. split; [|split]; intros Hok.
  - apply tableFieldSet_getTable; [reflexivity|].
    now apply (table_mutator_spec m (PlantTable.set_water state) true greenhouseId tableId).
  - apply tableFieldSet_getTable; [reflexivity|].
    now apply (table_mutator_spec m (PlantTable.set_fertilizer state) true
                 greenhouseId tableId).
  - apply tableFieldSet_getTable; [reflexivity|].
    now apply (table_mutator_spec m (PlantTable.set_artLight lumens)
                 (Qle_bool 0 lumens && Qle_bool lumens 2000) greenhouseId tableId).
Qed.

(** 500 lumens on table 3 of greenhouse 2 of the running manager. *)
Lemma table_setters_are_read_back_witness :
  GreenhouseManager.getTable
    (fst (GreenhouseManager.setTableLight runningManager 2 3 500)) 2 3
  = PlantTable.set_artLight 500 <$> GreenhouseManager.getTable runningManager 2 3.
Proof.
  apply (proj2 (proj2 (table_setters_are_read_back runningManager 2 3 true 500))).
  vm_compute. reflexivity.
Defined.

(** X18.  A successful greenhouse setter is read back by [getGreenhouse]: the
    greenhouse under the id is the old one with the one field assigned,
    every other greenhouse reads as before, and no table has changed. *)
Theorem greenhouse_setters_are_read_back
    (m : GreenhouseManager.t) (greenhouseId : Z) (state : bool) (percentage : Q) :
  let readBack (assign : GreenhouseData.t -> GreenhouseData.t)
               (r : GreenhouseManager.t * bool) :=
    snd r = true ->
    GreenhouseManager.getGreenhouse (fst r) greenhouseId
    = assign <$> GreenhouseManager.getGreenhouse m greenhouseId
    /\ (forall g : Z, g <> greenhouseId ->
          GreenhouseManager.getGreenhouse (fst r) g = GreenhouseManager.getGreenhouse m g)
    /\ (forall g t : Z,
          GreenhouseManager.getTable (fst r) g t = GreenhouseManager.getTable m g t) in
  readBack (GreenhouseData.set_fan state)
    (GreenhouseManager.setGreenhouseFan m greenhouseId state)
  /\ readBack (GreenhouseData.set_shading percentage)
       (GreenhouseManager.setGreenhouseShading m greenhouseId percentage).
Proof.
  cbv zeta. split; intros Hok.
  - apply greenhouseFieldSet_get; [reflexivity|].
    now apply (greenhouse_mutator_spec m (GreenhouseData.set_fan state) true greenhouseId).
  - apply greenhouseFieldSet_get; [reflexivity|].
    now apply (greenhouse_mutator_spec m (GreenhouseData.set_shading percentage)
                 (Qle_bool 0 percentage && Qle_bool percentage 100) greenhouseId).
Qed.

(** Half shading on greenhouse 4 of the running manager. *)
Lemma greenhouse_setters_are_read_back_witness :
  GreenhouseManager.getGreenhouse
    (fst (GreenhouseManager.setGreenhouseShading runningManager 4 50)) 4
  = GreenhouseData.set_shading 50 <$> GreenhouseManager.getGreenhouse runningManager 4.
Proof.
  apply (proj2 (greenhouse_setters_are_read_back runningManager 4 true 50)).
  vm_compute. reflexivity.
Defined.

Lemma initializeGreenhouses_lookup (aDay : Z) (m : GreenhouseManager.t) (i : Z) :
  GreenhouseManager.greenhouses (GreenhouseManager.initializeGreenhouses aDay m) !! i
  = if decide (1 <= i <= 4)%Z
    then Some (GreenhouseManager.initialGreenhouse i aDay)
    else GreenhouseManager.greenhouses m !! i.
Proof.
  unfold GreenhouseManager.initializeGreenhouses.
  cbn [GreenhouseManager.greenhouses GreenhouseManager.set_greenhouses foldl].
  rewrite !lookup_insert. repeat case_decide; subst; try lia; reflexivity.
Qed.

(** X19.  [initializeGreenhouses] registers greenhouses 1 to 4 with tables 1 to 8
    each, all with the seed values and planted on the given day, replacing
    what was registered under these ids: [getGreenhouse] and [getTable] find
    exactly them there, no table under another table id, and under any other
    greenhouse id what was registered before. *)
Theorem initializeGreenhouses_registry
    (aDay : Z) (m : GreenhouseManager.t) (i j : Z) :
  let m' := GreenhouseManager.initializeGreenhouses aDay m in
  ((1 <= i <= 4)%Z ->
   GreenhouseManager.getGreenhouse m' i = Some (GreenhouseManager.initialGreenhouse i aDay)
   /\ ((1 <= j <= 8)%Z ->
       GreenhouseManager.getTable m' i j = Some (GreenhouseManager.initialTable i j aDay))
   /\ (~ (1 <= j <= 8)%Z -> GreenhouseManager.getTable m' i j = None))
  /\ (~ (1 <= i <= 4)%Z ->
      GreenhouseManager.getGreenhouse m' i = GreenhouseManager.getGreenhouse m i).
Proof.
  intros m'. unfold m', GreenhouseManager.getGreenhouse, GreenhouseManager.getTable.
  rewrite !initializeGreenhouses_lookup. split.
  - intros Hi. rewrite decide_True by assumption. split; [reflexivity|]. split.
    + intros Hj.
      assert (Hcases : j = 1%Z \/ j = 2%Z \/ j = 3%Z \/ j = 4%Z
                       \/ j = 5%Z \/ j = 6%Z \/ j = 7%Z \/ j = 8%Z) by lia.
      destruct Hcases as [->|[->|[->|[->|[->|[->|[->| ->]]]]]]]; reflexivity.
    + intros Hj.
      assert (Hnone : GreenhouseManager.findTable
                        (GreenhouseManager.initialGreenhouse i aDay) j = None).
      { unfold GreenhouseManager.findTable. apply list_find_None.
        unfold GreenhouseManager.initialGreenhouse.
        cbn [GreenhouseData.tables fmap list_fmap].
        repeat (constructor; [cbn; lia|]). constructor. }
      now rewrite Hnone.
  - intros Hi. now rewrite decide_False by assumption.
Qed.

(** Table 5 of greenhouse 3, planted on day 100. *)
Lemma initializeGreenhouses_registry_witness :
  GreenhouseManager.getTable
    (GreenhouseManager.initializeGreenhouses 100 GreenhouseManager.new) 3 5
  = Some (GreenhouseManager.initialTable 3 5 100).
Proof.
  apply (proj1 (proj2 (proj1 (initializeGreenhouses_registry 100 GreenhouseManager.new 3 5)
                         ltac:(lia)))).
  lia.
Defined.

(** ** More on the simulation speed *)

(** X20.  After a successful [setSimulationSpeed] the time step is at least 1, and
    it is 1 for every speed from the base time step up: with the base of 100
    the speeds from 100 to 1000 all run at one time step per simulated
    minute.  The time step depends on the base and the last accepted speed
    only: a second accepted call leaves the manager the first call alone
    would have left. *)
Theorem speed_is_capped_by_base_time_step
    (m : GreenhouseManager.t) (speed earlier : Q) :
  (0 < speed)%Q -> (speed <= 1000)%Q ->
  let m' := fst (GreenhouseManager.setSimulationSpeed m speed) in
  (1 <= GreenhouseManager.timeStep m')%Q
  /\ ((GreenhouseManager.baseTimeStep m <= speed)%Q ->
      (GreenhouseManager.timeStep m' == 1)%Q)
  /\ fst (GreenhouseManager.setSimulationSpeed
            (fst (GreenhouseManager.setSimulationSpeed m earlier)) speed) = m'.
Proof.
  intros Hpos Hmax m'. unfold m', GreenhouseManager.setSimulationSpeed.
  destruct (Qlt_bool_spec 0 speed) as [_|Habs]; [|lra].
  destruct (Qle_bool_spec speed 1000) as [_|Habs]; [|lra].
  cbn [andb fst GreenhouseManager.timeStep].
  split; [apply Math_max_lb_l|]. split.
  - intros Hbase.
    assert (Hq : (GreenhouseManager.baseTimeStep m / speed <= 1)%Q)
      by (apply Qle_shift_div_r; lra).
    destruct (Math_max_spec 1 (GreenhouseManager.baseTimeStep m / speed))
      as [[H1 ->]|[H1 ->]]; [lra | reflexivity].
  - destruct (Qlt_bool 0 earlier && Qle_bool earlier 1000); [|reflexivity].
    cbn [fst GreenhouseManager.greenhouses GreenhouseManager.sensorSimulator
         GreenhouseManager.simulationInterval GreenhouseManager.baseTimeStep].
    now destruct (GreenhouseManager.simulationInterval m).
Qed.

(** Speed 1000 on the running manager: the time step is 1, as for 100. *)
Lemma speed_is_capped_by_base_time_step_witness :
  (GreenhouseManager.timeStep
     (fst (GreenhouseManager.setSimulationSpeed runningManager 1000)) == 1)%Q.
Proof.
  apply (proj1 (proj2 (speed_is_capped_by_base_time_step runningManager 1000 10
                         ltac:(reflexivity) ltac:(vm_compute; discriminate)))).
  vm_compute. discriminate.
Defined.

(** ** Drought, capacity and the side maps *)

Section DroughtAndCapacity.
#[local] Open Scope Q_scope.
Import SensorSimulator.

Lemma Math_ceil_positive (x : Q) : 0 < x -> 1 <= Math_ceil x /\ Math_ceil x < x + 1.
Proof.
  intros Hx. unfold Math_ceil.
  pose proof (Qle_ceiling x) as Hge. pose proof (Qceiling_lt x) as Hlt.
  assert (H1 : (1 <= Qceiling x)%Z).
  { assert (H0 : inject_Z 0 < inject_Z (Qceiling x)) by (change (inject_Z 0) with 0; lra).
    rewrite <- Zlt_Qlt in H0. lia. }
  split.
  - change 1 with (inject_Z 1). now rewrite <- Zle_Qle.
  - unfold Z.sub in Hlt. rewrite inject_Z_plus, inject_Z_opp in Hlt.
    change (inject_Z 1) with 1 in Hlt. lra.
Qed.

Lemma Qdiv_antitone (x c d : Q) : 0 <= x -> 0 < c -> c <= d -> x / d <= x / c.
Proof.
  intros Hx Hc Hcd. apply Qle_shift_div_l; [assumption|].
  assert (Hq : 0 <= x / d) by (apply Qle_shift_div_l; lra).
  assert (Hd : d * (x / d) == x) by (apply Qmult_div_r; lra).
  nra.
Qed.
End DroughtAndCapacity.

(** X21.  The drought block on a table with plants: at a soil moisture below 10
    it takes fewer than one percent of the plants and one more and never
    goes below zero; from a table that holds at least one plant it takes at
    least one plant, and a table with less than one plant is emptied; from a
    moisture of 10 on it takes none. *)
Theorem drought_takes_one_percent_rounded_up (table : PlantTable.t) :
  (0 < PlantTable.plantCount table)%Q ->
  ((PlantTable.soilMoisture table < 10)%Q ->
   (0 <= PlantTable.plantCount (SensorSimulator.drought table))%Q
   /\ (PlantTable.plantCount table * 0.99 - 1
       < PlantTable.plantCount (SensorSimulator.drought table))%Q
   /\ ((1 <= PlantTable.plantCount table)%Q ->
       (PlantTable.plantCount (SensorSimulator.drought table)
        <= PlantTable.plantCount table - 1)%Q)
   /\ ((PlantTable.plantCount table < 1)%Q ->
       (PlantTable.plantCount (SensorSimulator.drought table) == 0)%Q))
  /\ ((10 <= PlantTable.soilMoisture table)%Q -> SensorSimulator.drought table = table).
Proof.
  intros Hc. split; [|apply drought_moist].
  intros Hm. unfold SensorSimulator.drought.
  destruct (Qlt_bool_spec (PlantTable.soilMoisture table) 10) as [_|Habs]; [|lra].
  table_simpl.
  destruct (Math_ceil_positive (PlantTable.plantCount table * 0.01)) as [H1 H2]; [lra|].
  revert H1 H2. generalize (Math_ceil (PlantTable.plantCount table * 0.01)).
  intros deathCount H1 H2. minmax_cases; repeat split; intros; lra.
Qed.

(** 1000 dry plants lose ten, so at least one. *)
Lemma drought_takes_one_percent_rounded_up_witness :
  (PlantTable.plantCount
     (SensorSimulator.drought
        (PlantTable.set_plantCount 1000
           (PlantTable.set_soilMoisture 5 (GreenhouseManager.initialTable 1 1 100))))
   <= 1000 - 1)%Q.
Proof.
  refine (proj1 (proj2 (proj2 (proj1 (drought_takes_one_percent_rounded_up
                                       (PlantTable.set_plantCount 1000
                                          (PlantTable.set_soilMoisture 5
                                             (GreenhouseManager.initialTable 1 1 100)))
                                       _) _))) _).
  - reflexivity.
  - reflexivity.
  - vm_compute. discriminate.
Defined.

(** X22.  The capacity of a table is at least 24 for every plant size; above
    2 cm it never grows with the size; and from 15 cm on it is at most
    480. *)
Theorem capacity_shrinks_with_size (small large : Q) :
  (24 <= SensorSimulator.calculateMaxPlants small)%Q
  /\ ((2 < small)%Q -> (small <= large)%Q ->
      (SensorSimulator.calculateMaxPlants large
       <= SensorSimulator.calculateMaxPlants small)%Q)
  /\ ((15 <= small)%Q -> (SensorSimulator.calculateMaxPlants small <= 480)%Q).
Proof.
  split; [apply calculateMaxPlants_ge_24|].
  assert (Hfloor : forall a b : Q,
             (2 < a)%Q -> (a <= b)%Q ->
             (Math_floor (480 / (b / 15 * (b / 15)))
              <= Math_floor (480 / (a / 15 * (a / 15))))%Q).
  { intros a b Ha Hab. apply Math_floor_mono.
    assert (Hra : (0 < a / 15)%Q) by (apply Qlt_shift_div_l; lra).
    assert (Hrab : (a / 15 <= b / 15)%Q).
    { apply Qle_shift_div_r; [lra|].
      assert (E : (b / 15 * 15 == b)%Q) by (qdiv_const; lra). lra. }
    apply Qdiv_antitone; [lra | nra | nra]. }
  split.
  - intros Hs Hle. unfold SensorSimulator.calculateMaxPlants, SensorSimulator.MAX_PLANT_SIZE.
    destruct (Qle_bool_spec small 2); [lra|]. destruct (Qle_bool_spec large 2); [lra|].
    cbv zeta. pose proof (Hfloor small large Hs Hle) as Hmono.
    revert Hmono.
    generalize (Math_floor (480 / (large / 15 * (large / 15)))).
    generalize (Math_floor (480 / (small / 15 * (small / 15)))).
    intros cs cl Hmono. minmax_cases; lra.
  - intros Hs. unfold SensorSimulator.calculateMaxPlants, SensorSimulator.MAX_PLANT_SIZE.
    destruct (Qle_bool_spec small 2); [lra|]. cbv zeta.
    pose proof (Hfloor 15 small ltac:(lra) Hs) as Hmono.
    change (Math_floor (480 / (15 / 15 * (15 / 15)))) with 480%Q in Hmono.
    revert Hmono. generalize (Math_floor (480 / (small / 15 * (small / 15)))).
    intros cs Hmono. minmax_cases; lra.
Qed.

(** A table of 20 cm plants holds no more than one of 16 cm plants. *)
Lemma capacity_shrinks_with_size_witness :
  (SensorSimulator.calculateMaxPlants 20 <= SensorSimulator.calculateMaxPlants 16)%Q.
Proof.
  apply (proj1 (proj2 (capacity_shrinks_with_size 16 20)));
    unfold Qlt, Qle; simpl; lia.
Defined.

(** X23.  The updates write to their own entry of the side maps only.  A table
    tick leaves the ventilation starts alone and every over-fertilisation
    counter but the one under the key of this table in this house; a
    greenhouse update leaves the over-fertilisation counters alone and every
    ventilation start but the one of this greenhouse. *)
Theorem updates_touch_their_own_entries
    (s : SensorSimulator.t) (table : PlantTable.t) (house : GreenhouseData.t)
    (envData : EnvironmentData.t) :
  (SensorSimulator.ventilationStartTime
     (fst (SensorSimulator.updateTableData s table house))
   = SensorSimulator.ventilationStartTime s
   /\ forall key : string,
        key <> SensorSimulator.tableKey house table ->
        SensorSimulator.overFertilizerTime
          (fst (SensorSimulator.updateTableData s table house)) !! key
        = SensorSimulator.overFertilizerTime s !! key)
  /\ (SensorSimulator.overFertilizerTime
        (fst (SensorSimulator.updateGreenhouseEnvironment s house envData))
      = SensorSimulator.overFertilizerTime s
      /\ forall other : Z,
           other <> GreenhouseData.id house ->
           SensorSimulator.ventilationStartTime
             (fst (SensorSimulator.updateGreenhouseEnvironment s house envData)) !! other
           = SensorSimulator.ventilationStartTime s !! other).
Proof.
  split.
  - unfold SensorSimulator.updateTableData.
    destruct (Qle_bool (PlantTable.plantCount table) 0 || Qle_bool (PlantTable.plantSize table) 0);
      [now split|].
    destruct (Qlt_bool SensorSimulator.DEATH_TEMP (GreenhouseData.temperature house));
      [now split|].
    assert (Hcheck :
              SensorSimulator.ventilationStartTime
                (fst (SensorSimulator.checkOverFertilization s
                        (SensorSimulator.tableKey house table) table))
              = SensorSimulator.ventilationStartTime s
              /\ forall key : string,
                   key <> SensorSimulator.tableKey house table ->
                   SensorSimulator.overFertilizerTime
                     (fst (SensorSimulator.checkOverFertilization s
                             (SensorSimulator.tableKey house table) table)) !! key
                   = SensorSimulator.overFertilizerTime s !! key).
    { unfold SensorSimulator.checkOverFertilization.
      generalize (SensorSimulator.tableKey house table). intros own.
      destruct (Qlt_bool 100 (PlantTable.soilFertility table)).
      - destruct (SensorSimulator.OVER_FERTILIZER_DEATH
                  <=? SensorSimulator.overFertilizedMinutes s own + 1)%Z;
          (split; [reflexivity|]); intros key Hne; cbn;
          destruct (SensorSimulator.overFertilizerTime s !! own);
          rewrite ?lookup_delete_ne, ?lookup_insert_ne by congruence; reflexivity.
      - split; [reflexivity|]. intros key Hne. cbn.
        now rewrite lookup_delete_ne by congruence. }
    destruct (SensorSimulator.checkOverFertilization s
                (SensorSimulator.tableKey house table) table) as [s1 died].
    now destruct died.
  - destruct (updateGreenhouseEnvironment_clamps s house envData) as (-> & _).
    unfold SensorSimulator.applyLightAndVentilation.
    cbn [GreenhouseData.fan GreenhouseData.set_lightIntensity].
    destruct (GreenhouseData.fan house).
    + unfold SensorSimulator.ventilate. cbn [fst].
      split; [reflexivity|]. intros other Hne. cbn.
      destruct (SensorSimulator.ventilationStartTime s !! GreenhouseData.id house);
        [reflexivity|]. now rewrite lookup_insert_ne by congruence.
    + unfold SensorSimulator.heatFromLight. cbn [fst].
      split; [reflexivity|]. intros other Hne. cbn.
      now rewrite lookup_delete_ne by congruence.
Qed.

(** The tick of table 1 of greenhouse 1 leaves the counter of table 2. *)
Lemma updates_touch_their_own_entries_witness :
  SensorSimulator.overFertilizerTime
    (fst (SensorSimulator.updateTableData
            (SensorSimulator.mk [] 100 0 ∅ {[ "1-2" := 3%Z ]}) fertileTable house1))
    !! "1-2"
  = SensorSimulator.overFertilizerTime
      (SensorSimulator.mk [] 100 0 ∅ {[ "1-2" := 3%Z ]}) !! "1-2".
Proof.
  apply (proj2 (proj1 (updates_touch_their_own_entries
                         (SensorSimulator.mk [] 100 0 ∅ {[ "1-2" := 3%Z ]})
                         fertileTable house1 mildDay))).
  vm_compute. discriminate.
Defined.

(** ** The soil fertility and the planting date *)

Section TableTickFertility.
#[local] Open Scope Q_scope.
Import SensorSimulator.

Variable s : SensorSimulator.t.

Lemma manageWater_unfertilised (table : PlantTable.t) (house : GreenhouseData.t) :
  PlantTable.water table && PlantTable.fertilizer table = false ->
  PlantTable.soilFertility (manageWater table house) = PlantTable.soilFertility table.
Proof.
  intros Hoff. unfold manageWater.
  destruct (PlantTable.water table); [|now table_simpl].
  cbn [andb] in Hoff. table_simpl. rewrite Hoff. now table_simpl.
Qed.

Lemma decayFertilizer_le (table : PlantTable.t) :
  PlantTable.soilFertility (decayFertilizer table) <= PlantTable.soilFertility table.
Proof.
  unfold decayFertilizer, FERTILIZER_DECAY.
  js_case; table_simpl; [minmax_cases; lra | lra].
Qed.

Lemma grow_fertility (table : PlantTable.t) (house : GreenhouseData.t) :
  PlantTable.soilFertility (grow table house) = PlantTable.soilFertility table.
Proof. unfold grow. js_case; now table_simpl. Qed.

Lemma drought_fertility (table : PlantTable.t) :
  PlantTable.soilFertility (drought table) = PlantTable.soilFertility table.
Proof. unfold drought. js_case; now table_simpl. Qed.

Lemma replantTable_fertility_le (table : PlantTable.t) :
  PlantTable.soilFertility (replantTable s table) <= 100.
Proof.
  destruct (replantTable_fields s table) as (_ & _ & _ & _ & ->).
  apply Math_min_ub_l.
Qed.

Lemma replantIfSparse_fertility_le (table : PlantTable.t) :
  PlantTable.soilFertility table <= 100 ->
  PlantTable.soilFertility (replantIfSparse s table) <= 100.
Proof.
  intros Hf. unfold replantIfSparse. js_case; [|assumption].
  apply replantTable_fertility_le.
Qed.

Lemma harvestIfReady_fertility_le (table : PlantTable.t) :
  PlantTable.soilFertility table <= 100 ->
  PlantTable.soilFertility (harvestIfReady s table) <= 100.
Proof.
  intros Hf. unfold harvestIfReady, harvestPlants.
  js_cases; try assumption; try apply replantTable_fertility_le; now table_simpl.
Qed.

Lemma crowd_fertility (table : PlantTable.t) :
  PlantTable.soilFertility (crowd table) = PlantTable.soilFertility table.
Proof. unfold crowd. js_case; now table_simpl. Qed.

Lemma liveTick_unfertilised (table : PlantTable.t) (house : GreenhouseData.t) :
  PlantTable.water table && PlantTable.fertilizer table = false ->
  PlantTable.soilFertility table <= 100 ->
  PlantTable.soilFertility (liveTick s table house) <= 100.
Proof.
  intros Hoff Hf. unfold liveTick. cbv zeta.
  rewrite crowd_fertility. apply harvestIfReady_fertility_le.
  change (PlantTable.soilFertility
            (replantIfSparse s
               (drought (grow (decayFertilizer (manageWater table house)) house)))
          <= 100).
  apply replantIfSparse_fertility_le.
  rewrite drought_fertility, grow_fertility.
  pose proof (decayFertilizer_le (manageWater table house)) as Hd.
  rewrite (manageWater_unfertilised table house Hoff) in Hd. lra.
Qed.

(** The planting date through the blocks: it is written by a replant
    only, and a replant leaves 480 seedlings of 2 cm that the rest of the
    tick does not touch. *)
Lemma liveTick_plantedDate (table : PlantTable.t) (house : GreenhouseData.t) :
  PlantTable.plantedDate (liveTick s table house) = PlantTable.plantedDate table
  \/ (PlantTable.plantedDate (liveTick s table house) = currentDay s
      /\ PlantTable.plantCount (liveTick s table house) = 480
      /\ PlantTable.plantSize (liveTick s table house) = 2).
Proof.
  unfold liveTick. cbv zeta.
  assert (Hd : PlantTable.plantedDate
                 (drought (grow (decayFertilizer (manageWater table house)) house))
               = PlantTable.plantedDate table).
  { destruct (drought_frame (grow (decayFertilizer (manageWater table house)) house))
      as (_ & _ & ->).
    destruct (grow_frame (decayFertilizer (manageWater table house)) house)
      as (_ & _ & _ & ->).
    destruct (decayFertilizer_frame (manageWater table house)) as (_ & _ & _ & ->).
    now destruct (manageWater_frame table house) as (_ & _ & ->). }
  revert Hd.
  generalize (drought (grow (decayFertilizer (manageWater table house)) house)).
  intros t4 Hd. unfold replantIfSparse. js_case.
  - right. destruct (replantTable_fields s t4) as (Ec & Es & Ed & _).
    rewrite (seedlings_untouched s _ _ Ec Es). table_simpl. auto.
  - generalize (GreenhouseData.temperature house). intros v.
    assert (Hd5 : PlantTable.plantedDate (PlantTable.set_temperature v t4)
                  = PlantTable.plantedDate table) by (now table_simpl).
    revert Hd5. generalize (PlantTable.set_temperature v t4). intros t5 Hd5.
    unfold harvestIfReady, harvestPlants. js_cases.
    + right.
      destruct (replantTable_fields s
                  (PlantTable.set_plantCount
                     (PlantTable.plantCount t5 - harvestCount t5) t5))
        as (Ec & Es & Ed & _).
      rewrite crowd_keep by (rewrite ?Es, ?Ec; lra). auto.
    + left. unfold crowd. js_case; now table_simpl.
    + left. unfold crowd. js_case; now table_simpl.
    + left. unfold crowd. js_case; now table_simpl.
Qed.
End TableTickFertility.

Lemma updateTableData_unfertilised
    (s : SensorSimulator.t) (table : PlantTable.t) (house : GreenhouseData.t) :
  PlantTable.water table && PlantTable.fertilizer table = false ->
  (PlantTable.soilFertility table <= 100)%Q ->
  PlantTable.water (snd (SensorSimulator.updateTableData s table house))
  && PlantTable.fertilizer (snd (SensorSimulator.updateTableData s table house)) = false
  /\ (PlantTable.soilFertility (snd (SensorSimulator.updateTableData s table house))
      <= 100)%Q.
Proof.
  intros Hoff Hf. split.
  - destruct (updateTableData_summary s table house) as ((_ & _ & _ & -> & ->) & _).
    exact Hoff.
  - unfold SensorSimulator.updateTableData.
    destruct (Qle_bool (PlantTable.plantCount table) 0
              || Qle_bool (PlantTable.plantSize table) 0); [exact Hf|].
    destruct (Qlt_bool SensorSimulator.DEATH_TEMP (GreenhouseData.temperature house));
      [exact Hf|].
    destruct (SensorSimulator.checkOverFertilization s
                (SensorSimulator.tableKey house table) table) as [s1 died].
    destruct died; [exact Hf|]. now apply liveTick_unfertilised.
Qed.

(** X25.  A tick writes the planting date only by replanting.  Whatever path
    the tick takes, the table either keeps its planting date, or it has
    been replanted in this tick: then the date is the current day and the
    table holds 480 seedlings of 2 cm. *)
Theorem planting_date_changes_only_by_replanting
    (s : SensorSimulator.t) (table : PlantTable.t) (house : GreenhouseData.t) :
  let table' := snd (SensorSimulator.updateTableData s table house) in
  PlantTable.plantedDate table' = PlantTable.plantedDate table
  \/ (PlantTable.plantedDate table' = SensorSimulator.currentDay s
      /\ PlantTable.plantCount table' = 480%Q
      /\ PlantTable.plantSize table' = 2%Q).
Proof.
  cbv zeta. unfold SensorSimulator.updateTableData.
  destruct (Qle_bool (PlantTable.plantCount table) 0
            || Qle_bool (PlantTable.plantSize table) 0); [now left|].
  destruct (Qlt_bool SensorSimulator.DEATH_TEMP (GreenhouseData.temperature house));
    [now left|].
  pose proof (checkOverFertilization_day s table (SensorSimulator.tableKey house table))
    as Hday.
  destruct (SensorSimulator.checkOverFertilization s
              (SensorSimulator.tableKey house table) table) as [s1 died].
  cbn [fst] in Hday. destruct died; [now left|].
  cbn [snd]. rewrite <- Hday. apply liveTick_plantedDate.
Qed.

(** ** The model with NaN on records without NaN *)

Ltac number_simpl :=
  cbv zeta;
  cbn [Number.add Number.sub Number.mul Number.div Number.le Number.lt Number.strictEq
       Number.max Number.min Number.floor Number.ceil Number.round Number.lift1
       Number.lift2 Number.compare2 Number.ofZ Number.value Number.numeric
       Number.within Number.atLeast
       Numeric.ofTable Numeric.ofHouse Numeric.ofRecord Numeric.withState
       Numeric.toTable Numeric.toHouse Numeric.toRecord Numeric.toState
       fst snd andb orb negb
       WithNaN.PlantTable.id WithNaN.PlantTable.position WithNaN.PlantTable.temperature
       WithNaN.PlantTable.plantSize WithNaN.PlantTable.plantCount
       WithNaN.PlantTable.soilMoisture WithNaN.PlantTable.soilFertility
       WithNaN.PlantTable.artLight WithNaN.PlantTable.water WithNaN.PlantTable.fertilizer
       WithNaN.PlantTable.plantedDate
       WithNaN.PlantTable.set_temperature WithNaN.PlantTable.set_plantSize
       WithNaN.PlantTable.set_plantCount WithNaN.PlantTable.set_soilMoisture
       WithNaN.PlantTable.set_soilFertility WithNaN.PlantTable.set_plantedDate
       WithNaN.GreenhouseData.id WithNaN.GreenhouseData.name
       WithNaN.GreenhouseData.lightIntensity WithNaN.GreenhouseData.temperature
       WithNaN.GreenhouseData.humidity WithNaN.GreenhouseData.fan
       WithNaN.GreenhouseData.shading WithNaN.GreenhouseData.tables
       WithNaN.GreenhouseData.set_lightIntensity WithNaN.GreenhouseData.set_temperature
       WithNaN.GreenhouseData.set_humidity WithNaN.GreenhouseData.set_tables
       WithNaN.EnvironmentData.tavg
       WithNaN.SensorSimulator.environmentData WithNaN.SensorSimulator.currentDay
       WithNaN.SensorSimulator.minuteOfTheDay WithNaN.SensorSimulator.ventilationStartTime
       WithNaN.SensorSimulator.overFertilizerTime
       WithNaN.SensorSimulator.set_ventilationStartTime
       WithNaN.SensorSimulator.set_overFertilizerTime
       PlantTable.id PlantTable.position PlantTable.temperature PlantTable.plantSize
       PlantTable.plantCount PlantTable.soilMoisture PlantTable.soilFertility
       PlantTable.artLight PlantTable.water PlantTable.fertilizer PlantTable.plantedDate
       PlantTable.set_temperature PlantTable.set_plantSize PlantTable.set_plantCount
       PlantTable.set_soilMoisture PlantTable.set_soilFertility PlantTable.set_artLight
       PlantTable.set_water PlantTable.set_fertilizer PlantTable.set_plantedDate
       GreenhouseData.id GreenhouseData.name GreenhouseData.lightIntensity
       GreenhouseData.temperature GreenhouseData.humidity GreenhouseData.fan
       GreenhouseData.shading GreenhouseData.tables
       GreenhouseData.set_lightIntensity GreenhouseData.set_temperature
       GreenhouseData.set_humidity GreenhouseData.set_tables
       EnvironmentData.tavg
       SensorSimulator.environmentData SensorSimulator.currentDay
       SensorSimulator.minuteOfTheDay SensorSimulator.ventilationStartTime
       SensorSimulator.overFertilizerTime SensorSimulator.set_ventilationStartTime
       SensorSimulator.set_overFertilizerTime].

(** Both models take the same branch: case analysis on each test. *)
Ltac same_branches :=
  number_simpl;
  repeat match goal with
         | |- context [if ?c then _ else _] => destruct c; number_simpl
         end;
  try reflexivity.

Section NumericFactors.
#[local] Open Scope Q_scope.

Lemma calculateMoistureFactor_numeric (moisture : Q) :
  WithNaN.SensorSimulator.calculateMoistureFactor moisture
  = Number.Num (SensorSimulator.calculateMoistureFactor moisture).
Proof.
  unfold WithNaN.SensorSimulator.calculateMoistureFactor,
    SensorSimulator.calculateMoistureFactor,
    WithNaN.SensorSimulator.OPTIMAL_MOISTURE_MIN, WithNaN.SensorSimulator.OPTIMAL_MOISTURE_MAX,
    SensorSimulator.OPTIMAL_MOISTURE_MIN, SensorSimulator.OPTIMAL_MOISTURE_MAX.
  same_branches.
Qed.

Lemma calculateFertilityFactor_numeric (fertility : Q) :
  WithNaN.SensorSimulator.calculateFertilityFactor fertility
  = Number.Num (SensorSimulator.calculateFertilityFactor fertility).
Proof.
  unfold WithNaN.SensorSimulator.calculateFertilityFactor,
    SensorSimulator.calculateFertilityFactor.
  same_branches.
Qed.

Lemma calculateLightFactor_numeric (houseLight tableLight : Q) :
  WithNaN.SensorSimulator.calculateLightFactor houseLight tableLight
  = Number.Num (SensorSimulator.calculateLightFactor houseLight tableLight).
Proof.
  unfold WithNaN.SensorSimulator.calculateLightFactor,
    SensorSimulator.calculateLightFactor.
  same_branches.
Qed.

Lemma calculateTemperatureFactor_numeric (temp : Q) :
  WithNaN.SensorSimulator.calculateTemperatureFactor temp
  = Number.Num (SensorSimulator.calculateTemperatureFactor temp).
Proof.
  unfold WithNaN.SensorSimulator.calculateTemperatureFactor,
    SensorSimulator.calculateTemperatureFactor,
    WithNaN.SensorSimulator.OPTIMAL_TEMP, SensorSimulator.OPTIMAL_TEMP,
    WithNaN.SensorSimulator.DEATH_TEMP, SensorSimulator.DEATH_TEMP.
  same_branches.
Qed.

Lemma calculateMaxPlants_numeric (plantSize : Q) :
  WithNaN.SensorSimulator.calculateMaxPlants plantSize
  = Number.Num (SensorSimulator.calculateMaxPlants plantSize).
Proof.
  unfold WithNaN.SensorSimulator.calculateMaxPlants, SensorSimulator.calculateMaxPlants,
    WithNaN.SensorSimulator.MAX_PLANT_SIZE, SensorSimulator.MAX_PLANT_SIZE.
  same_branches.
Qed.
End NumericFactors.

Section NumericTable.
#[local] Open Scope Q_scope.

Variable like : WithNaN.SensorSimulator.t.

Lemma replantTable_numeric (s : SensorSimulator.t) (table : PlantTable.t) :
  WithNaN.SensorSimulator.replantTable (Numeric.withState like s) (Numeric.ofTable table)
  = Numeric.ofTable (SensorSimulator.replantTable s table).
Proof. reflexivity. Qed.

Lemma harvestPlants_numeric (s : SensorSimulator.t) (table : PlantTable.t) :
  WithNaN.SensorSimulator.harvestPlants (Numeric.withState like s) (Numeric.ofTable table)
  = Numeric.ofTable (SensorSimulator.harvestPlants s table).
Proof.
  unfold WithNaN.SensorSimulator.harvestPlants, SensorSimulator.harvestPlants,
    WithNaN.SensorSimulator.harvestCount, SensorSimulator.harvestCount.
  number_simpl.
  destruct (Qlt_bool _ 24); [|reflexivity].
  apply (replantTable_numeric s
           (PlantTable.set_plantCount
              (PlantTable.plantCount table
               - Math_floor (PlantTable.plantCount table * 0.95)) table)).
Qed.

Lemma killPlants_numeric (table : PlantTable.t) :
  WithNaN.SensorSimulator.killPlants (Numeric.ofTable table)
  = Numeric.ofTable (SensorSimulator.killPlants table).
Proof. reflexivity. Qed.

Lemma tableKey_numeric (house : GreenhouseData.t) (table : PlantTable.t) :
  WithNaN.SensorSimulator.tableKey (Numeric.ofHouse house) (Numeric.ofTable table)
  = SensorSimulator.tableKey house table.
Proof. reflexivity. Qed.

Lemma checkOverFertilization_numeric
    (s : SensorSimulator.t) (key : string) (table : PlantTable.t) :
  WithNaN.SensorSimulator.checkOverFertilization (Numeric.withState like s) key
    (Numeric.ofTable table)
  = (Numeric.withState like (fst (SensorSimulator.checkOverFertilization s key table)),
     snd (SensorSimulator.checkOverFertilization s key table)).
Proof.
  unfold WithNaN.SensorSimulator.checkOverFertilization,
    SensorSimulator.checkOverFertilization,
    WithNaN.SensorSimulator.overFertilizedMinutes, SensorSimulator.overFertilizedMinutes,
    WithNaN.SensorSimulator.OVER_FERTILIZER_DEATH, SensorSimulator.OVER_FERTILIZER_DEATH.
  number_simpl.
  destruct (Qlt_bool 100 (PlantTable.soilFertility table)); [|reflexivity].
  destruct (SensorSimulator.overFertilizerTime s !! key);
    match goal with |- context [(10 <=? ?n)%Z] => destruct (10 <=? n)%Z end;
    reflexivity.
Qed.

Lemma evaporationRate_numeric (house : GreenhouseData.t) :
  WithNaN.SensorSimulator.evaporationRate (Numeric.ofHouse house)
  = Number.Num (SensorSimulator.evaporationRate house).
Proof. reflexivity. Qed.

Lemma manageWater_numeric (table : PlantTable.t) (house : GreenhouseData.t) :
  WithNaN.SensorSimulator.manageWater (Numeric.ofTable table) (Numeric.ofHouse house)
  = Numeric.ofTable (SensorSimulator.manageWater table house).
Proof.
  unfold WithNaN.SensorSimulator.manageWater, SensorSimulator.manageWater.
  rewrite evaporationRate_numeric. number_simpl.
  destruct (PlantTable.water table), (PlantTable.fertilizer table); reflexivity.
Qed.

Lemma decayFertilizer_numeric (table : PlantTable.t) :
  WithNaN.SensorSimulator.decayFertilizer (Numeric.ofTable table)
  = Numeric.ofTable (SensorSimulator.decayFertilizer table).
Proof.
  unfold WithNaN.SensorSimulator.decayFertilizer, SensorSimulator.decayFertilizer.
  number_simpl. destruct (Qlt_bool 0 (PlantTable.soilFertility table)); reflexivity.
Qed.

Lemma growthRate_numeric (table : PlantTable.t) (house : GreenhouseData.t) :
  WithNaN.SensorSimulator.growthRate (Numeric.ofTable table) (Numeric.ofHouse house)
  = Number.Num (SensorSimulator.growthRate table house).
Proof.
  unfold WithNaN.SensorSimulator.growthRate, SensorSimulator.growthRate.
  number_simpl.
  rewrite calculateMoistureFactor_numeric, calculateFertilityFactor_numeric,
    calculateLightFactor_numeric, calculateTemperatureFactor_numeric.
  reflexivity.
Qed.

Lemma grow_numeric (table : PlantTable.t) (house : GreenhouseData.t) :
  WithNaN.SensorSimulator.grow (Numeric.ofTable table) (Numeric.ofHouse house)
  = Numeric.ofTable (SensorSimulator.grow table house).
Proof.
  unfold WithNaN.SensorSimulator.grow, SensorSimulator.grow.
  rewrite growthRate_numeric. number_simpl.
  destruct (Qlt_bool 0 (SensorSimulator.growthRate table house)); reflexivity.
Qed.

Lemma drought_numeric (table : PlantTable.t) :
  WithNaN.SensorSimulator.drought (Numeric.ofTable table)
  = Numeric.ofTable (SensorSimulator.drought table).
Proof.
  unfold WithNaN.SensorSimulator.drought, SensorSimulator.drought.
  number_simpl. destruct (Qlt_bool (PlantTable.soilMoisture table) 10); reflexivity.
Qed.

Lemma replantIfSparse_numeric (s : SensorSimulator.t) (table : PlantTable.t) :
  WithNaN.SensorSimulator.replantIfSparse (Numeric.withState like s) (Numeric.ofTable table)
  = Numeric.ofTable (SensorSimulator.replantIfSparse s table).
Proof.
  unfold WithNaN.SensorSimulator.replantIfSparse, SensorSimulator.replantIfSparse.
  number_simpl.
  destruct (Qlt_bool (PlantTable.plantCount table) 24); [|reflexivity].
  apply replantTable_numeric.
Qed.

Lemma harvestIfReady_numeric (s : SensorSimulator.t) (table : PlantTable.t) :
  WithNaN.SensorSimulator.harvestIfReady (Numeric.withState like s) (Numeric.ofTable table)
  = Numeric.ofTable (SensorSimulator.harvestIfReady s table).
Proof.
  unfold WithNaN.SensorSimulator.harvestIfReady, SensorSimulator.harvestIfReady.
  number_simpl.
  destruct (Qle_bool 30 (PlantTable.plantSize table)
            && Qle_bool (PlantTable.soilMoisture table) 50); [|reflexivity].
  apply harvestPlants_numeric.
Qed.

Lemma crowd_numeric (table : PlantTable.t) :
  WithNaN.SensorSimulator.crowd (Numeric.ofTable table)
  = Numeric.ofTable (SensorSimulator.crowd table).
Proof.
  unfold WithNaN.SensorSimulator.crowd, SensorSimulator.crowd.
  number_simpl. rewrite calculateMaxPlants_numeric. number_simpl.
  destruct (Qlt_bool _ (PlantTable.plantCount table)); reflexivity.
Qed.

Lemma set_temperature_numeric (v : Q) (table : PlantTable.t) :
  WithNaN.PlantTable.set_temperature v (Numeric.ofTable table)
  = Numeric.ofTable (PlantTable.set_temperature v table).
Proof. reflexivity. Qed.

Lemma liveTick_numeric
    (s : SensorSimulator.t) (table : PlantTable.t) (house : GreenhouseData.t) :
  WithNaN.SensorSimulator.liveTick (Numeric.withState like s) (Numeric.ofTable table)
    (Numeric.ofHouse house)
  = Numeric.ofTable (SensorSimulator.liveTick s table house).
Proof.
  unfold WithNaN.SensorSimulator.liveTick, SensorSimulator.liveTick. cbv zeta.
  rewrite manageWater_numeric, decayFertilizer_numeric, grow_numeric, drought_numeric,
    replantIfSparse_numeric.
  change (WithNaN.GreenhouseData.temperature (Numeric.ofHouse house))
    with (Number.Num (GreenhouseData.temperature house)).
  rewrite set_temperature_numeric, harvestIfReady_numeric.
  apply crowd_numeric.
Qed.

(** On a table and a house without NaN the table tick of the model with
    NaN is the table tick of the rational model. *)
Lemma updateTableData_numeric
    (s : SensorSimulator.t) (table : PlantTable.t) (house : GreenhouseData.t) :
  WithNaN.SensorSimulator.updateTableData (Numeric.withState like s)
    (Numeric.ofTable table) (Numeric.ofHouse house)
  = (Numeric.withState like (fst (SensorSimulator.updateTableData s table house)),
     Numeric.ofTable (snd (SensorSimulator.updateTableData s table house))).
Proof.
  unfold WithNaN.SensorSimulator.updateTableData, SensorSimulator.updateTableData.
  cbv zeta. rewrite tableKey_numeric, checkOverFertilization_numeric.
  unfold WithNaN.SensorSimulator.DEATH_TEMP, SensorSimulator.DEATH_TEMP.
  number_simpl.
  destruct (Qle_bool (PlantTable.plantCount table) 0
            || Qle_bool (PlantTable.plantSize table) 0); [reflexivity|].
  destruct (Qlt_bool 60 (GreenhouseData.temperature house)); [reflexivity|].
  destruct (SensorSimulator.checkOverFertilization s
              (SensorSimulator.tableKey house table) table) as [s1 died].
  destruct died; cbn [fst snd]; [reflexivity|].
  rewrite liveTick_numeric. reflexivity.
Qed.
End NumericTable.

Section NumericHouse.
#[local] Open Scope Q_scope.

Variable like : WithNaN.SensorSimulator.t.

Lemma ventilationStart_numeric (s : SensorSimulator.t) (greenhouse : GreenhouseData.t) :
  WithNaN.SensorSimulator.ventilationStart (Numeric.withState like s)
    (Numeric.ofHouse greenhouse)
  = SensorSimulator.ventilationStart s greenhouse.
Proof. reflexivity. Qed.

Lemma readsClimate_numeric (s : SensorSimulator.t) (greenhouse : GreenhouseData.t) :
  WithNaN.SensorSimulator.readsClimate (Numeric.withState like s)
    (Numeric.ofHouse greenhouse)
  = SensorSimulator.readsClimate s greenhouse.
Proof. reflexivity. Qed.

Lemma ventilate_numeric (s : SensorSimulator.t) (greenhouse : GreenhouseData.t)
    (envData : WithNaN.EnvironmentData.t) :
  ((SensorSimulator.VENTILATION_EXCHANGE_TIME
    <=? SensorSimulator.minuteOfTheDay s
        - SensorSimulator.ventilationStart s greenhouse)%Z = true ->
   Numeric.record envData) ->
  WithNaN.SensorSimulator.ventilate (Numeric.withState like s)
    (Numeric.ofHouse greenhouse) envData
  = (Numeric.withState like
       (fst (SensorSimulator.ventilate s greenhouse (Numeric.toRecord envData))),
     Numeric.ofHouse
       (snd (SensorSimulator.ventilate s greenhouse (Numeric.toRecord envData)))).
Proof.
  intros Hread.
  unfold WithNaN.SensorSimulator.ventilate, SensorSimulator.ventilate.
  rewrite ventilationStart_numeric.
  change WithNaN.SensorSimulator.VENTILATION_EXCHANGE_TIME
    with SensorSimulator.VENTILATION_EXCHANGE_TIME.
  number_simpl.
  destruct (SensorSimulator.VENTILATION_EXCHANGE_TIME
            <=? SensorSimulator.minuteOfTheDay s
                - SensorSimulator.ventilationStart s greenhouse)%Z.
  - specialize (Hread eq_refl). unfold Numeric.record in Hread.
    destruct (WithNaN.EnvironmentData.tavg envData); [|destruct Hread].
    number_simpl. reflexivity.
  - reflexivity.
Qed.

Lemma heatFromLight_numeric (s : SensorSimulator.t) (greenhouse : GreenhouseData.t)
    (lightHeatIncrease : Q) :
  WithNaN.SensorSimulator.heatFromLight (Numeric.withState like s)
    (Numeric.ofHouse greenhouse) lightHeatIncrease
  = (Numeric.withState like
       (fst (SensorSimulator.heatFromLight s greenhouse lightHeatIncrease)),
     Numeric.ofHouse (snd (SensorSimulator.heatFromLight s greenhouse lightHeatIncrease))).
Proof. reflexivity. Qed.

Lemma limitHumidity_numeric (greenhouse : GreenhouseData.t) :
  WithNaN.SensorSimulator.limitHumidity (Numeric.ofHouse greenhouse)
  = Numeric.ofHouse (SensorSimulator.limitHumidity greenhouse).
Proof.
  unfold WithNaN.SensorSimulator.limitHumidity, SensorSimulator.limitHumidity,
    WithNaN.SensorSimulator.MAX_HUMIDITY, SensorSimulator.MAX_HUMIDITY.
  number_simpl. destruct (Qlt_bool 85 (GreenhouseData.humidity greenhouse)); reflexivity.
Qed.

Lemma ensureRanges_numeric (greenhouse : GreenhouseData.t) :
  WithNaN.SensorSimulator.ensureRanges (Numeric.ofHouse greenhouse)
  = Numeric.ofHouse (SensorSimulator.ensureRanges greenhouse).
Proof. reflexivity. Qed.

Lemma set_lightIntensity_numeric (v : Q) (greenhouse : GreenhouseData.t) :
  WithNaN.GreenhouseData.set_lightIntensity v (Numeric.ofHouse greenhouse)
  = Numeric.ofHouse (GreenhouseData.set_lightIntensity v greenhouse).
Proof. reflexivity. Qed.

Lemma applyLightAndVentilation_numeric
    (s : SensorSimulator.t) (greenhouse : GreenhouseData.t)
    (envData : WithNaN.EnvironmentData.t) :
  (SensorSimulator.readsClimate s greenhouse = true -> Numeric.record envData) ->
  WithNaN.SensorSimulator.applyLightAndVentilation (Numeric.withState like s)
    (Numeric.ofHouse greenhouse) envData
  = (Numeric.withState like
       (fst (SensorSimulator.applyLightAndVentilation s greenhouse
               (Numeric.toRecord envData))),
     Numeric.ofHouse
       (snd (SensorSimulator.applyLightAndVentilation s greenhouse
               (Numeric.toRecord envData)))).
Proof.
  intros Hread.
  unfold WithNaN.SensorSimulator.applyLightAndVentilation,
    SensorSimulator.applyLightAndVentilation. cbv zeta.
  change (WithNaN.GreenhouseData.shading (Numeric.ofHouse greenhouse))
    with (Number.Num (GreenhouseData.shading greenhouse)).
  change (Number.round (Number.mul 1000 (Number.sub 1 (Number.div
            (Number.Num (GreenhouseData.shading greenhouse)) 100))))
    with (Number.Num (Math_round (1000 * (1 - GreenhouseData.shading greenhouse / 100)))).
  rewrite set_lightIntensity_numeric.
  generalize (Math_round (1000 * (1 - GreenhouseData.shading greenhouse / 100))).
  intros light.
  change (WithNaN.GreenhouseData.fan
            (Numeric.ofHouse (GreenhouseData.set_lightIntensity light greenhouse)))
    with (GreenhouseData.fan greenhouse).
  change (GreenhouseData.fan (GreenhouseData.set_lightIntensity light greenhouse))
    with (GreenhouseData.fan greenhouse).
  unfold SensorSimulator.readsClimate in Hread.
  destruct (GreenhouseData.fan greenhouse).
  - apply ventilate_numeric. intros Hlate. apply Hread. exact Hlate.
  - apply heatFromLight_numeric.
Qed.

(** On a greenhouse without NaN, and with a record whose average
    temperature is a number whenever the update reads it, the environment
    update of the model with NaN is that of the rational model. *)
Lemma updateGreenhouseEnvironment_numeric
    (s : SensorSimulator.t) (greenhouse : GreenhouseData.t)
    (envData : WithNaN.EnvironmentData.t) :
  (SensorSimulator.readsClimate s greenhouse = true -> Numeric.record envData) ->
  WithNaN.SensorSimulator.updateGreenhouseEnvironment (Numeric.withState like s)
    (Numeric.ofHouse greenhouse) envData
  = (Numeric.withState like
       (fst (SensorSimulator.updateGreenhouseEnvironment s greenhouse
               (Numeric.toRecord envData))),
     Numeric.ofHouse
       (snd (SensorSimulator.updateGreenhouseEnvironment s greenhouse
               (Numeric.toRecord envData)))).
Proof.
  intros Hread.
  unfold WithNaN.SensorSimulator.updateGreenhouseEnvironment,
    SensorSimulator.updateGreenhouseEnvironment.
  rewrite (applyLightAndVentilation_numeric s greenhouse envData Hread).
  destruct (SensorSimulator.applyLightAndVentilation s greenhouse
              (Numeric.toRecord envData)) as [s1 g1].
  cbn [fst snd]. now rewrite limitHumidity_numeric, ensureRanges_numeric.
Qed.
End NumericHouse.

Section NumericRecords.

Lemma ofTable_toTable (table : WithNaN.PlantTable.t) :
  Numeric.table table -> Numeric.ofTable (Numeric.toTable table) = table.
Proof.
  destruct table as [i p t z c m f a w fe d].
  unfold Numeric.table. number_simpl.
  intros (Ht & Hz & Hc & Hm & Hf & Ha).
  destruct t, z, c, m, f, a; try contradiction. reflexivity.
Qed.

Lemma toTable_ofTable (table : PlantTable.t) :
  Numeric.toTable (Numeric.ofTable table) = table.
Proof. now destruct table. Qed.

Lemma table_ofTable (table : PlantTable.t) : Numeric.table (Numeric.ofTable table).
Proof. repeat split. Qed.

Lemma ofTables_toTables (tables : list WithNaN.PlantTable.t) :
  Forall Numeric.table tables -> Numeric.ofTable <$> (Numeric.toTable <$> tables) = tables.
Proof.
  induction 1 as [|table tables Ht _ IH]; [reflexivity|].
  cbn. now rewrite IH, ofTable_toTable.
Qed.

Lemma toTables_ofTables (tables : list PlantTable.t) :
  Numeric.toTable <$> (Numeric.ofTable <$> tables) = tables.
Proof.
  induction tables as [|table tables IH]; [reflexivity|].
  cbn. now rewrite IH, toTable_ofTable.
Qed.

Lemma ofHouse_toHouse (greenhouse : WithNaN.GreenhouseData.t) :
  Numeric.house greenhouse -> Numeric.ofHouse (Numeric.toHouse greenhouse) = greenhouse.
Proof.
  destruct greenhouse as [i n l t h f sh ts].
  unfold Numeric.house, Numeric.ofHouse, Numeric.toHouse. number_simpl.
  intros (Hl & Ht & Hh & Hs & Hts).
  rewrite (ofTables_toTables ts Hts).
  destruct l, t, h, sh; try contradiction. reflexivity.
Qed.

Lemma toHouse_ofHouse (greenhouse : GreenhouseData.t) :
  Numeric.toHouse (Numeric.ofHouse greenhouse) = greenhouse.
Proof.
  destruct greenhouse as [i n l t h f sh ts].
  unfold Numeric.house, Numeric.ofHouse, Numeric.toHouse. number_simpl.
  now rewrite toTables_ofTables.
Qed.

Lemma house_ofHouse (greenhouse : GreenhouseData.t) :
  Numeric.house (Numeric.ofHouse greenhouse).
Proof.
  unfold Numeric.house. number_simpl. repeat split.
  apply Forall_fmap, Forall_forall. intros table _. apply table_ofTable.
Qed.

Lemma ofHouses_toHouses (greenhouses : list WithNaN.GreenhouseData.t) :
  Forall Numeric.house greenhouses ->
  Numeric.ofHouse <$> (Numeric.toHouse <$> greenhouses) = greenhouses.
Proof.
  induction 1 as [|g gs Hg _ IH]; [reflexivity|].
  cbn. now rewrite IH, ofHouse_toHouse.
Qed.

Lemma toHouses_ofHouses (greenhouses : list GreenhouseData.t) :
  Numeric.toHouse <$> (Numeric.ofHouse <$> greenhouses) = greenhouses.
Proof.
  induction greenhouses as [|g gs IH]; [reflexivity|].
  cbn. now rewrite IH, toHouse_ofHouse.
Qed.

Lemma houses_ofHouses (greenhouses : list GreenhouseData.t) :
  Forall Numeric.house (Numeric.ofHouse <$> greenhouses).
Proof. apply Forall_fmap, Forall_forall. intros g _. apply house_ofHouse. Qed.

Lemma withState_toState (s : WithNaN.SensorSimulator.t) :
  Numeric.withState s (Numeric.toState s) = s.
Proof. now destruct s. Qed.

Lemma toState_withState (like : WithNaN.SensorSimulator.t) (s : SensorSimulator.t) :
  SensorSimulator.environmentData s
  = Numeric.toRecord <$> WithNaN.SensorSimulator.environmentData like ->
  Numeric.toState (Numeric.withState like s) = s.
Proof. destruct s. cbn. now intros ->. Qed.

Lemma getCurrentEnvironmentData_numeric (s : WithNaN.SensorSimulator.t) :
  SensorSimulator.getCurrentEnvironmentData (Numeric.toState s)
  = Numeric.toRecord <$> WithNaN.SensorSimulator.getCurrentEnvironmentData s.
Proof.
  unfold SensorSimulator.getCurrentEnvironmentData,
    WithNaN.SensorSimulator.getCurrentEnvironmentData.
  destruct s as [envs day minute vents overs]. number_simpl.
  destruct envs as [|e0 rest]; [reflexivity|].
  rewrite length_fmap.
  change (Numeric.toRecord <$> e0 :: rest)
    with (Numeric.toRecord e0 :: (Numeric.toRecord <$> rest)).
  cbv zeta.
  destruct (Z.rem day (Z.of_nat (length (e0 :: rest))) <? 0)%Z; [reflexivity|].
  cbn [fmap option_fmap option_map]. f_equal.
  change (Numeric.toRecord e0 :: (Numeric.toRecord <$> rest))
    with (map Numeric.toRecord (e0 :: rest)).
  apply map_nth.
Qed.

Lemma getCurrentEnvironmentData_member (s : WithNaN.SensorSimulator.t)
    (envData : WithNaN.EnvironmentData.t) :
  WithNaN.SensorSimulator.getCurrentEnvironmentData s = Some envData ->
  envData ∈ WithNaN.SensorSimulator.environmentData s.
Proof.
  unfold WithNaN.SensorSimulator.getCurrentEnvironmentData.
  destruct (WithNaN.SensorSimulator.environmentData s) as [|e0 rest] eqn:E;
    [discriminate|].
  cbv zeta. destruct (_ <? 0)%Z.
  - intros [= <-]. apply list_elem_of_here.
  - intros Hrec. apply (inj Some) in Hrec. rewrite <- Hrec.
    match goal with
    | |- nth ?n ?l ?d ∈ _ => destruct (nth_in_or_default n l d) as [Hin | ->]
    end.
    + now apply list_elem_of_In.
    + apply list_elem_of_here.
Qed.
End NumericRecords.

Section NumericTick.

Variable like : WithNaN.SensorSimulator.t.

Lemma updateTables_numeric (s : SensorSimulator.t) (tables : list PlantTable.t)
    (house : GreenhouseData.t) :
  WithNaN.SensorSimulator.updateTables (Numeric.withState like s)
    (Numeric.ofTable <$> tables) (Numeric.ofHouse house)
  = Numeric.ofTick like (fmap (M:=list) Numeric.ofTable) (SensorSimulator.updateTables s tables house).
Proof.
  revert s. induction tables as [|table tables IH]; intros s; [reflexivity|].
  cbn [fmap list_fmap WithNaN.SensorSimulator.updateTables SensorSimulator.updateTables].
  rewrite updateTableData_numeric.
  destruct (SensorSimulator.updateTableData s table house) as [s1 table1].
  cbn [fst snd]. rewrite IH.
  now destruct (SensorSimulator.updateTables s1 tables house) as [s2 tables2].
Qed.

Lemma updateGreenhouseEnvironmentOf_numeric
    (s : SensorSimulator.t) (greenhouse : GreenhouseData.t)
    (envData : option WithNaN.EnvironmentData.t) :
  (forall record, envData = Some record -> Numeric.record record) ->
  WithNaN.SensorSimulator.updateGreenhouseEnvironmentOf (Numeric.withState like s)
    (Numeric.ofHouse greenhouse) envData
  = Numeric.ofTick like Numeric.ofHouse
      <$> SensorSimulator.updateGreenhouseEnvironmentOf s greenhouse
            (Numeric.toRecord <$> envData).
Proof.
  intros Hnum.
  unfold WithNaN.SensorSimulator.updateGreenhouseEnvironmentOf,
    SensorSimulator.updateGreenhouseEnvironmentOf.
  destruct envData as [record|]; cbn [fmap option_fmap option_map].
  - rewrite updateGreenhouseEnvironment_numeric by (intros _; now apply Hnum).
    reflexivity.
  - rewrite readsClimate_numeric.
    destruct (SensorSimulator.readsClimate s greenhouse) eqn:Hread; [reflexivity|].
    rewrite updateGreenhouseEnvironment_numeric by (rewrite Hread; discriminate).
    reflexivity.
Qed.

Lemma simulateGreenhouse_numeric
    (s : SensorSimulator.t) (greenhouse : GreenhouseData.t)
    (envData : option WithNaN.EnvironmentData.t) :
  (forall record, envData = Some record -> Numeric.record record) ->
  WithNaN.SensorSimulator.simulateGreenhouse (Numeric.withState like s)
    (Numeric.ofHouse greenhouse) envData
  = Numeric.ofTick like Numeric.ofHouse
      <$> SensorSimulator.simulateGreenhouse s greenhouse (Numeric.toRecord <$> envData).
Proof.
  intros Hnum.
  unfold WithNaN.SensorSimulator.simulateGreenhouse, SensorSimulator.simulateGreenhouse.
  rewrite (updateGreenhouseEnvironmentOf_numeric s greenhouse envData Hnum).
  destruct (SensorSimulator.updateGreenhouseEnvironmentOf s greenhouse
              (Numeric.toRecord <$> envData)) as [[s1 g1]|]; [|reflexivity].
  cbn [fmap option_fmap option_map Numeric.ofTick fst snd].
  change (WithNaN.GreenhouseData.tables (Numeric.ofHouse g1))
    with (Numeric.ofTable <$> GreenhouseData.tables g1).
  rewrite updateTables_numeric.
  now destruct (SensorSimulator.updateTables s1 (GreenhouseData.tables g1) g1)
    as [s2 tables2].
Qed.

Lemma simulateGreenhouses_numeric
    (s : SensorSimulator.t) (greenhouses : list GreenhouseData.t)
    (envData : option WithNaN.EnvironmentData.t) :
  (forall record, envData = Some record -> Numeric.record record) ->
  WithNaN.SensorSimulator.simulateGreenhouses (Numeric.withState like s)
    (Numeric.ofHouse <$> greenhouses) envData
  = Numeric.ofTick like (fmap (M:=list) Numeric.ofHouse)
      <$> SensorSimulator.simulateGreenhouses s greenhouses (Numeric.toRecord <$> envData).
Proof.
  intros Hnum. revert s.
  induction greenhouses as [|g gs IH]; intros s; [reflexivity|].
  cbn [fmap list_fmap WithNaN.SensorSimulator.simulateGreenhouses
       SensorSimulator.simulateGreenhouses].
  rewrite (simulateGreenhouse_numeric s g envData Hnum).
  destruct (SensorSimulator.simulateGreenhouse s g (Numeric.toRecord <$> envData))
    as [[s1 g1]|]; [|reflexivity].
  cbn [fmap option_fmap option_map Numeric.ofTick fst snd]. rewrite IH.
  now destruct (SensorSimulator.simulateGreenhouses s1 gs (Numeric.toRecord <$> envData))
    as [[s2 gs2]|].
Qed.

Lemma updateTime_numeric (s : SensorSimulator.t) :
  WithNaN.SensorSimulator.updateTime (Numeric.withState like s)
  = Numeric.withState like (SensorSimulator.updateTime s).
Proof.
  unfold WithNaN.SensorSimulator.updateTime, SensorSimulator.updateTime.
  number_simpl. now destruct (1440 <=? SensorSimulator.minuteOfTheDay s + 1)%Z.
Qed.
End NumericTick.

Section NumericTicks.

Lemma simulateAllGreenhouses_numeric
    (s : WithNaN.SensorSimulator.t) (greenhouses : list GreenhouseData.t) :
  Forall Numeric.record (WithNaN.SensorSimulator.environmentData s) ->
  WithNaN.SensorSimulator.simulateAllGreenhouses s (Numeric.ofHouse <$> greenhouses)
  = Numeric.ofTick s (fmap (M:=list) Numeric.ofHouse)
      <$> SensorSimulator.simulateAllGreenhouses (Numeric.toState s) greenhouses.
Proof.
  intros Hnum.
  unfold WithNaN.SensorSimulator.simulateAllGreenhouses,
    SensorSimulator.simulateAllGreenhouses. cbv zeta.
  rewrite getCurrentEnvironmentData_numeric.
  assert (Hcur : forall record,
             WithNaN.SensorSimulator.getCurrentEnvironmentData s = Some record ->
             Numeric.record record).
  { intros record Hrec. apply getCurrentEnvironmentData_member in Hrec.
    revert Hrec. now apply Forall_forall. }
  pose proof (simulateGreenhouses_numeric s (Numeric.toState s) greenhouses _ Hcur) as E.
  rewrite withState_toState in E. rewrite E.
  destruct (SensorSimulator.simulateGreenhouses (Numeric.toState s) greenhouses _)
    as [[s1 gs1]|]; [|reflexivity].
  cbn [fmap option_fmap option_map Numeric.ofTick fst snd].
  now rewrite updateTime_numeric.
Qed.

Lemma simulateTicks_numeric (n : nat) :
  forall (s : WithNaN.SensorSimulator.t) (greenhouses : list GreenhouseData.t),
    Forall Numeric.record (WithNaN.SensorSimulator.environmentData s) ->
    WithNaN.SensorSimulator.simulateTicks n s (Numeric.ofHouse <$> greenhouses)
    = Numeric.ofTick s (fmap (M:=list) Numeric.ofHouse)
        <$> SensorSimulator.simulateTicks n (Numeric.toState s) greenhouses.
Proof.
  induction n as [|n IH]; intros s greenhouses Hnum.
  - cbn. unfold Numeric.ofTick. cbn [fst snd]. now rewrite withState_toState.
  - cbn [WithNaN.SensorSimulator.simulateTicks SensorSimulator.simulateTicks].
    rewrite (simulateAllGreenhouses_numeric s greenhouses Hnum).
    destruct (SensorSimulator.simulateAllGreenhouses (Numeric.toState s) greenhouses)
      as [[s1 gs1]|] eqn:E; [|reflexivity].
    cbn [fmap option_fmap option_map Numeric.ofTick fst snd].
    destruct (simulateAllGreenhouses_summary _ _ _ _ E) as (_ & He & _).
    rewrite (IH (Numeric.withState s s1) gs1 Hnum).
    rewrite (toState_withState s s1 He). reflexivity.
Qed.
End NumericTicks.

(** ** Records with NaN *)

(** C5, at the failing input.  Greenhouse 1 has its fan on for 40 minutes
    and is within its ranges; the climate record of the day has no average
    temperature (NaN).  The update reads it, the temperature becomes NaN,
    and [Math.max(0, Math.min(70, NaN))] leaves it NaN: the greenhouse is
    outside its ranges after the update. *)
Theorem blank_record_leaves_the_ranges :
  houseRangesOf fannedHouse
  /\ WithNaN.SensorSimulator.readsClimate minute40Blank fannedHouse = true
  /\ WithNaN.SensorSimulator.getCurrentEnvironmentData minute40Blank = Some blankDay
  /\ WithNaN.GreenhouseData.temperature houseAfterBlankDay = Number.NaN
  /\ ~ houseRangesOf houseAfterBlankDay.
Proof.
  split; [|split; [|split; [|split]]].
  - split; vm_compute; split; discriminate.
  - reflexivity.
  - reflexivity.
  - vm_compute. reflexivity.
  - intros [Ht _]. vm_compute in Ht. exact Ht.
Qed.

(** C4, at the failing input.  Table 1 of the start configuration is
    within its bounds and not watered; its greenhouse is the one the update
    above has left at a NaN temperature.  The tick passes the heat check
    ([NaN > 60] is false), the evaporation rate is NaN and
    [Math.max(0, 80 - NaN)] makes the soil moisture NaN: the table is outside
    its bounds.  The whole tick of [simulateAllGreenhouses] over that
    greenhouse completes and leaves each of its tables so. *)
Theorem nan_house_breaks_table_bounds :
  let table := Numeric.ofTable (GreenhouseManager.initialTable 1 1 100) in
  let table' :=
    snd (WithNaN.SensorSimulator.updateTableData minute40Blank table houseAfterBlankDay) in
  tableBoundsOf table
  /\ WithNaN.PlantTable.soilMoisture table' = Number.NaN
  /\ ~ tableBoundsOf table'
  /\ exists (s' : WithNaN.SensorSimulator.t) (greenhouse' : WithNaN.GreenhouseData.t),
       WithNaN.SensorSimulator.simulateAllGreenhouses minute40Blank [fannedHouse]
       = Some (s', [greenhouse'])
       /\ Forall tableBoundsOf (WithNaN.GreenhouseData.tables fannedHouse)
       /\ Forall (fun t => WithNaN.PlantTable.soilMoisture t = Number.NaN)
            (WithNaN.GreenhouseData.tables greenhouse').
Proof.
  cbv zeta. split; [|split; [|split]].
  - repeat split; vm_compute; discriminate.
  - vm_compute. reflexivity.
  - intros (_ & _ & Hm & _). vm_compute in Hm. exact Hm.
  - eexists _, _. split; [vm_compute; reflexivity|]. split.
    + unfold fannedHouse, house1. cbn.
      repeat (constructor; [repeat split; vm_compute; discriminate|]). constructor.
    + repeat (constructor; [vm_compute; reflexivity|]). constructor.
Qed.

(** ** Records without NaN *)

Section WithoutNaN.

Lemma houseRangesOf_ofHouse (greenhouse : GreenhouseData.t) :
  houseRangesOf (Numeric.ofHouse greenhouse) <-> houseRanges greenhouse.
Proof. reflexivity. Qed.

Lemma tableBoundsOf_ofTable (table : PlantTable.t) :
  tableBoundsOf (Numeric.ofTable table) <-> tableBounds table.
Proof. reflexivity. Qed.

Lemma tablesInBoundsOf_ofHouse (greenhouse : GreenhouseData.t) :
  tablesInBoundsOf (Numeric.ofHouse greenhouse) <-> tablesInBounds greenhouse.
Proof.
  unfold tablesInBoundsOf, tablesInBounds.
  change (WithNaN.GreenhouseData.tables (Numeric.ofHouse greenhouse))
    with (Numeric.ofTable <$> GreenhouseData.tables greenhouse).
  rewrite Forall_fmap. reflexivity.
Qed.

Lemma houseRangesOf_ofHouses (greenhouses : list GreenhouseData.t) :
  Forall houseRangesOf (Numeric.ofHouse <$> greenhouses) <-> Forall houseRanges greenhouses.
Proof. rewrite Forall_fmap. reflexivity. Qed.

Lemma tablesInBoundsOf_ofHouses (greenhouses : list GreenhouseData.t) :
  Forall tablesInBoundsOf (Numeric.ofHouse <$> greenhouses)
  <-> Forall tablesInBounds greenhouses.
Proof.
  rewrite Forall_fmap. apply Forall_iff. intros g. apply tablesInBoundsOf_ofHouse.
Qed.

(** A record without NaN is the reading of the rational record of its
    values. *)
Lemma house_values (greenhouse : WithNaN.GreenhouseData.t) :
  Numeric.house greenhouse ->
  exists g : GreenhouseData.t,
    greenhouse = Numeric.ofHouse g /\ Numeric.toHouse greenhouse = g.
Proof.
  intros H. exists (Numeric.toHouse greenhouse).
  split; [symmetry; now apply ofHouse_toHouse | reflexivity].
Qed.

Lemma table_values (table : WithNaN.PlantTable.t) :
  Numeric.table table ->
  exists t : PlantTable.t, table = Numeric.ofTable t /\ Numeric.toTable table = t.
Proof.
  intros H. exists (Numeric.toTable table).
  split; [symmetry; now apply ofTable_toTable | reflexivity].
Qed.

Lemma houses_values (greenhouses : list WithNaN.GreenhouseData.t) :
  Forall Numeric.house greenhouses ->
  exists gs : list GreenhouseData.t,
    greenhouses = Numeric.ofHouse <$> gs /\ Numeric.toHouse <$> greenhouses = gs.
Proof.
  intros H. exists (Numeric.toHouse <$> greenhouses).
  split; [symmetry; now apply ofHouses_toHouses | reflexivity].
Qed.

Lemma state_values (s : WithNaN.SensorSimulator.t) :
  exists q : SensorSimulator.t, s = Numeric.withState s q /\ Numeric.toState s = q.
Proof.
  exists (Numeric.toState s). split; [symmetry; apply withState_toState | reflexivity].
Qed.
End WithoutNaN.

(** X26.  The environment update on a greenhouse without NaN, under a record
    whose average temperature is a number: the temperature ends as a number
    in [0, 70], the humidity as a number in [0, 85], and the record still
    holds no NaN. *)
Theorem environment_update_in_range_on_numbers
    (s : WithNaN.SensorSimulator.t) (greenhouse : WithNaN.GreenhouseData.t)
    (envData : WithNaN.EnvironmentData.t) :
  Numeric.house greenhouse ->
  Numeric.record envData ->
  let greenhouse' :=
    snd (WithNaN.SensorSimulator.updateGreenhouseEnvironment s greenhouse envData) in
  houseRangesOf greenhouse' /\ Numeric.house greenhouse'.
Proof.
  intros Hg He. cbv zeta.
  destruct (house_values greenhouse Hg) as (g & -> & _).
  destruct (state_values s) as (q & -> & _).
  rewrite updateGreenhouseEnvironment_numeric by (intros _; exact He).
  cbn [snd]. split; [|apply house_ofHouse].
  apply houseRangesOf_ofHouse, updateGreenhouseEnvironment_houseRanges.
Qed.

(** Greenhouse 1 of the start configuration under the mild day. *)
Lemma environment_update_in_range_on_numbers_witness :
  houseRangesOf
    (snd (WithNaN.SensorSimulator.updateGreenhouseEnvironment minute40Blank fannedHouse
            (Numeric.ofRecord mildDay))).
Proof.
  refine (proj1 (environment_update_in_range_on_numbers minute40Blank fannedHouse
                   (Numeric.ofRecord mildDay) _ _)).
  - apply house_ofHouse.
  - exact I.
Defined.

(** X27.  The table tick on a table and a greenhouse without NaN: a table
    within the four bounds is within them after the tick, and still holds no
    NaN. *)
Theorem table_tick_in_bounds_on_numbers
    (s : WithNaN.SensorSimulator.t) (table : WithNaN.PlantTable.t)
    (house : WithNaN.GreenhouseData.t) :
  Numeric.table table ->
  Numeric.house house ->
  tableBoundsOf table ->
  let table' := snd (WithNaN.SensorSimulator.updateTableData s table house) in
  tableBoundsOf table' /\ Numeric.table table'.
Proof.
  intros Ht Hh Hb. cbv zeta.
  destruct (table_values table Ht) as (t & -> & _).
  destruct (house_values house Hh) as (g & -> & _).
  destruct (state_values s) as (q & -> & _).
  rewrite updateTableData_numeric. cbn [snd]. split; [|apply table_ofTable].
  apply tableBoundsOf_ofTable.
  destruct (updateTableData_summary q t g) as (_ & Hkeep & _).
  apply Hkeep. now apply tableBoundsOf_ofTable.
Qed.

(** Table 1 of the start configuration in its greenhouse. *)
Lemma table_tick_in_bounds_on_numbers_witness :
  tableBoundsOf
    (snd (WithNaN.SensorSimulator.updateTableData minute40Blank
            (Numeric.ofTable (GreenhouseManager.initialTable 1 1 100)) fannedHouse)).
Proof.
  refine (proj1 (table_tick_in_bounds_on_numbers minute40Blank
                   (Numeric.ofTable (GreenhouseManager.initialTable 1 1 100)) fannedHouse
                   _ _ _)).
  - apply table_ofTable.
  - apply house_ofHouse.
  - repeat split; vm_compute; discriminate.
Defined.

Section UnfertilisedTicks.
Import SensorSimulator.

Lemma updateTables_unfertilised (house : GreenhouseData.t) (tables : list PlantTable.t) :
  forall s : SensorSimulator.t,
    Forall unfertilisedWithin100 tables ->
    Forall unfertilisedWithin100 (snd (updateTables s tables house)).
Proof.
  induction tables as [|table rest IH]; intros s Hall; [constructor|].
  apply Forall_cons in Hall as [[Hoff Hf] Hrest].
  cbn [updateTables].
  pose proof (updateTableData_unfertilised s table house Hoff Hf) as Hone.
  destruct (updateTableData s table house) as [s1 table1].
  specialize (IH s1 Hrest).
  destruct (updateTables s1 rest house) as [s2 rest1].
  cbn [snd] in *. now constructor.
Qed.

Lemma simulateGreenhouse_unfertilised (s s' : SensorSimulator.t)
    (greenhouse greenhouse' : GreenhouseData.t) (envData : option EnvironmentData.t) :
  tablesUnfertilised greenhouse ->
  simulateGreenhouse s greenhouse envData = Some (s', greenhouse') ->
  tablesUnfertilised greenhouse'.
Proof.
  unfold simulateGreenhouse, tablesUnfertilised. intros Hall.
  destruct (updateGreenhouseEnvironmentOf s greenhouse envData) as [[s1 g1]|] eqn:E;
    [|discriminate].
  apply updateGreenhouseEnvironmentOf_Some in E as [record E].
  destruct (updateGreenhouseEnvironment_frame s greenhouse record)
    as (_ & _ & _ & _ & _ & Htables).
  rewrite E in Htables. cbn [snd] in Htables. rewrite <- Htables in Hall.
  pose proof (updateTables_unfertilised g1 (GreenhouseData.tables g1) s1 Hall) as Hticked.
  destruct (updateTables s1 (GreenhouseData.tables g1) g1) as [s2 tables'].
  intros [= <- <-]. exact Hticked.
Qed.

Lemma simulateGreenhouses_unfertilised (envData : option EnvironmentData.t)
    (greenhouses : list GreenhouseData.t) :
  forall (s s' : SensorSimulator.t) (greenhouses' : list GreenhouseData.t),
    Forall tablesUnfertilised greenhouses ->
    simulateGreenhouses s greenhouses envData = Some (s', greenhouses') ->
    Forall tablesUnfertilised greenhouses'.
Proof.
  induction greenhouses as [|greenhouse rest IH]; intros s s' greenhouses' Hall.
  - cbn. intros [= <- <-]. constructor.
  - apply Forall_cons in Hall as [Hone Hrest]. cbn [simulateGreenhouses].
    destruct (simulateGreenhouse s greenhouse envData) as [[s1 g1]|] eqn:E1; [|discriminate].
    destruct (simulateGreenhouses s1 rest envData) as [[s2 rest']|] eqn:E2; [|discriminate].
    intros [= <- <-]. constructor.
    + eapply simulateGreenhouse_unfertilised; eassumption.
    + eapply IH; eassumption.
Qed.

Lemma simulateTicks_unfertilised (n : nat) :
  forall (s s' : SensorSimulator.t) (greenhouses greenhouses' : list GreenhouseData.t),
    Forall tablesUnfertilised greenhouses ->
    simulateTicks n s greenhouses = Some (s', greenhouses') ->
    Forall tablesUnfertilised greenhouses'.
Proof.
  induction n as [|n IH]; intros s s' greenhouses greenhouses' Hall.
  - cbn. now intros [= <- <-].
  - cbn [simulateTicks]. unfold simulateAllGreenhouses. cbv zeta.
    destruct (simulateGreenhouses s greenhouses (getCurrentEnvironmentData s))
      as [[s1 gs1]|] eqn:E; [|discriminate].
    apply (IH (updateTime s1) s' gs1 greenhouses').
    eapply simulateGreenhouses_unfertilised; eassumption.
Qed.
End UnfertilisedTicks.

Section TicksWithoutNaN.

Lemma updateTime_values (s : WithNaN.SensorSimulator.t) :
  WithNaN.SensorSimulator.currentDay (WithNaN.SensorSimulator.updateTime s)
  = SensorSimulator.currentDay (SensorSimulator.updateTime (Numeric.toState s))
  /\ WithNaN.SensorSimulator.minuteOfTheDay (WithNaN.SensorSimulator.updateTime s)
     = SensorSimulator.minuteOfTheDay (SensorSimulator.updateTime (Numeric.toState s)).
Proof.
  rewrite <- (withState_toState s) at 1 3. rewrite updateTime_numeric.
  split; reflexivity.
Qed.
End TicksWithoutNaN.

(** X15.  One tick over greenhouses without NaN, under climate records
    whose average temperatures are numbers.  A tick that runs to its end
    leaves records without NaN; it keeps the greenhouses and their tables in
    place, with their ids, names, positions and actuator settings; every
    greenhouse ends within [0, 70] degrees and [0, 85] percent humidity;
    every table that is live afterwards shows the temperature its greenhouse
    just got; greenhouses whose tables were within their bounds still have
    them within bounds; the climate data is kept and the clock has moved as
    [updateTime] moves it. *)
Theorem one_tick_of_all_greenhouses
    (s s' : WithNaN.SensorSimulator.t)
    (greenhouses greenhouses' : list WithNaN.GreenhouseData.t) :
  Forall Numeric.record (WithNaN.SensorSimulator.environmentData s) ->
  Forall Numeric.house greenhouses ->
  WithNaN.SensorSimulator.simulateAllGreenhouses s greenhouses = Some (s', greenhouses') ->
  Forall Numeric.house greenhouses'
  /\ Forall houseRangesOf greenhouses'
  /\ Forall2 sameHouseSettings (Numeric.toHouse <$> greenhouses)
       (Numeric.toHouse <$> greenhouses')
  /\ Forall tablesFollowHouse (Numeric.toHouse <$> greenhouses')
  /\ (Forall tablesInBoundsOf greenhouses -> Forall tablesInBoundsOf greenhouses')
  /\ WithNaN.SensorSimulator.environmentData s' = WithNaN.SensorSimulator.environmentData s
  /\ WithNaN.SensorSimulator.currentDay s'
     = WithNaN.SensorSimulator.currentDay (WithNaN.SensorSimulator.updateTime s)
  /\ WithNaN.SensorSimulator.minuteOfTheDay s'
     = WithNaN.SensorSimulator.minuteOfTheDay (WithNaN.SensorSimulator.updateTime s).
Proof.
  intros Hrec Hnum.
  destruct (houses_values greenhouses Hnum) as (gs & -> & _).
  rewrite (simulateAllGreenhouses_numeric s gs Hrec).
  destruct (SensorSimulator.simulateAllGreenhouses (Numeric.toState s) gs)
    as [[q1 gs1]|] eqn:E; [|discriminate].
  cbn [fmap option_fmap option_map Numeric.ofTick fst snd]. intros [= <- <-].
  destruct (simulateAllGreenhouses_summary _ _ _ _ E) as (Ht & _ & Hd & Hm).
  apply tickedHouse_parts in Ht as (T1 & T2 & T3 & T4).
  destruct (updateTime_values s) as [Ed Em].
  rewrite !toHouses_ofHouses, !tablesInBoundsOf_ofHouses, houseRangesOf_ofHouses.
  split; [apply houses_ofHouses|].
  repeat split; try assumption.
  - cbn. now rewrite Ed.
  - cbn. now rewrite Em.
Qed.

(** X16.  With climate records loaded whose average temperatures are
    numbers, the minute inside the day, and greenhouses without NaN whose
    tables are within their bounds, any number of ticks runs to its end: the
    records still hold no NaN, the clock has counted the ticks, the
    greenhouses and tables are those it started with (same ids, names,
    positions and actuator settings), the tables are within their bounds, and
    after at least one tick every greenhouse is within its ranges and every
    live table shows the temperature of its greenhouse. *)
Theorem simulation_runs_within_ranges
    (n : nat) (s : WithNaN.SensorSimulator.t)
    (greenhouses : list WithNaN.GreenhouseData.t) :
  WithNaN.SensorSimulator.environmentData s <> [] ->
  Forall Numeric.record (WithNaN.SensorSimulator.environmentData s) ->
  (0 <= WithNaN.SensorSimulator.minuteOfTheDay s < 1440)%Z ->
  Forall Numeric.house greenhouses ->
  Forall tablesInBoundsOf greenhouses ->
  exists (s' : WithNaN.SensorSimulator.t) (greenhouses' : list WithNaN.GreenhouseData.t),
    WithNaN.SensorSimulator.simulateTicks n s greenhouses = Some (s', greenhouses')
    /\ Forall Numeric.house greenhouses'
    /\ minutesSinceDay0 (Numeric.toState s')
       = (minutesSinceDay0 (Numeric.toState s) + Z.of_nat n)%Z
    /\ (0 <= WithNaN.SensorSimulator.minuteOfTheDay s' < 1440)%Z
    /\ Forall2 sameHouseSettings (Numeric.toHouse <$> greenhouses)
         (Numeric.toHouse <$> greenhouses')
    /\ Forall tablesInBoundsOf greenhouses'
    /\ ((0 < n)%nat ->
        Forall houseRangesOf greenhouses'
        /\ Forall tablesFollowHouse (Numeric.toHouse <$> greenhouses')).
Proof.
  intros Hdata Hrec Hminute Hnum Hbounds.
  destruct (houses_values greenhouses Hnum) as (gs & -> & _).
  rewrite (simulateTicks_numeric n s gs Hrec).
  assert (Hdata' : SensorSimulator.environmentData (Numeric.toState s) <> []).
  { cbn. destruct (WithNaN.SensorSimulator.environmentData s); [congruence | discriminate]. }
  destruct (simulateTicks_summary n (Numeric.toState s) gs Hdata' Hminute)
    as (q' & gs' & Hrun & He & Hr & Hs & S' & B' & R').
  rewrite Hrun. cbn [fmap option_fmap option_map Numeric.ofTick fst snd].
  eexists _, _. split; [reflexivity|]. cbn [fst snd].
  rewrite !toHouses_ofHouses, !tablesInBoundsOf_ofHouses, houseRangesOf_ofHouses.
  rewrite (toState_withState s q' He).
  apply tablesInBoundsOf_ofHouses in Hbounds.
  split; [apply houses_ofHouses|].
  repeat split; try assumption; try apply Hr; auto.
  - apply R'. now left.
  - apply R'. now left.
Qed.

(** X24.  Tables that are not being fertilised and start at a fertility of
    at most 100 are at most at 100 after any number of ticks of the whole
    simulation, each under the greenhouse record as the tick has just
    rewritten it: the decay only lowers the fertility and a replant tops it
    up to 100 at most.  Stated for greenhouses without NaN under climate
    records whose average temperatures are numbers. *)
Theorem unfertilised_tables_stay_within_100
    (n : nat) (s s' : WithNaN.SensorSimulator.t)
    (greenhouses greenhouses' : list WithNaN.GreenhouseData.t) :
  Forall Numeric.record (WithNaN.SensorSimulator.environmentData s) ->
  Forall Numeric.house greenhouses ->
  Forall tablesUnfertilised (Numeric.toHouse <$> greenhouses) ->
  WithNaN.SensorSimulator.simulateTicks n s greenhouses = Some (s', greenhouses') ->
  Forall Numeric.house greenhouses'
  /\ Forall tablesUnfertilised (Numeric.toHouse <$> greenhouses').
Proof.
  intros Hrec Hnum.
  destruct (houses_values greenhouses Hnum) as (gs & -> & _).
  rewrite (simulateTicks_numeric n s gs Hrec), toHouses_ofHouses.
  intros Hall.
  destruct (SensorSimulator.simulateTicks n (Numeric.toState s) gs)
    as [[q1 gs1]|] eqn:E; [|discriminate].
  cbn [fmap option_fmap option_map Numeric.ofTick fst snd]. intros [= <- <-].
  rewrite toHouses_ofHouses. split; [apply houses_ofHouses|].
  eapply simulateTicks_unfertilised; eassumption.
Qed.


(** One tick of greenhouse 1 under the mild day. *)
Lemma one_tick_of_all_greenhouses_witness :
  Forall houseRangesOf
    (snd (default (mildMidnight, [])
            (WithNaN.SensorSimulator.simulateAllGreenhouses mildMidnight [startHouse]))).
Proof.
  refine (proj1 (proj2 (one_tick_of_all_greenhouses mildMidnight
                          (fst (default (mildMidnight, [])
                                  (WithNaN.SensorSimulator.simulateAllGreenhouses
                                     mildMidnight [startHouse])))
                          [startHouse] _ _ _ _))).
  - repeat constructor.
  - constructor; [apply house_ofHouse | constructor].
  - vm_compute. reflexivity.
Defined.

(** Ten ticks of greenhouse 1 of the start configuration under the mild
    day. *)
Lemma simulation_runs_within_ranges_witness :
  exists (s' : WithNaN.SensorSimulator.t) (greenhouses' : list WithNaN.GreenhouseData.t),
    WithNaN.SensorSimulator.simulateTicks 10 mildMidnight [startHouse]
    = Some (s', greenhouses')
    /\ Forall Numeric.house greenhouses'
    /\ minutesSinceDay0 (Numeric.toState s')
       = (minutesSinceDay0 (Numeric.toState mildMidnight) + Z.of_nat 10)%Z
    /\ (0 <= WithNaN.SensorSimulator.minuteOfTheDay s' < 1440)%Z
    /\ Forall2 sameHouseSettings (Numeric.toHouse <$> [startHouse])
         (Numeric.toHouse <$> greenhouses')
    /\ Forall tablesInBoundsOf greenhouses'
    /\ ((0 < 10)%nat ->
        Forall houseRangesOf greenhouses'
        /\ Forall tablesFollowHouse (Numeric.toHouse <$> greenhouses')).
Proof.
  apply (simulation_runs_within_ranges 10 mildMidnight [startHouse]).
  - discriminate.
  - repeat constructor.
  - cbn. lia.
  - constructor; [apply house_ofHouse | constructor].
  - repeat constructor; vm_compute; discriminate.
Defined.

(** Three ticks of greenhouse 1 of the start configuration, whose tables
    start at a fertility of 100 with both actuators off. *)
Lemma unfertilised_tables_stay_within_100_witness :
  Forall tablesUnfertilised
    (Numeric.toHouse
       <$> snd (default (mildMidnight, [])
                  (WithNaN.SensorSimulator.simulateTicks 3 mildMidnight [startHouse]))).
Proof.
  refine (proj2 (unfertilised_tables_stay_within_100 3 mildMidnight
                   (fst (default (mildMidnight, [])
                           (WithNaN.SensorSimulator.simulateTicks 3 mildMidnight
                              [startHouse])))
                   [startHouse] _ _ _ _ _)).
  - repeat constructor.
  - constructor; [apply house_ofHouse | constructor].
  - repeat constructor; vm_compute; discriminate.
  - vm_compute. reflexivity.
Defined.

